(** * DungeonBuilder server side: rating aggregation, lobby lifecycle,
      friendship graph and leaderboard ranks

    A shallow embedding of the service layer of the DungeonBuilder backend
    ([services/database.py], [services/dungeon_service.py],
    [services/lobby_service.py], [services/friendship_service.py],
    [services/leaderboard_service.py]) together with the properties of the
    design document that concern those services.

    Modelling conventions.
    - A container of the document store is the list of its documents in
      insertion order.  A document is addressed by its [id] and its
      partition key, the [partitionKey] field every service writes.
    - Documents are typed by the pydantic models of [models/]; the stored
      dictionary and the model built from it are one record, which also
      carries the storage fields [partitionKey] and [updated_at].
    - A service method is a function from the database to an outcome and a
      database.  An exception keeps the database it was raised in: writes
      made before a [raise] are not rolled back.
    - [uuid.uuid4()] and [datetime.utcnow()] are inputs of the environment:
      a method that creates a document receives the generated identifier
      [uuid], a method that reads the clock receives the instant [now]
      (all clock reads of one call observe the same instant).  Instants
      are integers (microseconds); the order of their ISO-8601 renderings,
      which the source compares as strings, is the order of the instants.
    - Python [int] is [Z]; Python [float] is IEEE-754 binary64, taken from
      the specification of floating-point numbers of the standard library. *)

From Stdlib Require Import ZArith List String Bool Lia.
From Stdlib Require Import SpecFloat Sorted.
Import ListNotations.
Local Open Scope Z_scope.

(** ** Python values *)

Module Py.

(** Exceptions the modelled code can raise. *)
Inductive exn : Type :=
| ValueError (msg : string)
| ValidationError
| KeyError (key : string)
| ZeroDivisionError
| OverflowError.

Inductive outcome (A : Type) : Type :=
| Return (a : A)
| Raise (e : exn).
Arguments Return {A} a.
Arguments Raise {A} e.

(** Truth value of an [Optional[str]]: [None] and the empty string are
    false. *)
Definition truthy (s : option string) : bool :=
  match s with
  | None => false
  | Some EmptyString => false
  | Some (String _ _) => true
  end.

Definition opt_str_eqb (a b : option string) : bool :=
  match a, b with
  | None, None => true
  | Some x, Some y => String.eqb x y
  | _, _ => false
  end.

(** *** Floats *)

Definition float : Type := spec_float.
Definition prec : Z := 53.
Definition emax : Z := 1024.

(** The float literal [0.0]. *)
Definition float_zero : float := S754_zero false.

(** [a / b] on two [int]s: the quotient correctly rounded to the nearest
    double (ties to even), [ZeroDivisionError] for a zero divisor,
    [OverflowError] when the rounded quotient is not finite. *)
Definition truediv (a b : Z) : outcome float :=
  match b with
  | Z0 => Raise ZeroDivisionError
  | _ =>
    match a with
    | Z0 => Return (S754_zero (b <? 0))
    | _ =>
      match SFdiv prec emax
              (S754_finite (a <? 0) (Z.to_pos (Z.abs a)) 0)
              (S754_finite (b <? 0) (Z.to_pos (Z.abs b)) 0) with
      | S754_infinity _ => Raise OverflowError
      | q => Return q
      end
    end
  end.

(** Nearest integer to [n / d], ties to the even one ([0 <= n], [0 < d]). *)
Definition div_half_even (n d : Z) : Z :=
  let q := n / d in
  let r := n mod d in
  if 2 * r <? d then q
  else if d <? 2 * r then q + 1
  else if Z.even q then q else q + 1.

(** [round(x, ndigits)] for a float [x] and [0 <= ndigits]: the exact
    value of [x] is rounded half-even to [ndigits] decimals, and the
    decimal obtained is converted back to the nearest double.
    Infinities, NaN and zeros round to themselves. *)
Definition round (x : float) (ndigits : nat) : float :=
  match x with
  | S754_finite s m e =>
    let scale := 10 ^ Z.of_nat ndigits in
    let k :=
      match e with
      | Zneg p => div_half_even (Zpos m * scale) (2 ^ Zpos p)
      | _ => Zpos m * scale * 2 ^ e
      end in
    match k with
    | Zpos kp =>
      SFdiv prec emax (S754_finite s kp 0)
            (S754_finite false (Z.to_pos scale) 0)
    | _ => S754_zero s
    end
  | _ => x
  end.

(** [x > y] on floats. *)
Definition float_gtb (x y : float) : bool := SFltb y x.

(** [sum(l)] on [int]s, accumulated from the left starting at [0]. *)
Definition sum (l : list Z) : Z := fold_left Z.add l 0.

(** [len(l)]. *)
Definition len {A : Type} (l : list A) : Z := Z.of_nat (List.length l).

End Py.

Import Py.


Definition timestamp : Type := Z.

(** [timedelta(hours=24)], in microseconds. *)
Definition hours_24 : Z := 24 * 3600 * 1000000.

(** ** Models ([models/]) *)

Inductive DungeonDifficulty : Type := EASY | MEDIUM | HARD | EXPERT.
Inductive DungeonStatus : Type := DRAFT | PUBLISHED | ARCHIVED.
Inductive LobbyStatus : Type := WAITING | IN_GAME | COMPLETED | CANCELLED.
Inductive FriendshipStatus : Type := PENDING | ACCEPTED | REJECTED | BLOCKED.

Definition LobbyStatus_eqb (a b : LobbyStatus) : bool :=
  match a, b with
  | WAITING, WAITING | IN_GAME, IN_GAME
  | COMPLETED, COMPLETED | CANCELLED, CANCELLED => true
  | _, _ => false
  end.

Definition FriendshipStatus_eqb (a b : FriendshipStatus) : bool :=
  match a, b with
  | PENDING, PENDING | ACCEPTED, ACCEPTED
  | REJECTED, REJECTED | BLOCKED, BLOCKED => true
  | _, _ => false
  end.

Module DungeonCreate.
Record t : Type := mk {
  name : string;
  description : option string;
  difficulty : DungeonDifficulty;
  dungeon_data : string;
  tags : list string;
  is_public : bool
}.
End DungeonCreate.

Module Dungeon.
Record t : Type := mk {
  id : string;
  name : string;
  description : option string;
  creator_id : string;
  difficulty : DungeonDifficulty;
  dungeon_data : string;
  tags : list string;
  is_public : bool;
  status : DungeonStatus;
  average_rating : float;
  total_ratings : Z;
  play_count : Z;
  created_at : timestamp;
  updated_at : timestamp;
  partitionKey : string
}.

Definition with_storage (i : string) (c u : timestamp) (d : t) : t :=
  mk i (name d) (description d) (creator_id d) (difficulty d)
     (dungeon_data d) (tags d) (is_public d) (status d)
     (average_rating d) (total_ratings d) (play_count d) c u
     (partitionKey d).

(** [{"average_rating": a, "total_ratings": n}] *)
Definition with_rating (a : float) (n : Z) (d : t) : t :=
  mk (id d) (name d) (description d) (creator_id d) (difficulty d)
     (dungeon_data d) (tags d) (is_public d) (status d)
     a n (play_count d) (created_at d) (updated_at d) (partitionKey d).

(** [{"play_count": n}] *)
Definition with_play_count (n : Z) (d : t) : t :=
  mk (id d) (name d) (description d) (creator_id d) (difficulty d)
     (dungeon_data d) (tags d) (is_public d) (status d)
     (average_rating d) (total_ratings d) n (created_at d) (updated_at d)
     (partitionKey d).

(** [{"creator_id": c}] *)
Definition with_creator_id (c : string) (d : t) : t :=
  mk (id d) (name d) (description d) c (difficulty d)
     (dungeon_data d) (tags d) (is_public d) (status d)
     (average_rating d) (total_ratings d) (play_count d) (created_at d)
     (updated_at d) (partitionKey d).
End Dungeon.

Module DungeonRating.
Record t : Type := mk {
  id : string;
  dungeon_id : string;
  user_id : string;
  rating : Z;
  comment : option string;
  created_at : timestamp;
  updated_at : timestamp;
  partitionKey : string
}.

Definition with_storage (i : string) (c u : timestamp) (r : t) : t :=
  mk i (dungeon_id r) (user_id r) (rating r) (comment r) c u
     (partitionKey r).

(** [{"rating": n, "comment": c}] *)
Definition with_rating (n : Z) (c : option string) (r : t) : t :=
  mk (id r) (dungeon_id r) (user_id r) n c (created_at r) (updated_at r)
     (partitionKey r).
End DungeonRating.

Module LobbyCreate.
Record t : Type := mk {
  name : string;
  dungeon_id : string;
  max_players : Z;
  is_public : bool;
  password : option string
}.
End LobbyCreate.

Module Lobby.
Record t : Type := mk {
  id : string;
  name : string;
  creator_id : string;
  dungeon_id : string;
  max_players : Z;
  current_players : Z;
  is_public : bool;
  password : option string;
  status : LobbyStatus;
  created_at : timestamp;
  updated_at : timestamp;
  started_at : option timestamp;
  completed_at : option timestamp;
  partitionKey : string
}.

Definition with_storage (i : string) (c u : timestamp) (l : t) : t :=
  mk i (name l) (creator_id l) (dungeon_id l) (max_players l)
     (current_players l) (is_public l) (password l) (status l) c u
     (started_at l) (completed_at l) (partitionKey l).

(** [{"current_players": n}] *)
Definition with_current_players (n : Z) (l : t) : t :=
  mk (id l) (name l) (creator_id l) (dungeon_id l) (max_players l)
     n (is_public l) (password l) (status l) (created_at l)
     (updated_at l) (started_at l) (completed_at l) (partitionKey l).

(** [{"status": "in_game", "started_at": now}] *)
Definition with_started (now : timestamp) (l : t) : t :=
  mk (id l) (name l) (creator_id l) (dungeon_id l) (max_players l)
     (current_players l) (is_public l) (password l) IN_GAME
     (created_at l) (updated_at l) (Some now) (completed_at l)
     (partitionKey l).

(** [{"status": "completed", "completed_at": now}] *)
Definition with_completed (now : timestamp) (l : t) : t :=
  mk (id l) (name l) (creator_id l) (dungeon_id l) (max_players l)
     (current_players l) (is_public l) (password l) COMPLETED
     (created_at l) (updated_at l) (started_at l) (Some now)
     (partitionKey l).

(** [{"status": "cancelled"}] *)
Definition with_cancelled (l : t) : t :=
  mk (id l) (name l) (creator_id l) (dungeon_id l) (max_players l)
     (current_players l) (is_public l) (password l) CANCELLED
     (created_at l) (updated_at l) (started_at l) (completed_at l)
     (partitionKey l).
End Lobby.

Module LobbyInvite.
Record t : Type := mk {
  id : string;
  lobby_id : string;
  inviter_id : string;
  invitee_id : string;
  created_at : timestamp;
  updated_at : timestamp;
  expires_at : timestamp;
  is_accepted : option bool;
  partitionKey : string
}.

Definition with_storage (i : string) (c u : timestamp) (v : t) : t :=
  mk i (lobby_id v) (inviter_id v) (invitee_id v) c u (expires_at v)
     (is_accepted v) (partitionKey v).

(** [{"is_accepted": b}] *)
Definition with_is_accepted (b : bool) (v : t) : t :=
  mk (id v) (lobby_id v) (inviter_id v) (invitee_id v) (created_at v)
     (updated_at v) (expires_at v) (Some b) (partitionKey v).
End LobbyInvite.

Module Friendship.
Record t : Type := mk {
  id : string;
  requester_id : string;
  addressee_id : string;
  status : FriendshipStatus;
  created_at : timestamp;
  updated_at : timestamp;
  partitionKey : string
}.

Definition with_storage (i : string) (c u : timestamp) (f : t) : t :=
  mk i (requester_id f) (addressee_id f) (status f) c u (partitionKey f).

(** [{"status": s}] *)
Definition with_status (s : FriendshipStatus) (f : t) : t :=
  mk (id f) (requester_id f) (addressee_id f) s (created_at f)
     (updated_at f) (partitionKey f).
End Friendship.

Module PlayerScore.
Record t : Type := mk {
  id : string;
  user_id : string;
  username : string;
  total_score : Z;
  dungeons_completed : Z;
  dungeons_created : Z;
  average_rating : float;
  last_updated : timestamp;
  created_at : timestamp;
  updated_at : timestamp;
  partitionKey : string
}.

Definition with_storage (i : string) (c u : timestamp) (p : t) : t :=
  mk i (user_id p) (username p) (total_score p) (dungeons_completed p)
     (dungeons_created p) (average_rating p) (last_updated p) c u
     (partitionKey p).

(** [{"total_score": s, "dungeons_completed": c, "dungeons_created": n,
      "average_rating": a, "last_updated": now}] *)
Definition with_scores (s c n : Z) (a : float) (now : timestamp) (p : t) : t :=
  mk (id p) (user_id p) (username p) s c n a now (created_at p) (updated_at p)
     (partitionKey p).
End PlayerScore.

Module DungeonScore.
Record t : Type := mk {
  id : string;
  dungeon_id : string;
  dungeon_name : string;
  creator_username : string;
  total_score : Z;
  play_count : Z;
  average_rating : float;
  total_ratings : Z;
  last_updated : timestamp;
  created_at : timestamp;
  updated_at : timestamp;
  partitionKey : string
}.

Definition with_storage (i : string) (c u : timestamp) (p : t) : t :=
  mk i (dungeon_id p) (dungeon_name p) (creator_username p)
     (total_score p) (play_count p) (average_rating p) (total_ratings p)
     (last_updated p) c u (partitionKey p).

(** [{"total_score": s, "play_count": c, "average_rating": a,
      "total_ratings": n, "last_updated": now}] *)
Definition with_scores (s c : Z) (a : float) (n : Z) (now : timestamp) (p : t)
  : t :=
  mk (id p) (dungeon_id p) (dungeon_name p) (creator_username p) s c a n now
     (created_at p) (updated_at p) (partitionKey p).
End DungeonScore.

(** The [lobbies] container holds the lobbies and their invites, the
    [leaderboard] container the player rows and the dungeon rows. *)
Inductive LobbiesItem : Type :=
| LobbyDoc (l : Lobby.t)
| InviteDoc (v : LobbyInvite.t).

Inductive LeaderboardItem : Type :=
| PlayerScoreDoc (p : PlayerScore.t)
| DungeonScoreDoc (d : DungeonScore.t).

(** A dictionary update that carries lobby fields, or invite fields, on a
    document of the [lobbies] container.  On a document of the other kind
    it only adds keys that neither model reads. *)
Definition on_lobby (f : Lobby.t -> Lobby.t) (d : LobbiesItem) : LobbiesItem :=
  match d with
  | LobbyDoc l => LobbyDoc (f l)
  | InviteDoc v => InviteDoc v
  end.

Definition on_invite (f : LobbyInvite.t -> LobbyInvite.t) (d : LobbiesItem)
  : LobbiesItem :=
  match d with
  | LobbyDoc l => LobbyDoc l
  | InviteDoc v => InviteDoc (f v)
  end.

Definition on_player (f : PlayerScore.t -> PlayerScore.t) (d : LeaderboardItem)
  : LeaderboardItem :=
  match d with
  | PlayerScoreDoc p => PlayerScoreDoc (f p)
  | DungeonScoreDoc s => DungeonScoreDoc s
  end.

Definition on_dungeon_score (f : DungeonScore.t -> DungeonScore.t)
           (d : LeaderboardItem) : LeaderboardItem :=
  match d with
  | PlayerScoreDoc p => PlayerScoreDoc p
  | DungeonScoreDoc s => DungeonScoreDoc (f s)
  end.

(** ** The document store ([services/database.py]) *)

(** What the storage layer reads and writes on every document. *)
Class Document (D : Type) : Type := {
  doc_id : D -> string;
  doc_partition_key : D -> string;
  (** [item['id'] = uuid; item['created_at'] = item['updated_at'] = now] *)
  on_create : string -> timestamp -> D -> D;
  (** [item['updated_at'] = now] *)
  on_update : timestamp -> D -> D
}.

#[export] Instance Document_Dungeon : Document Dungeon.t := {
  doc_id := Dungeon.id;
  doc_partition_key := Dungeon.partitionKey;
  on_create i now d := Dungeon.with_storage i now now d;
  on_update now d := Dungeon.with_storage (Dungeon.id d) (Dungeon.created_at d) now d
}.

#[export] Instance Document_DungeonRating : Document DungeonRating.t := {
  doc_id := DungeonRating.id;
  doc_partition_key := DungeonRating.partitionKey;
  on_create i now r := DungeonRating.with_storage i now now r;
  on_update now r :=
    DungeonRating.with_storage (DungeonRating.id r) (DungeonRating.created_at r) now r
}.

#[export] Instance Document_Lobby : Document Lobby.t := {
  doc_id := Lobby.id;
  doc_partition_key := Lobby.partitionKey;
  on_create i now l := Lobby.with_storage i now now l;
  on_update now l := Lobby.with_storage (Lobby.id l) (Lobby.created_at l) now l
}.

#[export] Instance Document_LobbyInvite : Document LobbyInvite.t := {
  doc_id := LobbyInvite.id;
  doc_partition_key := LobbyInvite.partitionKey;
  on_create i now v := LobbyInvite.with_storage i now now v;
  on_update now v :=
    LobbyInvite.with_storage (LobbyInvite.id v) (LobbyInvite.created_at v) now v
}.

#[export] Instance Document_LobbiesItem : Document LobbiesItem := {
  doc_id d := match d with LobbyDoc l => doc_id l | InviteDoc v => doc_id v end;
  doc_partition_key d :=
    match d with
    | LobbyDoc l => doc_partition_key l
    | InviteDoc v => doc_partition_key v
    end;
  on_create i now d :=
    match d with
    | LobbyDoc l => LobbyDoc (on_create i now l)
    | InviteDoc v => InviteDoc (on_create i now v)
    end;
  on_update now d :=
    match d with
    | LobbyDoc l => LobbyDoc (on_update now l)
    | InviteDoc v => InviteDoc (on_update now v)
    end
}.

#[export] Instance Document_Friendship : Document Friendship.t := {
  doc_id := Friendship.id;
  doc_partition_key := Friendship.partitionKey;
  on_create i now f := Friendship.with_storage i now now f;
  on_update now f :=
    Friendship.with_storage (Friendship.id f) (Friendship.created_at f) now f
}.

#[export] Instance Document_PlayerScore : Document PlayerScore.t := {
  doc_id := PlayerScore.id;
  doc_partition_key := PlayerScore.partitionKey;
  on_create i now p := PlayerScore.with_storage i now now p;
  on_update now p :=
    PlayerScore.with_storage (PlayerScore.id p) (PlayerScore.created_at p) now p
}.

#[export] Instance Document_DungeonScore : Document DungeonScore.t := {
  doc_id := DungeonScore.id;
  doc_partition_key := DungeonScore.partitionKey;
  on_create i now p := DungeonScore.with_storage i now now p;
  on_update now p :=
    DungeonScore.with_storage (DungeonScore.id p) (DungeonScore.created_at p) now p
}.

#[export] Instance Document_LeaderboardItem : Document LeaderboardItem := {
  doc_id d :=
    match d with PlayerScoreDoc p => doc_id p | DungeonScoreDoc s => doc_id s end;
  doc_partition_key d :=
    match d with
    | PlayerScoreDoc p => doc_partition_key p
    | DungeonScoreDoc s => doc_partition_key s
    end;
  on_create i now d :=
    match d with
    | PlayerScoreDoc p => PlayerScoreDoc (on_create i now p)
    | DungeonScoreDoc s => DungeonScoreDoc (on_create i now s)
    end;
  on_update now d :=
    match d with
    | PlayerScoreDoc p => PlayerScoreDoc (on_update now p)
    | DungeonScoreDoc s => DungeonScoreDoc (on_update now s)
    end
}.

(** The container client: point reads and writes by [id] and partition key,
    and queries, on the list of the documents of one container. *)
Module Container.
Section Ops.
Context {D : Type} `{Document D}.

Definition addressed (item_id partition_key : string) (d : D) : bool :=
  String.eqb (doc_id d) item_id
  && String.eqb (doc_partition_key d) partition_key.

Definition read_item (c : list D) (item_id partition_key : string)
  : option D :=
  find (addressed item_id partition_key) c.

Definition create_item (c : list D) (item : D) : list D := c ++ [item].

(** The document [item_id] of the partition of [item] is replaced by
    [item]. *)
Fixpoint replace_item (c : list D) (item_id : string) (item : D) : list D :=
  match c with
  | [] => []
  | d :: c' =>
    if addressed item_id (doc_partition_key item) d then item :: c'
    else d :: replace_item c' item_id item
  end.

Definition query_items (c : list D) (where_ : D -> bool) : list D :=
  filter where_ c.

(** The first document addressed by [item_id] and [partition_key] is
    removed; [None] when there is none (the store answers "not found"). *)
Fixpoint delete_item (c : list D) (item_id partition_key : string)
  : option (list D) :=
  match c with
  | [] => None
  | d :: c' =>
    if addressed item_id partition_key d then Some c'
    else
      match delete_item c' item_id partition_key with
      | Some c'' => Some (d :: c'')
      | None => None
      end
  end.
End Ops.
End Container.

(** The containers the modelled services use. *)
Record DatabaseService : Type := mkDb {
  dungeons : list Dungeon.t;
  ratings : list DungeonRating.t;
  lobbies : list LobbiesItem;
  friendships : list Friendship.t;
  leaderboard : list LeaderboardItem
}.

Definition empty_db : DatabaseService := mkDb [] [] [] [] [].

(** A handle on one container of the database. *)
Record container (D : Type) : Type := mkContainer {
  read : DatabaseService -> list D;
  write : list D -> DatabaseService -> DatabaseService
}.
Arguments read {D} c db.
Arguments write {D} c l db.

Definition dungeons_container : container Dungeon.t :=
  mkContainer _ dungeons
    (fun l db => mkDb l (ratings db) (lobbies db) (friendships db) (leaderboard db)).
Definition ratings_container : container DungeonRating.t :=
  mkContainer _ ratings
    (fun l db => mkDb (dungeons db) l (lobbies db) (friendships db) (leaderboard db)).
Definition lobbies_container : container LobbiesItem :=
  mkContainer _ lobbies
    (fun l db => mkDb (dungeons db) (ratings db) l (friendships db) (leaderboard db)).
Definition friendships_container : container Friendship.t :=
  mkContainer _ friendships
    (fun l db => mkDb (dungeons db) (ratings db) (lobbies db) l (leaderboard db)).
Definition leaderboard_container : container LeaderboardItem :=
  mkContainer _ leaderboard
    (fun l db => mkDb (dungeons db) (ratings db) (lobbies db) (friendships db) l).

(** Service methods: database in, outcome and database out. *)
Definition M (A : Type) : Type := DatabaseService -> outcome A * DatabaseService.

Definition ret {A : Type} (a : A) : M A := fun db => (Return a, db).

Definition raise {A : Type} (e : exn) : M A := fun db => (Raise e, db).

Definition bind {A B : Type} (m : M A) (f : A -> M B) : M B :=
  fun db =>
    match m db with
    | (Return a, db') => f a db'
    | (Raise e, db') => (Raise e, db')
    end.

Notation "x <- m ;; k" := (bind m (fun x => k))
  (at level 61, m at next level, right associativity).

Definition not_found_message (item_id : string) : string :=
  String.append "Item " (String.append item_id " not found").

Section DatabaseServiceMethods.
Context {D : Type} `{Document D}.

Definition create_item (c : container D) (item : D) (uuid : string)
           (now : timestamp) : M D :=
  fun db =>
    let item' := on_create uuid now item in
    (Return item', write c (Container.create_item (read c db) item') db).

Definition get_item (c : container D) (item_id partition_key : string)
  : M (option D) :=
  fun db => (Return (Container.read_item (read c db) item_id partition_key), db).

Definition update_item (c : container D) (item_id partition_key : string)
           (updates : D -> D) (now : timestamp) : M D :=
  item <- get_item c item_id partition_key ;;
  match item with
  | None => raise (ValueError (not_found_message item_id))
  | Some item =>
    let item' := on_update now (updates item) in
    fun db =>
      (Return item',
       write c (Container.replace_item (read c db) item_id item') db)
  end.

Definition query_items (c : container D) (where_ : D -> bool) : M (list D) :=
  fun db => (Return (Container.query_items (read c db) where_), db).

(** A [SELECT VALUE ...] query: its rows are computed from the documents
    of the container. *)
Definition query_values {A : Type} (c : container D) (select : list D -> list A)
  : M (list A) :=
  fun db => (Return (select (read c db)), db).

Definition delete_item (c : container D) (item_id partition_key : string)
  : M bool :=
  fun db =>
    match Container.delete_item (read c db) item_id partition_key with
    | Some c' => (Return true, write c c' db)
    | None => (Return false, db)
    end.

Definition get_items_by_partition (c : container D) (partition_key : string)
  : M (list D) :=
  query_items c (fun d => String.eqb (doc_partition_key d) partition_key).
End DatabaseServiceMethods.

Definition lift {A : Type} (o : outcome A) : M A := fun db => (o, db).

(** ** Dungeons and their ratings ([services/dungeon_service.py]) *)

Module DungeonService.

Definition create_dungeon (dungeon_create : DungeonCreate.t)
           (creator_id uuid : string) (now : timestamp) : M Dungeon.t :=
  let dungeon_data :=
    Dungeon.mk EmptyString
      (DungeonCreate.name dungeon_create)
      (DungeonCreate.description dungeon_create)
      creator_id
      (DungeonCreate.difficulty dungeon_create)
      (DungeonCreate.dungeon_data dungeon_create)
      (DungeonCreate.tags dungeon_create)
      (DungeonCreate.is_public dungeon_create)
      DRAFT float_zero 0 0 0 0 creator_id in
  create_item dungeons_container dungeon_data uuid now.

Definition get_dungeon_by_id (dungeon_id : string) : M (option Dungeon.t) :=
  dungeons <- query_items dungeons_container
                (fun c => String.eqb (Dungeon.id c) dungeon_id) ;;
  match dungeons with
  | [] => ret None
  | d :: _ => ret (Some d)
  end.

Definition _update_dungeon_rating (dungeon_id : string) (now : timestamp)
  : M unit :=
  ratings <- query_items ratings_container
               (fun c => String.eqb (DungeonRating.dungeon_id c) dungeon_id) ;;
  match ratings with
  | [] => ret tt
  | _ :: _ =>
    let total_rating := sum (map DungeonRating.rating ratings) in
    average_rating <- lift (truediv total_rating (len ratings)) ;;
    dungeon <- get_dungeon_by_id dungeon_id ;;
    match dungeon with
    | None => ret tt
    | Some dungeon =>
      _ <- update_item dungeons_container dungeon_id
             (Dungeon.creator_id dungeon)
             (Dungeon.with_rating (round average_rating 2) (len ratings))
             now ;;
      ret tt
    end
  end.

Definition rating_message : string := "Rating must be between 1 and 5".

Definition rate_dungeon (dungeon_id user_id : string) (rating : Z)
           (comment : option string) (uuid : string) (now : timestamp)
  : M DungeonRating.t :=
  if (rating <? 1) || (5 <? rating) then raise (ValueError rating_message)
  else
    existing_ratings <-
      query_items ratings_container
        (fun c => String.eqb (DungeonRating.dungeon_id c) dungeon_id
                  && String.eqb (DungeonRating.user_id c) user_id) ;;
    let rating_data :=
      DungeonRating.mk EmptyString dungeon_id user_id rating comment 0 0
                       dungeon_id in
    rating_obj <-
      match existing_ratings with
      | existing_rating :: _ =>
        update_item ratings_container (DungeonRating.id existing_rating)
                    dungeon_id (DungeonRating.with_rating rating comment) now
      | [] => create_item ratings_container rating_data uuid now
      end ;;
    _ <- _update_dungeon_rating dungeon_id now ;;
    ret rating_obj.


Definition delete_dungeon (dungeon_id creator_id : string) : M bool :=
  dungeon <- get_dungeon_by_id dungeon_id ;;
  match dungeon with
  | None => ret false
  | Some dungeon =>
    if negb (String.eqb (Dungeon.creator_id dungeon) creator_id) then ret false
    else delete_item dungeons_container dungeon_id creator_id
  end.

(** [updates] is the dictionary of the request, applied to the stored
    document by [update_item]; it is any dictionary that leaves a document
    the [Dungeon] model accepts.  No key is refused. *)
Definition update_dungeon (dungeon_id creator_id : string)
           (updates : Dungeon.t -> Dungeon.t) (now : timestamp)
  : M (option Dungeon.t) :=
  dungeon <- get_dungeon_by_id dungeon_id ;;
  match dungeon with
  | None => ret None
  | Some dungeon =>
    if negb (String.eqb (Dungeon.creator_id dungeon) creator_id) then ret None
    else
      updated_dungeon <- update_item dungeons_container dungeon_id creator_id
                           updates now ;;
      ret (Some updated_dungeon)
  end.

Definition increment_play_count (dungeon_id : string) (now : timestamp)
  : M unit :=
  dungeon <- get_dungeon_by_id dungeon_id ;;
  match dungeon with
  | None => ret tt
  | Some dungeon =>
    _ <- update_item dungeons_container dungeon_id
           (Dungeon.creator_id dungeon)
           (Dungeon.with_play_count (Dungeon.play_count dungeon + 1)) now ;;
    ret tt
  end.
End DungeonService.

(** ** Lobbies and invites ([services/lobby_service.py]) *)

(** The pydantic models [Lobby] and [LobbyInvite] built from a stored
    document: a document of the other kind lacks required fields. *)
Definition as_Lobby (doc : LobbiesItem) : outcome Lobby.t :=
  match doc with
  | LobbyDoc l => Return l
  | InviteDoc _ => Raise ValidationError
  end.

Definition as_LobbyInvite (doc : LobbiesItem) : outcome LobbyInvite.t :=
  match doc with
  | InviteDoc v => Return v
  | LobbyDoc _ => Raise ValidationError
  end.

(** A [WHERE] clause over invite fields: a lobby document has none of them,
    the comparison is undefined and the document is not selected. *)
Definition invite_where (p : LobbyInvite.t -> bool) (doc : LobbiesItem) : bool :=
  match doc with
  | InviteDoc v => p v
  | LobbyDoc _ => false
  end.

Definition lobby_where (p : Lobby.t -> bool) (doc : LobbiesItem) : bool :=
  match doc with
  | LobbyDoc l => p l
  | InviteDoc _ => false
  end.

(** [[f(x) for x in l]] where [f] can raise. *)
Fixpoint comprehension {A B : Type} (f : A -> outcome B) (l : list A)
  : outcome (list B) :=
  match l with
  | [] => Return []
  | x :: l' =>
    match f x with
    | Raise e => Raise e
    | Return y =>
      match comprehension f l' with
      | Raise e => Raise e
      | Return ys => Return (y :: ys)
      end
    end
  end.

(** [ORDER BY c.created_at DESC]; rows with equal keys come in no
    particular order. *)
Fixpoint insert_desc {A : Type} (key : A -> Z) (x : A) (l : list A) : list A :=
  match l with
  | [] => [x]
  | y :: l' => if key y <? key x then x :: y :: l' else y :: insert_desc key x l'
  end.

Definition order_by_desc {A : Type} (key : A -> Z) (l : list A) : list A :=
  fold_right (insert_desc key) [] l.

Definition created_at_of (doc : LobbiesItem) : timestamp :=
  match doc with
  | LobbyDoc l => Lobby.created_at l
  | InviteDoc v => LobbyInvite.created_at v
  end.

Module LobbyService.

Definition create_lobby (lobby_create : LobbyCreate.t)
           (creator_id uuid : string) (now : timestamp) : M Lobby.t :=
  let lobby_data :=
    Lobby.mk EmptyString
      (LobbyCreate.name lobby_create)
      creator_id
      (LobbyCreate.dungeon_id lobby_create)
      (LobbyCreate.max_players lobby_create)
      1
      (LobbyCreate.is_public lobby_create)
      (LobbyCreate.password lobby_create)
      WAITING 0 0 None None creator_id in
  created_lobby <- create_item lobbies_container (LobbyDoc lobby_data) uuid now ;;
  lift (as_Lobby created_lobby).

Definition get_lobby_by_id (lobby_id : string) : M (option Lobby.t) :=
  lobbies <- query_items lobbies_container
               (fun c => String.eqb (doc_id c) lobby_id) ;;
  match lobbies with
  | [] => ret None
  | doc :: _ => lobby <- lift (as_Lobby doc) ;; ret (Some lobby)
  end.

Definition join_lobby (lobby_id user_id : string) (password : option string)
           (now : timestamp) : M bool :=
  lobby <- get_lobby_by_id lobby_id ;;
  match lobby with
  | None => ret false
  | Some lobby =>
    if negb (LobbyStatus_eqb (Lobby.status lobby) WAITING) then ret false
    else if Lobby.max_players lobby <=? Lobby.current_players lobby
    then ret false
    else if truthy (Lobby.password lobby)
            && negb (opt_str_eqb (Lobby.password lobby) password)
    then ret false
    else
      _ <- update_item lobbies_container lobby_id (Lobby.creator_id lobby)
             (on_lobby (Lobby.with_current_players
                          (Lobby.current_players lobby + 1)))
             now ;;
      ret true
  end.

Definition leave_lobby (lobby_id user_id : string) (now : timestamp)
  : M bool :=
  lobby <- get_lobby_by_id lobby_id ;;
  match lobby with
  | None => ret false
  | Some lobby =>
    if negb (LobbyStatus_eqb (Lobby.status lobby) WAITING) then ret false
    else
      _ <- update_item lobbies_container lobby_id (Lobby.creator_id lobby)
             (on_lobby (Lobby.with_current_players
                          (Z.max 0 (Lobby.current_players lobby - 1))))
             now ;;
      ret true
  end.

Definition start_lobby (lobby_id creator_id : string) (now : timestamp)
  : M bool :=
  lobby <- get_lobby_by_id lobby_id ;;
  match lobby with
  | None => ret false
  | Some lobby =>
    if negb (String.eqb (Lobby.creator_id lobby) creator_id) then ret false
    else if negb (LobbyStatus_eqb (Lobby.status lobby) WAITING)
    then ret false
    else if Lobby.current_players lobby <? 1 then ret false
    else
      _ <- update_item lobbies_container lobby_id creator_id
             (on_lobby (Lobby.with_started now)) now ;;
      ret true
  end.

Definition create_lobby_invite (lobby_id inviter_id invitee_id uuid : string)
           (now : timestamp) : M LobbyInvite.t :=
  lobby <- get_lobby_by_id lobby_id ;;
  match lobby with
  | None => raise (ValueError "Lobby not found")
  | Some lobby =>
    if negb (String.eqb (Lobby.creator_id lobby) inviter_id)
    then raise (ValueError "Only lobby creator can invite players")
    else if negb (LobbyStatus_eqb (Lobby.status lobby) WAITING)
    then raise (ValueError "Can only invite to waiting lobbies")
    else if Lobby.max_players lobby <=? Lobby.current_players lobby
    then raise (ValueError "Lobby is full")
    else
      let invite_data :=
        LobbyInvite.mk EmptyString lobby_id inviter_id invitee_id 0 0
                       (now + hours_24) None lobby_id in
      created_invite <-
        create_item lobbies_container (InviteDoc invite_data) uuid now ;;
      lift (as_LobbyInvite created_invite)
  end.

Definition get_lobby_invites (user_id : string) (now : timestamp)
  : M (list LobbyInvite.t) :=
  invites <-
    query_values lobbies_container
      (fun c =>
         order_by_desc created_at_of
           (filter
              (invite_where
                 (fun v =>
                    String.eqb (LobbyInvite.invitee_id v) user_id
                    && match LobbyInvite.is_accepted v with
                       | None => true
                       | Some _ => false
                       end
                    && (now <? LobbyInvite.expires_at v)))
              c)) ;;
  lift (comprehension as_LobbyInvite invites).

Definition accept_lobby_invite (invite_id user_id : string) (now : timestamp)
  : M bool :=
  invites <-
    query_items lobbies_container
      (fun c => String.eqb (doc_id c) invite_id
                && invite_where
                     (fun v => String.eqb (LobbyInvite.invitee_id v) user_id)
                     c) ;;
  match invites with
  | [] => ret false
  | LobbyDoc _ :: _ => raise (KeyError "expires_at")
  | InviteDoc invite :: _ =>
    if LobbyInvite.expires_at invite <? now then ret false
    else
      _ <- update_item lobbies_container invite_id
             (LobbyInvite.lobby_id invite)
             (on_invite (LobbyInvite.with_is_accepted true)) now ;;
      join_lobby (LobbyInvite.lobby_id invite) user_id None now
  end.


Definition get_lobbies_by_creator (creator_id : string) : M (list Lobby.t) :=
  lobbies <-
    query_values lobbies_container
      (fun c =>
         order_by_desc created_at_of
           (filter
              (lobby_where
                 (fun l => String.eqb (Lobby.creator_id l) creator_id))
              c)) ;;
  lift (comprehension as_Lobby lobbies).

Definition complete_lobby (lobby_id creator_id : string) (now : timestamp)
  : M bool :=
  lobby <- get_lobby_by_id lobby_id ;;
  match lobby with
  | None => ret false
  | Some lobby =>
    if negb (String.eqb (Lobby.creator_id lobby) creator_id) then ret false
    else if negb (LobbyStatus_eqb (Lobby.status lobby) IN_GAME)
    then ret false
    else
      _ <- update_item lobbies_container lobby_id creator_id
             (on_lobby (Lobby.with_completed now)) now ;;
      ret true
  end.

Definition cancel_lobby (lobby_id creator_id : string) (now : timestamp)
  : M bool :=
  lobby <- get_lobby_by_id lobby_id ;;
  match lobby with
  | None => ret false
  | Some lobby =>
    if negb (String.eqb (Lobby.creator_id lobby) creator_id) then ret false
    else if negb (LobbyStatus_eqb (Lobby.status lobby) WAITING
                  || LobbyStatus_eqb (Lobby.status lobby) IN_GAME)
    then ret false
    else
      _ <- update_item lobbies_container lobby_id creator_id
             (on_lobby Lobby.with_cancelled) now ;;
      ret true
  end.

Definition decline_lobby_invite (invite_id user_id : string) (now : timestamp)
  : M bool :=
  invites <-
    query_items lobbies_container
      (fun c => String.eqb (doc_id c) invite_id
                && invite_where
                     (fun v => String.eqb (LobbyInvite.invitee_id v) user_id)
                     c) ;;
  match invites with
  | [] => ret false
  | LobbyDoc _ :: _ => raise (KeyError "lobby_id")
  | InviteDoc invite :: _ =>
    _ <- update_item lobbies_container invite_id
           (LobbyInvite.lobby_id invite)
           (on_invite (LobbyInvite.with_is_accepted false)) now ;;
    ret true
  end.
End LobbyService.

(** ** Friendships ([services/friendship_service.py]) *)

Module FriendshipService.

Definition directed (requester addressee : string) (c : Friendship.t) : bool :=
  String.eqb (Friendship.requester_id c) requester
  && String.eqb (Friendship.addressee_id c) addressee.

Definition _get_friendship (user1_id user2_id : string)
  : M (option Friendship.t) :=
  friendships <- query_items friendships_container
                   (directed user1_id user2_id) ;;
  match friendships with
  | f :: _ => ret (Some f)
  | [] =>
    friendships <- query_items friendships_container
                     (directed user2_id user1_id) ;;
    match friendships with
    | f :: _ => ret (Some f)
    | [] => ret None
    end
  end.

Definition send_friend_request (requester_id addressee_id uuid : string)
           (now : timestamp) : M Friendship.t :=
  if String.eqb requester_id addressee_id
  then raise (ValueError "Cannot send friend request to yourself")
  else
    existing_friendship <- _get_friendship requester_id addressee_id ;;
    match existing_friendship with
    | Some _ => raise (ValueError "Friendship request already exists")
    | None =>
      let friendship_data :=
        Friendship.mk EmptyString requester_id addressee_id PENDING 0 0
                      requester_id in
      create_item friendships_container friendship_data uuid now
    end.

Definition accept_friend_request (addressee_id requester_id : string)
           (now : timestamp) : M bool :=
  friendship <- _get_friendship requester_id addressee_id ;;
  match friendship with
  | None => ret false
  | Some friendship =>
    if negb (FriendshipStatus_eqb (Friendship.status friendship) PENDING)
    then ret false
    else
      _ <- update_item friendships_container (Friendship.id friendship)
             requester_id (Friendship.with_status ACCEPTED) now ;;
      ret true
  end.

Definition reject_friend_request (addressee_id requester_id : string)
           (now : timestamp) : M bool :=
  friendship <- _get_friendship requester_id addressee_id ;;
  match friendship with
  | None => ret false
  | Some friendship =>
    if negb (FriendshipStatus_eqb (Friendship.status friendship) PENDING)
    then ret false
    else
      _ <- update_item friendships_container (Friendship.id friendship)
             requester_id (Friendship.with_status REJECTED) now ;;
      ret true
  end.

Definition block_user (blocker_id blocked_id uuid : string) (now : timestamp)
  : M Friendship.t :=
  if String.eqb blocker_id blocked_id
  then raise (ValueError "Cannot block yourself")
  else
    existing_friendship <- _get_friendship blocker_id blocked_id ;;
    match existing_friendship with
    | Some existing_friendship =>
      update_item friendships_container (Friendship.id existing_friendship)
                  blocker_id (Friendship.with_status BLOCKED) now
    | None =>
      let friendship_data :=
        Friendship.mk EmptyString blocker_id blocked_id BLOCKED 0 0
                      blocker_id in
      create_item friendships_container friendship_data uuid now
    end.

Definition are_friends (user_id friend_id : string) : M bool :=
  friendship <- _get_friendship user_id friend_id ;;
  match friendship with
  | None => ret false
  | Some friendship =>
    ret (FriendshipStatus_eqb (Friendship.status friendship) ACCEPTED)
  end.


Definition unblock_user (blocker_id blocked_id : string) : M bool :=
  friendship <- _get_friendship blocker_id blocked_id ;;
  match friendship with
  | None => ret false
  | Some friendship =>
    if negb (FriendshipStatus_eqb (Friendship.status friendship) BLOCKED)
    then ret false
    else delete_item friendships_container (Friendship.id friendship)
                     blocker_id
  end.

Definition remove_friend (user_id friend_id : string) : M bool :=
  friendship <- _get_friendship user_id friend_id ;;
  match friendship with
  | None => ret false
  | Some friendship =>
    if negb (FriendshipStatus_eqb (Friendship.status friendship) ACCEPTED)
    then ret false
    else delete_item friendships_container (Friendship.id friendship) user_id
  end.

Definition get_friends (user_id : string) : M (list string) :=
  friendships <-
    query_items friendships_container
      (fun c => String.eqb (Friendship.requester_id c) user_id
                && FriendshipStatus_eqb (Friendship.status c) ACCEPTED) ;;
  more <-
    query_items friendships_container
      (fun c => String.eqb (Friendship.addressee_id c) user_id
                && FriendshipStatus_eqb (Friendship.status c) ACCEPTED) ;;
  ret (map (fun friendship =>
              if String.eqb (Friendship.requester_id friendship) user_id
              then Friendship.addressee_id friendship
              else Friendship.requester_id friendship)
           (friendships ++ more)).

Definition get_pending_requests (user_id : string) : M (list Friendship.t) :=
  query_items friendships_container
    (fun c => String.eqb (Friendship.addressee_id c) user_id
              && FriendshipStatus_eqb (Friendship.status c) PENDING).

Definition get_sent_requests (user_id : string) : M (list Friendship.t) :=
  query_items friendships_container
    (fun c => String.eqb (Friendship.requester_id c) user_id
              && FriendshipStatus_eqb (Friendship.status c) PENDING).

Definition is_blocked (user_id blocked_id : string) : M bool :=
  friendship <- _get_friendship user_id blocked_id ;;
  match friendship with
  | None => ret false
  | Some friendship =>
    ret (FriendshipStatus_eqb (Friendship.status friendship) BLOCKED)
  end.
End FriendshipService.

(** ** Leaderboard ranks ([services/leaderboard_service.py]) *)

(** The value of a subquery used as a scalar: defined when it has exactly
    one row. *)
Definition scalar {A : Type} (rows : list A) : option A :=
  match rows with
  | [x] => Some x
  | _ => None
  end.

Module LeaderboardService.

(** [SELECT VALUE c2.total_score FROM c c2 WHERE c2.user_id = @userId] *)
Definition total_score_of (user_id : string) (c : list LeaderboardItem)
  : list Z :=
  flat_map
    (fun c2 =>
       match c2 with
       | PlayerScoreDoc p =>
         if String.eqb (PlayerScore.user_id p) user_id
         then [PlayerScore.total_score p] else []
       | DungeonScoreDoc _ => []
       end) c.

(** [c.username IS NOT NULL AND c.user_id IS NOT NULL
     AND c.total_score > (subquery)] *)
Definition outranks_player (user_id : string) (c : list LeaderboardItem)
           (row : LeaderboardItem) : bool :=
  match row with
  | PlayerScoreDoc p =>
    match scalar (total_score_of user_id c) with
    | Some score => score <? PlayerScore.total_score p
    | None => false
    end
  | DungeonScoreDoc _ => false
  end.

Definition get_player_rank (user_id : string) : M (option Z) :=
  result <-
    query_values leaderboard_container
      (fun c => [len (filter (outranks_player user_id c) c) + 1]) ;;
  match result with
  | rank :: _ => ret (Some rank)
  | [] => ret None
  end.

(** [SELECT VALUE c2.average_rating FROM c c2 WHERE c2.dungeon_id = @dungeonId] *)
Definition average_rating_of (dungeon_id : string) (c : list LeaderboardItem)
  : list float :=
  flat_map
    (fun c2 =>
       match c2 with
       | DungeonScoreDoc d =>
         if String.eqb (DungeonScore.dungeon_id d) dungeon_id
         then [DungeonScore.average_rating d] else []
       | PlayerScoreDoc _ => []
       end) c.

(** [c.dungeon_name IS NOT NULL AND c.dungeon_id IS NOT NULL
     AND c.average_rating > (subquery)] *)
Definition outranks_dungeon (dungeon_id : string) (c : list LeaderboardItem)
           (row : LeaderboardItem) : bool :=
  match row with
  | DungeonScoreDoc d =>
    match scalar (average_rating_of dungeon_id c) with
    | Some avg => float_gtb (DungeonScore.average_rating d) avg
    | None => false
    end
  | PlayerScoreDoc _ => false
  end.

Definition get_dungeon_rank (dungeon_id : string) : M (option Z) :=
  result <-
    query_values leaderboard_container
      (fun c => [len (filter (outranks_dungeon dungeon_id c) c) + 1]) ;;
  match result with
  | rank :: _ => ret (Some rank)
  | [] => ret None
  end.


(** [c.user_id = @userId AND c.username IS NOT NULL] *)
Definition player_of (user_id : string) (c : LeaderboardItem) : bool :=
  match c with
  | PlayerScoreDoc p => String.eqb (PlayerScore.user_id p) user_id
  | DungeonScoreDoc _ => false
  end.

(** [c.dungeon_id = @dungeonId AND c.dungeon_name IS NOT NULL] *)
Definition dungeon_of (dungeon_id : string) (c : LeaderboardItem) : bool :=
  match c with
  | DungeonScoreDoc d => String.eqb (DungeonScore.dungeon_id d) dungeon_id
  | PlayerScoreDoc _ => false
  end.

Definition update_player_score (user_id username : string)
           (score dungeons_completed dungeons_created : Z)
           (average_rating : float) (uuid : string) (now : timestamp)
  : M unit :=
  existing_scores <- query_items leaderboard_container (player_of user_id) ;;
  let score_data :=
    PlayerScore.mk EmptyString user_id username score dungeons_completed
                   dungeons_created average_rating now 0 0 "player_scores" in
  match existing_scores with
  | existing_score :: _ =>
    _ <- update_item leaderboard_container (doc_id existing_score)
           "player_scores"
           (on_player (PlayerScore.with_scores score dungeons_completed
                         dungeons_created average_rating now)) now ;;
    ret tt
  | [] =>
    _ <- create_item leaderboard_container (PlayerScoreDoc score_data) uuid now ;;
    ret tt
  end.

Definition update_dungeon_score (dungeon_id dungeon_name creator_username : string)
           (score play_count : Z) (average_rating : float) (total_ratings : Z)
           (uuid : string) (now : timestamp) : M unit :=
  existing_scores <- query_items leaderboard_container (dungeon_of dungeon_id) ;;
  let score_data :=
    DungeonScore.mk EmptyString dungeon_id dungeon_name creator_username score
                    play_count average_rating total_ratings now 0 0
                    "dungeon_scores" in
  match existing_scores with
  | existing_score :: _ =>
    _ <- update_item leaderboard_container (doc_id existing_score)
           "dungeon_scores"
           (on_dungeon_score
              (DungeonScore.with_scores score play_count average_rating
                 total_ratings now)) now ;;
    ret tt
  | [] =>
    _ <- create_item leaderboard_container (DungeonScoreDoc score_data) uuid now ;;
    ret tt
  end.

(** The pydantic models [PlayerScore] and [DungeonScore] built from a
    stored row. *)
Definition as_PlayerScore (doc : LeaderboardItem) : outcome PlayerScore.t :=
  match doc with
  | PlayerScoreDoc p => Return p
  | DungeonScoreDoc _ => Raise ValidationError
  end.

Definition as_DungeonScore (doc : LeaderboardItem) : outcome DungeonScore.t :=
  match doc with
  | DungeonScoreDoc d => Return d
  | PlayerScoreDoc _ => Raise ValidationError
  end.

Definition get_player_score (user_id : string) : M (option PlayerScore.t) :=
  scores <- query_items leaderboard_container (player_of user_id) ;;
  match scores with
  | score :: _ => p <- lift (as_PlayerScore score) ;; ret (Some p)
  | [] => ret None
  end.

Definition get_dungeon_score (dungeon_id : string) : M (option DungeonScore.t) :=
  scores <- query_items leaderboard_container (dungeon_of dungeon_id) ;;
  match scores with
  | score :: _ => d <- lift (as_DungeonScore score) ;; ret (Some d)
  | [] => ret None
  end.
End LeaderboardService.

(** ** Stores the services maintain *)

(** Partition keys as the create methods write them. *)
Definition lobbies_keyed (db : DatabaseService) : Prop :=
  forall l, In (LobbyDoc l) (lobbies db) ->
            Lobby.partitionKey l = Lobby.creator_id l.

Definition invites_keyed (db : DatabaseService) : Prop :=
  forall v, In (InviteDoc v) (lobbies db) ->
            LobbyInvite.partitionKey v = LobbyInvite.lobby_id v.

Definition dungeons_keyed (db : DatabaseService) : Prop :=
  forall d, In d (dungeons db) -> Dungeon.partitionKey d = Dungeon.creator_id d.

Definition ratings_keyed (db : DatabaseService) : Prop :=
  forall r, In r (ratings db) ->
            DungeonRating.partitionKey r = DungeonRating.dungeon_id r.

Definition ratings_in_range (db : DatabaseService) : Prop :=
  forall r, In r (ratings db) -> 1 <= DungeonRating.rating r <= 5.

(** Identifiers are generated by [uuid4]: no two documents of a container
    share one. *)
Definition unique_ids {D : Type} `{Document D} (c : list D) : Prop :=
  NoDup (map doc_id c).

Definition fresh_id {D : Type} `{Document D} (uuid : string) (c : list D) : Prop :=
  ~ In uuid (map doc_id c).

(** [lobby_id] is not the identifier of an invite. *)
Definition not_an_invite (lobby_id : string) (db : DatabaseService) : Prop :=
  forall v, In (InviteDoc v) (lobbies db) -> LobbyInvite.id v <> lobby_id.

(** ** Notions of the statements *)

(** What [get_lobby_by_id] finds. *)
Definition lobby_absent (db : DatabaseService) (lobby_id : string) : Prop :=
  LobbyService.get_lobby_by_id lobby_id db = (Return None, db).

Definition lobby_at (db : DatabaseService) (lobby_id : string) (l : Lobby.t)
  : Prop :=
  LobbyService.get_lobby_by_id lobby_id db = (Return (Some l), db).

(** The supplied password is not the one set on the lobby. *)
Definition password_mismatch (l : Lobby.t) (password : option string) : Prop :=
  truthy (Lobby.password l) = true /\ Lobby.password l <> password.

(** The lobby of an invite refuses a [join_lobby] without password. *)
Definition join_refused (db : DatabaseService) (lobby_id : string) : Prop :=
  lobby_absent db lobby_id
  \/ exists l, lobby_at db lobby_id l
               /\ (Lobby.status l <> WAITING
                   \/ Lobby.max_players l <= Lobby.current_players l
                   \/ truthy (Lobby.password l) = true).

(** A relationship row exists between [a] and [b], in either direction and
    whatever its status. *)
Definition related (db : DatabaseService) (a b : string) : Prop :=
  exists f, In f (friendships db)
            /\ ((Friendship.requester_id f = a /\ Friendship.addressee_id f = b)
                \/ (Friendship.requester_id f = b /\ Friendship.addressee_id f = a)).

(** The leaderboard rows of a player, of a dungeon. *)
Definition rows_of_player (user_id : string) (c : list LeaderboardItem)
  : list PlayerScore.t :=
  flat_map
    (fun doc =>
       match doc with
       | PlayerScoreDoc p =>
         if String.eqb (PlayerScore.user_id p) user_id then [p] else []
       | DungeonScoreDoc _ => []
       end) c.

Definition rows_of_dungeon (dungeon_id : string) (c : list LeaderboardItem)
  : list DungeonScore.t :=
  flat_map
    (fun doc =>
       match doc with
       | DungeonScoreDoc d =>
         if String.eqb (DungeonScore.dungeon_id d) dungeon_id then [d] else []
       | PlayerScoreDoc _ => []
       end) c.

(** [p] is the leaderboard row of its player, [d] of its dungeon: scores
    are upserted, one row each. *)
Definition player_row (db : DatabaseService) (p : PlayerScore.t) : Prop :=
  rows_of_player (PlayerScore.user_id p) (leaderboard db) = [p].

Definition dungeon_row (db : DatabaseService) (d : DungeonScore.t) : Prop :=
  rows_of_dungeon (DungeonScore.dungeon_id d) (leaderboard db) = [d].

(** Number of player rows whose [total_score] is strictly greater than
    [score]; of dungeon rows whose [average_rating] is strictly greater
    than [avg]. *)
Definition players_above (score : Z) (db : DatabaseService) : Z :=
  len (filter
         (fun doc =>
            match doc with
            | PlayerScoreDoc q => score <? PlayerScore.total_score q
            | DungeonScoreDoc _ => false
            end) (leaderboard db)).

Definition dungeons_above (avg : float) (db : DatabaseService) : Z :=
  len (filter
         (fun doc =>
            match doc with
            | DungeonScoreDoc q => float_gtb (DungeonScore.average_rating q) avg
            | PlayerScoreDoc _ => false
            end) (leaderboard db)).

(** A rating of the dungeon; one that [user_id] gave it; one that somebody
    else gave it. *)
Definition rated (dungeon_id : string) (c : DungeonRating.t) : bool :=
  String.eqb (DungeonRating.dungeon_id c) dungeon_id.

Definition rated_by (dungeon_id user_id : string) (c : DungeonRating.t) : bool :=
  String.eqb (DungeonRating.dungeon_id c) dungeon_id
  && String.eqb (DungeonRating.user_id c) user_id.

Definition rated_by_other (dungeon_id user_id : string) (c : DungeonRating.t)
  : bool :=
  String.eqb (DungeonRating.dungeon_id c) dungeon_id
  && negb (String.eqb (DungeonRating.user_id c) user_id).

(** The stored ratings of a dungeon; the ones [user_id] gave it; those the
    other users gave it. *)
Definition ratings_of (db : DatabaseService) (dungeon_id : string)
  : list DungeonRating.t :=
  filter (rated dungeon_id) (ratings db).

Definition ratings_by (db : DatabaseService) (dungeon_id user_id : string)
  : list DungeonRating.t :=
  filter (rated_by dungeon_id user_id) (ratings db).

Definition ratings_by_others (db : DatabaseService) (dungeon_id user_id : string)
  : list DungeonRating.t :=
  filter (rated_by_other dungeon_id user_id) (ratings db).

(** [dg] carries the aggregate of the ratings [rs]: their mean rounded to
    two decimals, and their number. *)
Definition aggregate_of (rs : list DungeonRating.t) (dg : Dungeon.t) : Prop :=
  exists mean,
    truediv (sum (map DungeonRating.rating rs)) (len rs) = Return mean
    /\ Dungeon.average_rating dg = round mean 2
    /\ Dungeon.total_ratings dg = len rs.

Definition dungeon_at (db : DatabaseService) (dungeon_id : string)
           (dg : Dungeon.t) : Prop :=
  DungeonService.get_dungeon_by_id dungeon_id db = (Return (Some dg), db).

(** The rest of [rate_dungeon] once the rating is written. *)
Definition then_recompute (d : string) (now : timestamp) (o : DungeonRating.t)
           (db1 : DatabaseService) : outcome DungeonRating.t * DatabaseService :=
  match DungeonService._update_dungeon_rating d now db1 with
  | (Return _, db') => (Return o, db')
  | (Raise e, db') => (Raise e, db')
  end.

(** The rating set [rs'] and the rating object [o] after the write of
    [rate_dungeon]: a fresh row is appended when the user has none for the
    dungeon, otherwise the row read back by the identifier of the user's
    first row is overwritten where it stands. *)
Definition written (db : DatabaseService) (d u : string) (r : Z)
           (c : option string) (uuid : string) (now : timestamp)
           (rs' : list DungeonRating.t) (o : DungeonRating.t) : Prop :=
  (ratings_by db d u = []
   /\ o = DungeonRating.mk uuid d u r c now now d
   /\ rs' = ratings db ++ [o])
  \/ (exists e rest l1 item l2,
         ratings_by db d u = e :: rest
         /\ ratings db = l1 ++ item :: l2
         /\ (forall x, In x l1 ->
                       Container.addressed (DungeonRating.id e) d x = false)
         /\ Container.addressed (DungeonRating.id e) d item = true
         /\ o = on_update now (DungeonRating.with_rating r c item)
         /\ rs' = l1 ++ o :: l2).

(** The lobby [l] found at [lobby_id] in [db] is [l'] in [db'], and no
    other document of the store differs. *)
Definition lobby_rewritten (db db' : DatabaseService) (lobby_id : string)
           (l l' : Lobby.t) : Prop :=
  exists l1 l2,
    lobbies db = l1 ++ LobbyDoc l :: l2
    /\ (forall x, In x l1 -> doc_id x <> lobby_id)
    /\ db' = write lobbies_container (l1 ++ LobbyDoc l' :: l2) db.

(** The seats of a lobby: between none and [max_players]. *)
Definition seats_in_bounds (l : Lobby.t) : Prop :=
  0 <= Lobby.current_players l <= Lobby.max_players l.

Definition closed (l : Lobby.t) : Prop :=
  Lobby.status l = COMPLETED \/ Lobby.status l = CANCELLED.

(** The calls that act on one lobby, and a sequence of them, each at its
    own instant. *)
Inductive lobby_call : Type :=
| Join (user_id : string) (password : option string)
| Leave (user_id : string)
| Start (creator_id : string)
| Complete (creator_id : string)
| Cancel (creator_id : string).

Definition run_lobby_call (lobby_id : string) (c : lobby_call) (now : timestamp)
  : M bool :=
  match c with
  | Join user_id password => LobbyService.join_lobby lobby_id user_id password now
  | Leave user_id => LobbyService.leave_lobby lobby_id user_id now
  | Start creator_id => LobbyService.start_lobby lobby_id creator_id now
  | Complete creator_id => LobbyService.complete_lobby lobby_id creator_id now
  | Cancel creator_id => LobbyService.cancel_lobby lobby_id creator_id now
  end.

Fixpoint run_lobby_calls (lobby_id : string)
         (calls : list (lobby_call * timestamp)) (db : DatabaseService)
  : DatabaseService :=
  match calls with
  | [] => db
  | (c, now) :: calls' =>
    run_lobby_calls lobby_id calls' (snd (run_lobby_call lobby_id c now db))
  end.

(** How far a lobby is in its life: waiting, in game, closed. *)
Definition stage (s : LobbyStatus) : Z :=
  match s with
  | WAITING => 0
  | IN_GAME => 1
  | COMPLETED | CANCELLED => 2
  end.

(** The row links the two users, in either direction. *)
Definition linked (a b : string) (f : Friendship.t) : bool :=
  FriendshipService.directed a b f || FriendshipService.directed b a f.

(** The friendship rows the service maintains: at most one per pair of
    users, each in the partition of its requester, none from a user to
    themself. *)
Definition one_row_per_pair (db : DatabaseService) : Prop :=
  forall a b, (List.length (filter (linked a b) (friendships db)) <= 1)%nat.

Definition friendships_keyed (db : DatabaseService) : Prop :=
  forall f, In f (friendships db) ->
            Friendship.partitionKey f = Friendship.requester_id f.

Definition no_self_row (db : DatabaseService) : Prop :=
  forall f, In f (friendships db) ->
            Friendship.requester_id f <> Friendship.addressee_id f.

(** The calls that write friendship rows, and a sequence of them, each at
    its own instant. *)
Inductive friendship_call : Type :=
| SendRequest (requester_id addressee_id uuid : string)
| AcceptRequest (addressee_id requester_id : string)
| RejectRequest (addressee_id requester_id : string)
| Block (blocker_id blocked_id uuid : string)
| Unblock (blocker_id blocked_id : string)
| RemoveFriend (user_id friend_id : string).

Definition run_friendship_call (c : friendship_call) (now : timestamp)
           (db : DatabaseService) : DatabaseService :=
  match c with
  | SendRequest requester_id addressee_id uuid =>
    snd (FriendshipService.send_friend_request requester_id addressee_id
           uuid now db)
  | AcceptRequest addressee_id requester_id =>
    snd (FriendshipService.accept_friend_request addressee_id requester_id
           now db)
  | RejectRequest addressee_id requester_id =>
    snd (FriendshipService.reject_friend_request addressee_id requester_id
           now db)
  | Block blocker_id blocked_id uuid =>
    snd (FriendshipService.block_user blocker_id blocked_id uuid now db)
  | Unblock blocker_id blocked_id =>
    snd (FriendshipService.unblock_user blocker_id blocked_id db)
  | RemoveFriend user_id friend_id =>
    snd (FriendshipService.remove_friend user_id friend_id db)
  end.

Fixpoint run_friendship_calls (calls : list (friendship_call * timestamp))
         (db : DatabaseService) : DatabaseService :=
  match calls with
  | [] => db
  | (c, now) :: calls' =>
    run_friendship_calls calls' (run_friendship_call c now db)
  end.

(** What one call may do to the rows: nothing, set the status of one row,
    add the first row of a pair, or remove a row. *)
Definition friendship_step (c c' : list Friendship.t) : Prop :=
  c' = c
  \/ (exists l1 f l2 s now,
         c = l1 ++ f :: l2
         /\ c' = l1 ++ on_update now (Friendship.with_status s f) :: l2)
  \/ (exists f,
         c' = c ++ [f]
         /\ filter (linked (Friendship.requester_id f)
                           (Friendship.addressee_id f)) c = []
         /\ Friendship.requester_id f <> Friendship.addressee_id f
         /\ Friendship.partitionKey f = Friendship.requester_id f)
  \/ (exists l1 f l2, c = l1 ++ f :: l2 /\ c' = l1 ++ l2).

(** The dungeon [dg] found at [dungeon_id] in [db] is [dg'] in [db'], and
    nothing else of the store differs. *)
Definition dungeon_rewritten (db db' : DatabaseService) (dungeon_id : string)
           (dg dg' : Dungeon.t) : Prop :=
  exists l1 l2,
    dungeons db = l1 ++ dg :: l2
    /\ (forall x, In x l1 -> Dungeon.id x <> dungeon_id)
    /\ db' = write dungeons_container (l1 ++ dg' :: l2) db.

(** The calls that write dungeons and ratings, and a sequence of them, each
    at its own instant. *)
Inductive dungeon_call : Type :=
| CreateDungeon (dungeon_create : DungeonCreate.t) (creator_id uuid : string)
| RateDungeon (dungeon_id user_id : string) (rating : Z)
              (comment : option string) (uuid : string)
| PlayDungeon (dungeon_id : string)
| DeleteDungeon (dungeon_id creator_id : string).

Definition run_dungeon_call (c : dungeon_call) (now : timestamp)
           (db : DatabaseService) : DatabaseService :=
  match c with
  | CreateDungeon dungeon_create creator_id uuid =>
    snd (DungeonService.create_dungeon dungeon_create creator_id uuid now db)
  | RateDungeon dungeon_id user_id rating comment uuid =>
    snd (DungeonService.rate_dungeon dungeon_id user_id rating comment uuid
           now db)
  | PlayDungeon dungeon_id =>
    snd (DungeonService.increment_play_count dungeon_id now db)
  | DeleteDungeon dungeon_id creator_id =>
    snd (DungeonService.delete_dungeon dungeon_id creator_id db)
  end.

Fixpoint run_dungeon_calls (calls : list (dungeon_call * timestamp))
         (db : DatabaseService) : DatabaseService :=
  match calls with
  | [] => db
  | (c, now) :: calls' => run_dungeon_calls calls' (run_dungeon_call c now db)
  end.

(** The leaderboard rows the service writes: player rows in the partition
    [player_scores], dungeon rows in [dungeon_scores]. *)
Definition leaderboard_keyed (db : DatabaseService) : Prop :=
  forall x, In x (leaderboard db) ->
            doc_partition_key x
            = match x with
              | PlayerScoreDoc _ => "player_scores"%string
              | DungeonScoreDoc _ => "dungeon_scores"%string
              end.

(** The player rows of the leaderboard. *)
Definition players (db : DatabaseService) : list PlayerScore.t :=
  flat_map
    (fun doc =>
       match doc with
       | PlayerScoreDoc p => [p]
       | DungeonScoreDoc _ => []
       end) (leaderboard db).



(** ** Sample stores *)

Definition crypt_run : LobbyCreate.t :=
  LobbyCreate.mk "Crypt run" "dungeon-1" 4 true None.

(** One lobby, as [create_lobby] leaves it. *)
Definition db_one_lobby : DatabaseService :=
  snd (LobbyService.create_lobby crypt_run "creator-1" "lobby-1" 1000 empty_db).

(** The same lobby after somebody left it. *)
Definition db_deserted : DatabaseService :=
  snd (LobbyService.leave_lobby "lobby-1" "stranger" 2000 db_one_lobby).

Definition deserted_lobby : Lobby.t :=
  Lobby.mk "lobby-1" "Crypt run" "creator-1" "dungeon-1" 4 0 true None
           WAITING 1000 2000 None None "creator-1".

Definition fresh_lobby : Lobby.t :=
  Lobby.mk "lobby-1" "Crypt run" "creator-1" "dungeon-1" 4 1 true None
           WAITING 1000 1000 None None "creator-1".

Definition duo : LobbyCreate.t := LobbyCreate.mk "Duo" "dungeon-1" 2 true None.

(** A lobby for two: the creator invites a friend, then somebody else takes
    the free seat. *)
Definition db_duo : DatabaseService :=
  snd (LobbyService.create_lobby duo "creator-1" "lobby-2" 1000 empty_db).

Definition db_duo_invited : DatabaseService :=
  snd (LobbyService.create_lobby_invite "lobby-2" "creator-1" "friend-1"
         "invite-1" 2000 db_duo).

Definition db_duo_full : DatabaseService :=
  snd (LobbyService.join_lobby "lobby-2" "stranger" None 3000 db_duo_invited).

Definition duo_invite : LobbyInvite.t :=
  LobbyInvite.mk "invite-1" "lobby-2" "creator-1" "friend-1" 2000 2000
                 (2000 + hours_24) None "lobby-2".

Definition duo_lobby_full : Lobby.t :=
  Lobby.mk "lobby-2" "Duo" "creator-1" "dungeon-1" 2 2 true None
           WAITING 1000 3000 None None "creator-1".

(** Bob once blocked Alice. *)
Definition db_blocked : DatabaseService :=
  snd (FriendshipService.block_user "bob" "alice" "friendship-1" 1000 empty_db).

(** Alice asked Bob. *)
Definition db_requested : DatabaseService :=
  snd (FriendshipService.send_friend_request "alice" "bob" "friendship-1" 1000
         empty_db).

Definition player_score (i user : string) (score : Z) : LeaderboardItem :=
  PlayerScoreDoc
    (PlayerScore.mk i user user score 0 0 float_zero 1000 1000 1000
                    "player_scores").

Definition ann_row : PlayerScore.t :=
  PlayerScore.mk "score-1" "ann" "ann" 200 0 0 float_zero 1000 1000 1000
                 "player_scores".

(** Three players with scores 300, 200 and 100. *)
Definition db_podium : DatabaseService :=
  mkDb [] [] [] []
       [player_score "score-1" "ann" 200;
        player_score "score-2" "bea" 300;
        player_score "score-3" "cyd" 100].

Definition crypt : DungeonCreate.t :=
  DungeonCreate.mk "Crypt" None MEDIUM "{}" [] true.

(** A dungeon, rated 5 and then 3 by the same user. *)
Definition db_dungeon : DatabaseService :=
  snd (DungeonService.create_dungeon crypt "creator-1" "dungeon-1" 1000 empty_db).

Definition db_rated_5 : DatabaseService :=
  snd (DungeonService.rate_dungeon "dungeon-1" "user-1" 5 None "rating-1" 2000
         db_dungeon).

Definition db_rated_3 : DatabaseService :=
  snd (DungeonService.rate_dungeon "dungeon-1" "user-1" 3 (Some "meh"%string)
         "rating-2" 3000 db_rated_5).

(** The floats [5.0] and [3.0]. *)
Definition float_5 : float := S754_finite false 5629499534213120 (-50).
Definition float_3 : float := S754_finite false 6755399441055744 (-51).

(** The first lobby once started, then completed. *)
Definition db_started : DatabaseService :=
  snd (LobbyService.start_lobby "lobby-1" "creator-1" 2000 db_one_lobby).

Definition started_lobby : Lobby.t :=
  Lobby.mk "lobby-1" "Crypt run" "creator-1" "dungeon-1" 4 1 true None
           IN_GAME 1000 2000 (Some 2000) None "creator-1".

Definition db_completed : DatabaseService :=
  snd (LobbyService.complete_lobby "lobby-1" "creator-1" 3000 db_started).

Definition completed_lobby : Lobby.t :=
  Lobby.mk "lobby-1" "Crypt run" "creator-1" "dungeon-1" 4 1 true None
           COMPLETED 1000 3000 (Some 2000) (Some 3000) "creator-1".

(** Alice asked Bob, and Bob accepted. *)
Definition db_friends : DatabaseService :=
  snd (FriendshipService.accept_friend_request "bob" "alice" 2000 db_requested).

Definition alice_asked_bob : Friendship.t :=
  Friendship.mk "friendship-1" "alice" "bob" PENDING 1000 1000 "alice".

Definition alice_and_bob : Friendship.t :=
  Friendship.mk "friendship-1" "alice" "bob" ACCEPTED 1000 2000 "alice".

Definition podium_dungeon : LeaderboardItem :=
  DungeonScoreDoc
    (DungeonScore.mk "score-9" "dungeon-1" "Crypt" "ann" 50 7 float_zero 0
                     1000 1000 1000 "dungeon_scores").

(** The three players and one dungeon row. *)
Definition db_board : DatabaseService :=
  mkDb [] [] [] [] (leaderboard db_podium ++ [podium_dungeon]).

(** The crypt rated 5, 4 and 4 by three users: the mean 13/3 is not a
    multiple of 0.01. *)
Definition db_rated_54 : DatabaseService :=
  snd (DungeonService.rate_dungeon "dungeon-1" "user-2" 4 None "rating-2" 3000
         db_rated_5).

Definition db_rated_544 : DatabaseService :=
  snd (DungeonService.rate_dungeon "dungeon-1" "user-3" 4 None "rating-3" 4000
         db_rated_54).

(** The float [4.33]. *)
Definition float_4_33 : float := S754_finite false 4875146596628562 (-50).

(** Two dungeons, the second one rated 2 and 3; then the first one rated 5. *)
Definition db_two_dungeons : DatabaseService :=
  snd (DungeonService.rate_dungeon "dungeon-2" "user-2" 3 None "rating-2" 2200
         (snd (DungeonService.rate_dungeon "dungeon-2" "user-1" 2 None
                 "rating-1" 2100
                 (snd (DungeonService.create_dungeon crypt "creator-2"
                         "dungeon-2" 2000 db_dungeon))))).

(** The crypt after its creator sent an update that names another
    [creator_id]: the document stays in the partition of the first one. *)
Definition db_handed_over : DatabaseService :=
  snd (DungeonService.update_dungeon "dungeon-1" "creator-1"
         (Dungeon.with_creator_id "creator-2") 1500 db_dungeon).

Definition handed_over : Dungeon.t :=
  Dungeon.mk "dungeon-1" "Crypt" None "creator-2" MEDIUM "{}" [] true DRAFT
             float_zero 0 0 1000 1500 "creator-1".

(** A lobby created with [max_players = 0]. *)
Definition no_seats : LobbyCreate.t :=
  LobbyCreate.mk "Nobody" "dungeon-1" 0 true None.

Definition db_no_seats : DatabaseService :=
  snd (LobbyService.create_lobby no_seats "creator-1" "lobby-3" 1000 empty_db).

Definition no_seats_lobby : Lobby.t :=
  Lobby.mk "lobby-3" "Nobody" "creator-1" "dungeon-1" 0 1 true None
           WAITING 1000 1000 None None "creator-1".

(** ** Facts about the store *)

Section ContainerFacts.
Context {D : Type} `{Document D}.

Lemma first_selected_split (p : D -> bool) (c : list D) (d : D) (rest : list D) :
  filter p c = d :: rest ->
  exists l1 l2,
    c = l1 ++ d :: l2 /\ filter p l1 = [] /\ rest = filter p l2 /\ p d = true.
Proof.
  induction c as [|x c IH]; simpl; intros E; [discriminate|].
  destruct (p x) eqn:Px.
  - injection E as -> <-. exists [], c. simpl. auto.
  - destruct (IH E) as (l1 & l2 & -> & E1 & E2 & Pd).
    exists (x :: l1), l2. simpl. rewrite Px. auto.
Qed.

Lemma read_item_split (c : list D) (i pk : string) (d : D) :
  Container.read_item c i pk = Some d ->
  exists l1 l2,
    c = l1 ++ d :: l2
    /\ (forall x, In x l1 -> Container.addressed i pk x = false)
    /\ Container.addressed i pk d = true.
Proof.
  unfold Container.read_item.
  induction c as [|x c IH]; simpl; intros E; [discriminate|].
  destruct (Container.addressed i pk x) eqn:Ax.
  - injection E as ->. exists [], c. simpl. intuition.
  - destruct (IH E) as (l1 & l2 & -> & N & A).
    exists (x :: l1), l2. simpl. intuition. subst. assumption.
Qed.

Lemma read_item_None (c : list D) (i pk : string) :
  Container.read_item c i pk = None ->
  forall x, In x c -> Container.addressed i pk x = false.
Proof.
  unfold Container.read_item. intros E x Hx.
  exact (find_none _ _ E x Hx).
Qed.

Lemma read_item_app (l1 l2 : list D) (i pk : string) (d : D) :
  (forall x, In x l1 -> Container.addressed i pk x = false) ->
  Container.addressed i pk d = true ->
  Container.read_item (l1 ++ d :: l2) i pk = Some d.
Proof.
  unfold Container.read_item.
  induction l1 as [|x l1 IH]; simpl; intros N A.
  - now rewrite A.
  - rewrite (N x (or_introl eq_refl)). apply IH; auto.
Qed.

Lemma replace_item_app (l1 l2 : list D) (i : string) (d item : D) :
  (forall x, In x l1 ->
             Container.addressed i (doc_partition_key item) x = false) ->
  Container.addressed i (doc_partition_key item) d = true ->
  Container.replace_item (l1 ++ d :: l2) i item = l1 ++ item :: l2.
Proof.
  induction l1 as [|x l1 IH]; simpl; intros N A.
  - now rewrite A.
  - rewrite (N x (or_introl eq_refl)). f_equal. apply IH; auto.
Qed.

Lemma addressed_true (i pk : string) (d : D) :
  Container.addressed i pk d = true <->
  doc_id d = i /\ doc_partition_key d = pk.
Proof.
  unfold Container.addressed.
  rewrite andb_true_iff, !String.eqb_eq. tauto.
Qed.

Lemma filter_nil_forall (p : D -> bool) (l : list D) :
  filter p l = [] <-> forall x, In x l -> p x = false.
Proof.
  induction l as [|x l IH]; simpl.
  - split; [intros _ x []|reflexivity].
  - destruct (p x) eqn:Px; split.
    + discriminate.
    + intros N. specialize (N x (or_introl eq_refl)). congruence.
    + intros E y [<-|Hy]; [assumption|]. now apply IH.
    + intros N. apply IH. intros y Hy. apply N. now right.
Qed.

(** The first document with identifier [i] is the one a point read at
    its partition key returns. *)
Lemma first_by_id_read (c : list D) (i : string) (d : D) (rest : list D) :
  filter (fun x => String.eqb (doc_id x) i) c = d :: rest ->
  exists l1 l2,
    c = l1 ++ d :: l2
    /\ (forall x, In x l1 -> doc_id x <> i)
    /\ doc_id d = i
    /\ rest = filter (fun x => String.eqb (doc_id x) i) l2
    /\ Container.read_item c i (doc_partition_key d) = Some d.
Proof.
  intros E.
  destruct (first_selected_split _ _ _ _ E) as (l1 & l2 & -> & E1 & E2 & Pd).
  apply String.eqb_eq in Pd.
  assert (N : forall x, In x l1 -> doc_id x <> i).
  { intros x Hx. rewrite filter_nil_forall in E1.
    specialize (E1 x Hx). now apply String.eqb_neq in E1. }
  exists l1, l2. repeat split; auto.
  apply read_item_app.
  - intros x Hx. unfold Container.addressed.
    apply N in Hx. apply String.eqb_neq in Hx. now rewrite Hx.
  - apply addressed_true. auto.
Qed.

(** With unique identifiers a document is the only one of its
    identifier. *)
Lemma unique_ids_split (l1 l2 : list D) (d : D) :
  unique_ids (l1 ++ d :: l2) ->
  (forall x, In x l1 -> doc_id x <> doc_id d)
  /\ (forall x, In x l2 -> doc_id x <> doc_id d).
Proof.
  unfold unique_ids. rewrite map_app. simpl. intros ND.
  apply NoDup_remove_2 in ND.
  split; intros x Hx E; apply ND, in_or_app; [left|right];
    rewrite <- E; now apply in_map.
Qed.

Lemma unique_ids_replace (l1 l2 : list D) (d d' : D) :
  doc_id d' = doc_id d ->
  unique_ids (l1 ++ d :: l2) -> unique_ids (l1 ++ d' :: l2).
Proof.
  unfold unique_ids. rewrite !map_app. simpl. now intros ->.
Qed.

Lemma unique_ids_create (c : list D) (d : D) :
  unique_ids c -> fresh_id (doc_id d) c -> unique_ids (c ++ [d]).
Proof.
  unfold unique_ids, fresh_id. rewrite map_app. simpl. intros ND F.
  apply NoDup_app; [assumption|repeat constructor; intros []|].
  intros x Hx [<-|[]]. contradiction.
Qed.
Lemma in_unique_split (c : list D) (d : D) :
  unique_ids c -> In d c ->
  exists l1 l2,
    c = l1 ++ d :: l2
    /\ (forall x, In x l1 -> doc_id x <> doc_id d)
    /\ (forall x, In x l2 -> doc_id x <> doc_id d).
Proof.
  intros U I. destruct (in_split _ _ I) as (l1 & l2 & ->).
  exists l1, l2. split; [reflexivity|]. now apply unique_ids_split.
Qed.

Lemma filter_none_by_id (q : D -> bool) (i : string) (l : list D) :
  (forall x, In x l -> doc_id x <> i) ->
  filter (fun x => String.eqb (doc_id x) i && q x) l = [].
Proof.
  intros N. apply filter_nil_forall. intros x Hx.
  apply N, String.eqb_neq in Hx. now rewrite Hx.
Qed.

Lemma filter_one_by_id (q : D -> bool) (l1 l2 : list D) (d : D) :
  (forall x, In x l1 -> doc_id x <> doc_id d) ->
  (forall x, In x l2 -> doc_id x <> doc_id d) ->
  filter (fun x => String.eqb (doc_id x) (doc_id d) && q x) (l1 ++ d :: l2)
  = if q d then [d] else [].
Proof.
  intros N1 N2. rewrite filter_app. simpl.
  rewrite (filter_none_by_id q _ l1 N1), (filter_none_by_id q _ l2 N2).
  rewrite String.eqb_refl. simpl. now destruct (q d).
Qed.

Lemma update_item_at (c : container D) (db : DatabaseService)
      (l1 l2 : list D) (d : D) (i pk : string) (updates : D -> D)
      (now : timestamp) :
  read c db = l1 ++ d :: l2 ->
  (forall x, In x l1 -> Container.addressed i pk x = false) ->
  Container.addressed i pk d = true ->
  doc_partition_key (on_update now (updates d)) = pk ->
  update_item c i pk updates now db
  = (Return (on_update now (updates d)),
     write c (l1 ++ on_update now (updates d) :: l2) db).
Proof.
  intros E N A K.
  unfold update_item, bind, get_item, raise. rewrite E.
  rewrite (read_item_app l1 l2 i pk d N A). cbv beta iota. rewrite E.
  rewrite replace_item_app; [reflexivity| |]; now rewrite K.
Qed.
End ContainerFacts.

Lemma LobbyStatus_eqb_eq (a b : LobbyStatus) :
  LobbyStatus_eqb a b = true <-> a = b.
Proof. destruct a, b; simpl; split; congruence. Qed.

Lemma FriendshipStatus_eqb_eq (a b : FriendshipStatus) :
  FriendshipStatus_eqb a b = true <-> a = b.
Proof. destruct a, b; simpl; split; congruence. Qed.

Lemma opt_str_eqb_eq (a b : option string) : opt_str_eqb a b = true <-> a = b.
Proof.
  destruct a as [x|], b as [y|]; simpl; try (split; congruence).
  rewrite String.eqb_eq. split; congruence.
Qed.

(** *** Lobbies *)

Lemma get_lobby_by_id_first (db : DatabaseService) (lobby_id : string) :
  LobbyService.get_lobby_by_id lobby_id db =
  match filter (fun c => String.eqb (doc_id c) lobby_id) (lobbies db) with
  | [] => (Return None, db)
  | LobbyDoc l :: _ => (Return (Some l), db)
  | InviteDoc _ :: _ => (Raise ValidationError, db)
  end.
Proof.
  unfold LobbyService.get_lobby_by_id, bind, query_items, Container.query_items.
  simpl.
  destruct (filter _ (lobbies db)) as [|[l|v] rest]; reflexivity.
Qed.

Lemma lobby_at_first (db : DatabaseService) (lobby_id : string) (l : Lobby.t) :
  lobby_at db lobby_id l <->
  exists rest,
    filter (fun c => String.eqb (doc_id c) lobby_id) (lobbies db)
    = LobbyDoc l :: rest.
Proof.
  unfold lobby_at. rewrite get_lobby_by_id_first.
  destruct (filter _ (lobbies db)) as [|[l0|v] rest]; split;
    try discriminate; try (intros (r & E); discriminate).
  - intros E. injection E as ->. now exists rest.
  - intros (r & E). injection E as -> _. reflexivity.
Qed.

Lemma not_an_invite_cases (db : DatabaseService) (lobby_id : string) :
  not_an_invite lobby_id db ->
  lobby_absent db lobby_id \/ exists l, lobby_at db lobby_id l.
Proof.
  intros NI. unfold lobby_absent, lobby_at. rewrite get_lobby_by_id_first.
  destruct (filter _ (lobbies db)) as [|[l|v] rest] eqn:E.
  - now left.
  - right. now exists l.
  - exfalso.
    assert (I : In (InviteDoc v)
                   (filter (fun c => String.eqb (doc_id c) lobby_id) (lobbies db)))
      by (rewrite E; now left).
    apply filter_In in I. destruct I as [I Id].
    apply String.eqb_eq in Id. exact (NI v I Id).
Qed.

Lemma lobby_absent_not_at (db : DatabaseService) (lobby_id : string) (l : Lobby.t) :
  lobby_absent db lobby_id -> lobby_at db lobby_id l -> False.
Proof. unfold lobby_absent, lobby_at. congruence. Qed.

Lemma lobby_at_unique (db : DatabaseService) (lobby_id : string) (l l' : Lobby.t) :
  lobby_at db lobby_id l -> lobby_at db lobby_id l' -> l = l'.
Proof. unfold lobby_at. congruence. Qed.

Lemma lobby_at_In (db : DatabaseService) (lobby_id : string) (l : Lobby.t) :
  lobby_at db lobby_id l -> In (LobbyDoc l) (lobbies db) /\ Lobby.id l = lobby_id.
Proof.
  intros A. apply lobby_at_first in A. destruct A as (rest & E).
  assert (I : In (LobbyDoc l)
                 (filter (fun c => String.eqb (doc_id c) lobby_id) (lobbies db)))
    by (rewrite E; now left).
  apply filter_In in I. destruct I as [I Id].
  apply String.eqb_eq in Id. auto.
Qed.

(** A dictionary update on the lobby found by [get_lobby_by_id], addressed
    at the creator's partition, rewrites that lobby in place. *)
Lemma update_lobby_at (db : DatabaseService) (lobby_id : string) (l : Lobby.t)
      (f : Lobby.t -> Lobby.t) (now : timestamp) :
  lobby_at db lobby_id l ->
  Lobby.partitionKey l = Lobby.creator_id l ->
  Lobby.id (f l) = Lobby.id l ->
  Lobby.partitionKey (f l) = Lobby.partitionKey l ->
  exists l1 l2,
    lobbies db = l1 ++ LobbyDoc l :: l2
    /\ (forall x, In x l1 -> doc_id x <> lobby_id)
    /\ update_item lobbies_container lobby_id (Lobby.creator_id l)
                   (on_lobby f) now db
       = (Return (LobbyDoc (on_update now (f l))),
          write lobbies_container
                (l1 ++ LobbyDoc (on_update now (f l)) :: l2) db)
    /\ lobby_at (write lobbies_container
                       (l1 ++ LobbyDoc (on_update now (f l)) :: l2) db)
                lobby_id (on_update now (f l)).
Proof.
  intros A K Fi Fk.
  apply lobby_at_first in A. destruct A as (rest & E).
  destruct (first_by_id_read _ _ _ _ E) as (l1 & l2 & Ec & N & Id & _ & R).
  exists l1, l2. simpl in Id, R. rewrite K in R.
  split; [assumption|]. split; [assumption|]. split.
  - unfold update_item, bind, get_item, raise. simpl. rewrite R. simpl.
    rewrite Ec at 1. rewrite replace_item_app; [reflexivity| |].
    + intros x Hx. unfold Container.addressed.
      apply N in Hx. apply String.eqb_neq in Hx. now rewrite Hx.
    + apply addressed_true. simpl. rewrite Fk. auto.
  - apply lobby_at_first. simpl. rewrite filter_app. simpl.
    rewrite Fi, Id, String.eqb_refl.
    replace (filter _ l1) with (@nil LobbiesItem).
    + simpl. eauto.
    + symmetry. apply filter_nil_forall. intros x Hx.
      apply N in Hx. now apply String.eqb_neq.
Qed.

Lemma lobby_cases (db : DatabaseService) (lobby_id : string) (P : Prop) :
  not_an_invite lobby_id db ->
  (lobby_absent db lobby_id -> P) ->
  (forall l, lobby_at db lobby_id l -> P) -> P.
Proof.
  intros NI Ha Hl. destruct (not_an_invite_cases db lobby_id NI) as [A|(l & A)]; eauto.
Qed.







(** C2, as the code has it.  For an existing lobby, [start_lobby] returns
    [True] exactly when the caller is the creator, the lobby is waiting and
    it has at least one player; the lobby is then [in_game] with
    [started_at = now].  In every other case it returns [False] and the
    store is untouched. *)
Theorem start_lobby_guard
        (db : DatabaseService) (lobby_id creator_id : string) (now : timestamp)
        (l : Lobby.t) :
  lobbies_keyed db ->
  lobby_at db lobby_id l ->
  ((exists db',
       LobbyService.start_lobby lobby_id creator_id now db = (Return true, db'))
   <-> Lobby.creator_id l = creator_id
       /\ Lobby.status l = WAITING
       /\ 1 <= Lobby.current_players l)
  /\ (LobbyService.start_lobby lobby_id creator_id now db = (Return false, db)
      <-> Lobby.creator_id l <> creator_id
          \/ Lobby.status l <> WAITING
          \/ Lobby.current_players l < 1)
  /\ (forall db',
         LobbyService.start_lobby lobby_id creator_id now db = (Return true, db') ->
         exists l',
           lobby_at db' lobby_id l'
           /\ l' = on_update now (Lobby.with_started now l)
           /\ Lobby.status l' = IN_GAME
           /\ Lobby.started_at l' = Some now).
Proof.
  intros K A.
  assert (Fail : Lobby.creator_id l <> creator_id
                 \/ Lobby.status l <> WAITING
                 \/ Lobby.current_players l < 1 ->
                 LobbyService.start_lobby lobby_id creator_id now db
                 = (Return false, db)).
  { intros Why. unfold LobbyService.start_lobby, bind. rewrite A.
    destruct (String.eqb (Lobby.creator_id l) creator_id) eqn:C; [|reflexivity].
    apply String.eqb_eq in C. simpl.
    destruct (LobbyStatus_eqb (Lobby.status l) WAITING) eqn:S; [|reflexivity].
    apply LobbyStatus_eqb_eq in S. simpl.
    destruct (Lobby.current_players l <? 1) eqn:P; [reflexivity|].
    apply Z.ltb_ge in P. destruct Why as [?|[?|?]]; [contradiction..|lia]. }
  assert (Succ : Lobby.creator_id l = creator_id ->
                 Lobby.status l = WAITING ->
                 1 <= Lobby.current_players l ->
                 exists db',
                   LobbyService.start_lobby lobby_id creator_id now db
                   = (Return true, db')
                   /\ lobby_at db' lobby_id (on_update now (Lobby.with_started now l))).
  { intros C W P.
    destruct (update_lobby_at db lobby_id l (Lobby.with_started now)
                now A (K l (proj1 (lobby_at_In _ _ _ A))) eq_refl eq_refl)
      as (l1 & l2 & _ & _ & U & A').
    eexists. split; [|exact A'].
    unfold LobbyService.start_lobby, bind. rewrite A.
    rewrite C, String.eqb_refl, W. simpl.
    destruct (Lobby.current_players l <? 1) eqn:Lt;
      [apply Z.ltb_lt in Lt; lia|].
    unfold bind. rewrite <- C, U. reflexivity. }
  assert (Dec : (Lobby.creator_id l = creator_id
                 /\ Lobby.status l = WAITING /\ 1 <= Lobby.current_players l)
                \/ (Lobby.creator_id l <> creator_id
                    \/ Lobby.status l <> WAITING
                    \/ Lobby.current_players l < 1)).
  { destruct (string_dec (Lobby.creator_id l) creator_id); [|tauto].
    destruct (Lobby.status l); try (right; right; left; discriminate).
    destruct (Z_le_gt_dec 1 (Lobby.current_players l)); [tauto|].
    right. right. right. lia. }
  split; [split|split; [split|]].
  - intros (db' & E). destruct Dec as [Ok|Why]; [assumption|].
    rewrite (Fail Why) in E. discriminate.
  - intros (C & W & P). destruct (Succ C W P) as (db' & E & _). eauto.
  - intros E. destruct Dec as [(C & W & P)|Why]; [|assumption].
    destruct (Succ C W P) as (db' & E' & _). congruence.
  - exact Fail.
  - intros db' E. destruct Dec as [(C & W & P)|Why].
    + destruct (Succ C W P) as (db'' & E' & A').
      assert (db'' = db') by congruence. subst db''.
      eexists. split; [exact A'|]. repeat split.
    + rewrite (Fail Why) in E. discriminate.
Qed.

(** C2 as stated fails: the creator cannot start a waiting lobby that
    everybody has left. *)
Lemma start_lobby_deserted :
  lobby_at db_deserted "lobby-1" deserted_lobby
  /\ Lobby.creator_id deserted_lobby = "creator-1"%string
  /\ Lobby.status deserted_lobby = WAITING
  /\ LobbyService.start_lobby "lobby-1" "creator-1" 3000 db_deserted
     = (Return false, db_deserted).
Proof. repeat split. Qed.

Lemma db_one_lobby_keyed : lobbies_keyed db_one_lobby.
Proof. intros l [E|[]]. injection E as <-. reflexivity. Defined.

Lemma db_one_lobby_no_invite (i : string) : not_an_invite i db_one_lobby.
Proof. intros v [E|[]]. discriminate E. Defined.





Lemma start_lobby_guard_witness :
  lobbies_keyed db_one_lobby
  /\ lobby_at db_one_lobby "lobby-1" fresh_lobby
  /\ exists db',
      LobbyService.start_lobby "lobby-1" "creator-1" 2000 db_one_lobby
      = (Return true, db').
Proof.
  split; [exact db_one_lobby_keyed|]. split; [reflexivity|].
  destruct (start_lobby_guard db_one_lobby "lobby-1" "creator-1" 2000 fresh_lobby
              db_one_lobby_keyed eq_refl) as [[_ S] _].
  apply S. simpl. repeat split. lia.
Defined.

(** *** Invites *)

Lemma insert_desc_In {A : Type} (key : A -> Z) (x y : A) (l : list A) :
  In x (insert_desc key y l) <-> x = y \/ In x l.
Proof.
  induction l as [|z l IH]; simpl.
  - intuition.
  - destruct (key z <? key y); simpl; [intuition|]. rewrite IH. intuition.
Qed.

Lemma order_by_desc_In {A : Type} (key : A -> Z) (x : A) (l : list A) :
  In x (order_by_desc key l) <-> In x l.
Proof.
  unfold order_by_desc. induction l as [|y l IH]; simpl; [tauto|].
  rewrite insert_desc_In, IH. intuition.
Qed.

Lemma comprehension_invites (l : list LobbiesItem) :
  (forall x, In x l -> exists v, x = InviteDoc v) ->
  exists vs,
    comprehension as_LobbyInvite l = Return vs
    /\ forall w, In w vs <-> In (InviteDoc w) l.
Proof.
  induction l as [|x l IH]; intros Inv; simpl.
  - exists []. split; [reflexivity|]. simpl. tauto.
  - destruct (Inv x (or_introl eq_refl)) as (v & ->). simpl.
    destruct IH as (vs & -> & Hvs); [intros y Hy; apply Inv; now right|].
    exists (v :: vs). split; [reflexivity|]. intros w. simpl. rewrite Hvs.
    split; intros [E|I]; auto; left; congruence.
Qed.

(** Rewriting an invite leaves every lobby lookup as it was. *)
Lemma get_lobby_by_id_invite_rewritten
      (db db' : DatabaseService) (l1 l2 : list LobbiesItem)
      (v v' : LobbyInvite.t) (lobby_id : string) :
  lobbies db = l1 ++ InviteDoc v :: l2 ->
  lobbies db' = l1 ++ InviteDoc v' :: l2 ->
  LobbyInvite.id v' = LobbyInvite.id v ->
  fst (LobbyService.get_lobby_by_id lobby_id db')
  = fst (LobbyService.get_lobby_by_id lobby_id db).
Proof.
  intros E E' Id. rewrite !get_lobby_by_id_first, E, E', !filter_app. simpl.
  rewrite Id.
  destruct (filter _ l1) as [|[l|w] rest]; simpl; try reflexivity.
  destruct (String.eqb (LobbyInvite.id v) lobby_id); [reflexivity|].
  destruct (filter _ l2) as [|[l|w] rest]; reflexivity.
Qed.

Lemma get_lobby_by_id_keeps_db (db : DatabaseService) (lobby_id : string) :
  snd (LobbyService.get_lobby_by_id lobby_id db) = db.
Proof.
  rewrite get_lobby_by_id_first.
  destruct (filter _ (lobbies db)) as [|[l|w] rest]; reflexivity.
Qed.

Lemma join_lobby_refused (db : DatabaseService) (lobby_id user_id : string)
      (now : timestamp) :
  join_refused db lobby_id ->
  LobbyService.join_lobby lobby_id user_id None now db = (Return false, db).
Proof.
  intros [A|(l & A & Why)];
    unfold LobbyService.join_lobby, bind; rewrite A; [reflexivity|].
  destruct (LobbyStatus_eqb (Lobby.status l) WAITING) eqn:S; [|reflexivity].
  apply LobbyStatus_eqb_eq in S. simpl.
  destruct (Lobby.max_players l <=? Lobby.current_players l) eqn:Full;
    [reflexivity|].
  apply Z.leb_gt in Full.
  destruct Why as [W|[C|T]]; [contradiction|lia|].
  rewrite T. simpl.
  destruct (Lobby.password l); [reflexivity|discriminate T].
Qed.

Lemma join_refused_transfer (db db' : DatabaseService) (lobby_id : string) :
  fst (LobbyService.get_lobby_by_id lobby_id db')
  = fst (LobbyService.get_lobby_by_id lobby_id db) ->
  join_refused db lobby_id -> join_refused db' lobby_id.
Proof.
  intros E. unfold join_refused, lobby_absent, lobby_at.
  pose proof (get_lobby_by_id_keeps_db db lobby_id) as S.
  pose proof (get_lobby_by_id_keeps_db db' lobby_id) as S'.
  destruct (LobbyService.get_lobby_by_id lobby_id db) as [r d].
  destruct (LobbyService.get_lobby_by_id lobby_id db') as [r' d'].
  simpl in *. subst r' d d'.
  intros [A|(l & A & Why)].
  - left. congruence.
  - right. exists l. split; [congruence|assumption].
Qed.

(** C10.  Accepting a valid invite whose lobby refuses the join: the invite
    is flagged accepted first, the join then fails, and the call returns
    [False] with the flag left in the store.  The invite is gone from the
    invitee's pending listing while no lobby has changed, so
    [current_players] is what it was. *)
Theorem accept_lobby_invite_flag_outlives_refused_join
        (db : DatabaseService) (v : LobbyInvite.t) (user_id : string)
        (now : timestamp) :
  unique_ids (lobbies db) ->
  In (InviteDoc v) (lobbies db) ->
  LobbyInvite.partitionKey v = LobbyInvite.lobby_id v ->
  LobbyInvite.invitee_id v = user_id ->
  now <= LobbyInvite.expires_at v ->
  join_refused db (LobbyInvite.lobby_id v) ->
  exists db',
    LobbyService.accept_lobby_invite (LobbyInvite.id v) user_id now db
    = (Return false, db')
    /\ In (InviteDoc (on_update now (LobbyInvite.with_is_accepted true v)))
          (lobbies db')
    /\ (forall w, In (InviteDoc w) (lobbies db') ->
                  LobbyInvite.id w = LobbyInvite.id v ->
                  LobbyInvite.is_accepted w = Some true)
    /\ (forall now',
           exists listing,
             LobbyService.get_lobby_invites user_id now' db'
             = (Return listing, db')
             /\ forall w, In w listing -> LobbyInvite.id w <> LobbyInvite.id v)
    /\ (forall lobby_id,
           fst (LobbyService.get_lobby_by_id lobby_id db')
           = fst (LobbyService.get_lobby_by_id lobby_id db)).
Proof.
  intros U I K Inv Exp Ref.
  destruct (in_unique_split _ _ U I) as (l1 & l2 & E & N1 & N2).
  set (v' := on_update now (LobbyInvite.with_is_accepted true v)).
  set (db' := write lobbies_container (l1 ++ InviteDoc v' :: l2) db).
  assert (E' : lobbies db' = l1 ++ InviteDoc v' :: l2) by reflexivity.
  assert (Same : forall lobby_id,
             fst (LobbyService.get_lobby_by_id lobby_id db')
             = fst (LobbyService.get_lobby_by_id lobby_id db)).
  { intros lobby_id.
    exact (get_lobby_by_id_invite_rewritten db db' l1 l2 v v' lobby_id E E' eq_refl). }
  exists db'. split; [|split; [|split; [|split]]].
  - unfold LobbyService.accept_lobby_invite, bind, query_items,
      Container.query_items.
    change (read lobbies_container db) with (lobbies db).
    change (LobbyInvite.id v) with (doc_id (InviteDoc v)) at 1.
    rewrite E, (filter_one_by_id _ l1 l2 (InviteDoc v) N1 N2).
    simpl. rewrite Inv, String.eqb_refl.
    destruct (LobbyInvite.expires_at v <? now) eqn:Late;
      [apply Z.ltb_lt in Late; lia|].
    unfold bind.
    rewrite (update_item_at lobbies_container db l1 l2 (InviteDoc v)
               (LobbyInvite.id v) (LobbyInvite.lobby_id v)
               (on_invite (LobbyInvite.with_is_accepted true)) now E).
    + fold v'. fold db'.
      apply join_lobby_refused.
      exact (join_refused_transfer db db' _ (Same _) Ref).
    + intros x Hx. unfold Container.addressed.
      apply N1, String.eqb_neq in Hx.
      change (doc_id (InviteDoc v)) with (LobbyInvite.id v) in Hx.
      now rewrite Hx.
    + apply addressed_true. simpl. auto.
    + simpl. exact K.
  - rewrite E'. apply in_or_app. right. now left.
  - intros w Hw Id. rewrite E' in Hw.
    apply in_app_or in Hw. destruct Hw as [Hw|[Hw|Hw]].
    + apply N1 in Hw. simpl in Hw. contradiction.
    + injection Hw as <-. reflexivity.
    + apply N2 in Hw. simpl in Hw. contradiction.
  - intros now'.
    unfold LobbyService.get_lobby_invites, bind, query_values, lift.
    change (read lobbies_container db') with (lobbies db').
    match goal with
    | |- context [comprehension as_LobbyInvite ?l] =>
      destruct (comprehension_invites l) as (vs & C & Hvs)
    end.
    + intros x Hx. apply order_by_desc_In, filter_In in Hx.
      destruct Hx as [_ Hx]. destruct x as [l|w]; [discriminate Hx|eauto].
    + exists vs. rewrite C. split; [reflexivity|].
      intros w Hw Id. apply Hvs, order_by_desc_In, filter_In in Hw.
      destruct Hw as [Hw P]. rewrite E' in Hw.
      apply in_app_or in Hw. destruct Hw as [Hw|[Hw|Hw]].
      * apply N1 in Hw. simpl in Hw. contradiction.
      * injection Hw as <-. simpl in P.
        rewrite andb_false_r in P. discriminate P.
      * apply N2 in Hw. simpl in Hw. contradiction.
  - exact Same.
Qed.

Lemma db_duo_full_unique : unique_ids (lobbies db_duo_full).
Proof.
  unfold unique_ids. simpl. repeat constructor; simpl.
  - intros [E|[]]. discriminate E.
  - intros [].
Defined.

Lemma db_duo_full_refuses : join_refused db_duo_full "lobby-2".
Proof.
  right. exists duo_lobby_full. split; [reflexivity|].
  right. left. simpl. lia.
Defined.

Lemma accept_lobby_invite_flag_outlives_refused_join_witness :
  unique_ids (lobbies db_duo_full)
  /\ In (InviteDoc duo_invite) (lobbies db_duo_full)
  /\ LobbyInvite.partitionKey duo_invite = LobbyInvite.lobby_id duo_invite
  /\ LobbyInvite.invitee_id duo_invite = "friend-1"%string
  /\ 4000 <= LobbyInvite.expires_at duo_invite
  /\ join_refused db_duo_full (LobbyInvite.lobby_id duo_invite)
  /\ fst (LobbyService.get_lobby_invites "friend-1" 4000 db_duo_full)
     = Return [duo_invite]
  /\ exists db',
      LobbyService.accept_lobby_invite "invite-1" "friend-1" 4000 db_duo_full
      = (Return false, db')
      /\ LobbyService.get_lobby_invites "friend-1" 4000 db' = (Return [], db')
      /\ lobby_at db' "lobby-2" duo_lobby_full.
Proof.
  assert (I : In (InviteDoc duo_invite) (lobbies db_duo_full))
    by (right; left; reflexivity).
  assert (X : 4000 <= LobbyInvite.expires_at duo_invite)
    by (vm_compute; discriminate).
  split; [exact db_duo_full_unique|]. split; [exact I|].
  split; [reflexivity|]. split; [reflexivity|]. split; [exact X|].
  split; [exact db_duo_full_refuses|]. split; [reflexivity|].
  destruct (accept_lobby_invite_flag_outlives_refused_join
              db_duo_full duo_invite "friend-1" 4000
              db_duo_full_unique I eq_refl eq_refl X db_duo_full_refuses)
    as (db' & E & _).
  exists db'. split; [exact E|].
  vm_compute in E. injection E as <-. split; reflexivity.
Defined.

(** *** Friendships *)

Lemma _get_friendship_first (db : DatabaseService) (a b : string) :
  FriendshipService._get_friendship a b db =
  (Return
     match filter (FriendshipService.directed a b) (friendships db) with
     | f :: _ => Some f
     | [] =>
       match filter (FriendshipService.directed b a) (friendships db) with
       | f :: _ => Some f
       | [] => None
       end
     end, db).
Proof.
  unfold FriendshipService._get_friendship, bind, query_items,
    Container.query_items, ret.
  simpl.
  destruct (filter (FriendshipService.directed a b) (friendships db));
    [|reflexivity].
  destruct (filter (FriendshipService.directed b a) (friendships db));
    reflexivity.
Qed.

Lemma directed_true (a b : string) (f : Friendship.t) :
  FriendshipService.directed a b f = true <->
  Friendship.requester_id f = a /\ Friendship.addressee_id f = b.
Proof.
  unfold FriendshipService.directed.
  now rewrite andb_true_iff, !String.eqb_eq.
Qed.

Lemma related_found (db : DatabaseService) (a b : string) :
  related db a b <->
  exists f, FriendshipService._get_friendship a b db = (Return (Some f), db).
Proof.
  rewrite _get_friendship_first. split.
  - intros (f & I & D).
    destruct (filter (FriendshipService.directed a b) (friendships db))
      as [|g gs] eqn:Fab; [|eauto].
    destruct (filter (FriendshipService.directed b a) (friendships db))
      as [|g gs] eqn:Fba; [|eauto].
    exfalso. rewrite filter_nil_forall in Fab, Fba.
    specialize (Fab f I). specialize (Fba f I).
    destruct D as [D|D]; apply directed_true in D; congruence.
  - intros (f & E). injection E as E.
    destruct (filter (FriendshipService.directed a b) (friendships db))
      as [|g gs] eqn:Fab.
    + destruct (filter (FriendshipService.directed b a) (friendships db))
        as [|g gs] eqn:Fba; [discriminate E|].
      assert (I : In g (filter (FriendshipService.directed b a) (friendships db)))
        by (rewrite Fba; now left).
      apply filter_In in I. destruct I as [I D]. apply directed_true in D.
      exists g. auto.
    + assert (I : In g (filter (FriendshipService.directed a b) (friendships db)))
        by (rewrite Fab; now left).
      apply filter_In in I. destruct I as [I D]. apply directed_true in D.
      exists g. auto.
Qed.

Lemma unrelated_not_found (db : DatabaseService) (a b : string) :
  FriendshipService._get_friendship a b db = (Return None, db) ->
  filter (FriendshipService.directed a b) (friendships db) = []
  /\ filter (FriendshipService.directed b a) (friendships db) = [].
Proof.
  rewrite _get_friendship_first. intros E. injection E as E.
  destruct (filter (FriendshipService.directed a b) (friendships db));
    [|discriminate E].
  destruct (filter (FriendshipService.directed b a) (friendships db));
    [auto|discriminate E].
Qed.

Lemma send_friend_request_refused (db : DatabaseService) (a b uuid : string)
      (now : timestamp) :
  a = b \/ related db a b ->
  exists msg,
    FriendshipService.send_friend_request a b uuid now db
    = (Raise (ValueError msg), db).
Proof.
  intros Why. unfold FriendshipService.send_friend_request.
  destruct (String.eqb a b) eqn:Self; [eexists; reflexivity|].
  destruct Why as [->|R]; [rewrite String.eqb_refl in Self; discriminate|].
  apply related_found in R. destruct R as (f & E).
  unfold bind. rewrite E. eexists. reflexivity.
Qed.

Lemma send_friend_request_cases (db : DatabaseService) (a b uuid : string)
      (now : timestamp) :
  (exists msg,
      FriendshipService.send_friend_request a b uuid now db
      = (Raise (ValueError msg), db)
      /\ (a = b \/ related db a b))
  \/ (a <> b
      /\ filter (FriendshipService.directed a b) (friendships db) = []
      /\ filter (FriendshipService.directed b a) (friendships db) = []
      /\ let f := Friendship.mk uuid a b PENDING now now a in
         FriendshipService.send_friend_request a b uuid now db
         = (Return f, write friendships_container (friendships db ++ [f]) db)).
Proof.
  destruct (String.eqb a b) eqn:Self.
  - left. apply String.eqb_eq in Self.
    destruct (send_friend_request_refused db a b uuid now (or_introl Self))
      as (msg & E).
    eauto.
  - apply String.eqb_neq in Self.
    destruct (FriendshipService._get_friendship a b db) as [[[f|]|e] db0] eqn:G;
      rewrite _get_friendship_first in G; injection G as G <-.
    + left.
      assert (R : related db a b)
        by (apply related_found; rewrite _get_friendship_first, G; eauto).
      destruct (send_friend_request_refused db a b uuid now (or_intror R))
        as (msg & E).
      eauto.
    + right.
      assert (G' : FriendshipService._get_friendship a b db = (Return None, db))
        by (rewrite _get_friendship_first, G; reflexivity).
      destruct (unrelated_not_found db a b G') as [Fab Fba].
      repeat split; auto.
      unfold FriendshipService.send_friend_request, bind.
      apply String.eqb_neq in Self. rewrite Self, G'. reflexivity.
    + discriminate G.
Qed.

(** C6.  [send_friend_request] raises, inserting nothing, when the two
    users are the same or a row already links them in either direction,
    whatever its status; hence a request repeated right after a first one
    always raises. *)
Theorem send_friend_request_refuses_self_and_duplicates
        (db : DatabaseService) (a b uuid : string) (now : timestamp) :
  (a = b \/ related db a b ->
   exists msg,
     FriendshipService.send_friend_request a b uuid now db
     = (Raise (ValueError msg), db))
  /\ (forall (db1 : DatabaseService) (uuid' : string) (now' : timestamp),
         db1 = snd (FriendshipService.send_friend_request a b uuid now db) ->
         exists msg,
           FriendshipService.send_friend_request a b uuid' now' db1
           = (Raise (ValueError msg), db1)).
Proof.
  split; [apply send_friend_request_refused|].
  intros db1 uuid' now' ->.
  destruct (send_friend_request_cases db a b uuid now)
    as [(msg & E & Why)|(Ne & _ & _ & E)]; rewrite E; simpl.
  - now apply send_friend_request_refused.
  - apply send_friend_request_refused. right.
    exists (Friendship.mk uuid a b PENDING now now a). split.
    + simpl. apply in_or_app. right. now left.
    + left. split; reflexivity.
Qed.

Lemma send_friend_request_refuses_self_and_duplicates_witness :
  related db_blocked "alice" "bob"
  /\ exists msg,
      FriendshipService.send_friend_request "alice" "bob" "friendship-2" 2000
                                            db_blocked
      = (Raise (ValueError msg), db_blocked).
Proof.
  assert (R : related db_blocked "alice" "bob").
  { eexists. split; [left; reflexivity|]. right. split; reflexivity. }
  split; [exact R|].
  exact (proj1 (send_friend_request_refuses_self_and_duplicates
                  db_blocked "alice" "bob" "friendship-2" 2000)
               (or_intror R)).
Defined.

(** C5.  Once [send_friend_request(A, B)] has returned, the addressee's
    [accept_friend_request(B, A)] returns [True], and then both
    [are_friends(A, B)] and [are_friends(B, A)] return [True]. *)
Theorem friendship_symmetric_after_accept
        (db db1 : DatabaseService) (a b uuid : string) (now now' : timestamp)
        (f : Friendship.t) :
  fresh_id uuid (friendships db) ->
  FriendshipService.send_friend_request a b uuid now db = (Return f, db1) ->
  exists db2,
    FriendshipService.accept_friend_request b a now' db1 = (Return true, db2)
    /\ FriendshipService.are_friends a b db2 = (Return true, db2)
    /\ FriendshipService.are_friends b a db2 = (Return true, db2).
Proof.
  intros Fresh Sent.
  destruct (send_friend_request_cases db a b uuid now)
    as [(msg & E & _)|(Ne & Fab & Fba & E)]; [congruence|].
  cbv zeta in E. rewrite E in Sent. clear E.
  set (f0 := Friendship.mk uuid a b PENDING now now a) in Sent.
  set (f' := on_update now' (Friendship.with_status ACCEPTED f0)).
  assert (F1 : friendships db1 = friendships db ++ [f0])
    by (injection Sent as _ <-; reflexivity).
  clear Sent.
  set (db2 := write friendships_container (friendships db ++ [f']) db1).
  assert (Dab : FriendshipService.directed a b f0 = true)
    by (apply directed_true; split; reflexivity).
  assert (Dba : FriendshipService.directed b a f0 = false).
  { unfold FriendshipService.directed. simpl.
    apply String.eqb_neq in Ne. now rewrite Ne. }
  assert (G1 : FriendshipService._get_friendship a b db1 = (Return (Some f0), db1)).
  { rewrite _get_friendship_first, F1, filter_app, Fab. simpl.
    rewrite Dab. reflexivity. }
  assert (Gab : FriendshipService._get_friendship a b db2 = (Return (Some f'), db2)).
  { rewrite _get_friendship_first.
    change (friendships db2) with (friendships db ++ [f']).
    rewrite filter_app, Fab. simpl.
    change (FriendshipService.directed a b f')
      with (FriendshipService.directed a b f0).
    rewrite Dab. reflexivity. }
  assert (Gba : FriendshipService._get_friendship b a db2 = (Return (Some f'), db2)).
  { rewrite _get_friendship_first.
    change (friendships db2) with (friendships db ++ [f']).
    rewrite !filter_app, Fab, Fba. simpl.
    change (FriendshipService.directed a b f')
      with (FriendshipService.directed a b f0).
    change (FriendshipService.directed b a f')
      with (FriendshipService.directed b a f0).
    rewrite Dab, Dba. reflexivity. }
  exists db2. split; [|split].
  - unfold FriendshipService.accept_friend_request, bind. rewrite G1. simpl.
    unfold bind.
    rewrite (update_item_at friendships_container db1 (friendships db) [] f0
               uuid a (Friendship.with_status ACCEPTED) now' F1).
    + reflexivity.
    + intros x Hx. unfold Container.addressed.
      destruct (String.eqb (doc_id x) uuid) eqn:Id; [|reflexivity].
      apply String.eqb_eq in Id. exfalso. apply Fresh.
      rewrite <- Id. now apply in_map.
    + apply addressed_true. split; reflexivity.
    + reflexivity.
  - unfold FriendshipService.are_friends, bind. rewrite Gab. reflexivity.
  - unfold FriendshipService.are_friends, bind. rewrite Gba. reflexivity.
Qed.

Lemma friendship_symmetric_after_accept_witness :
  fresh_id "friendship-1" (friendships empty_db)
  /\ exists db2,
      FriendshipService.accept_friend_request "bob" "alice" 2000 db_requested
      = (Return true, db2)
      /\ FriendshipService.are_friends "alice" "bob" db2 = (Return true, db2)
      /\ FriendshipService.are_friends "bob" "alice" db2 = (Return true, db2).
Proof.
  assert (F : fresh_id "friendship-1" (friendships empty_db)) by (intros []).
  split; [exact F|].
  exact (friendship_symmetric_after_accept
           empty_db db_requested "alice" "bob" "friendship-1" 1000 2000
           (Friendship.mk "friendship-1" "alice" "bob" PENDING 1000 1000 "alice")
           F eq_refl).
Defined.

(** *** Leaderboard *)

Lemma total_score_of_rows (user_id : string) (c : list LeaderboardItem) :
  LeaderboardService.total_score_of user_id c
  = map PlayerScore.total_score (rows_of_player user_id c).
Proof.
  unfold LeaderboardService.total_score_of, rows_of_player.
  induction c as [|[p|d] c IH]; simpl; [reflexivity| |assumption].
  rewrite map_app, <- IH.
  now destruct (String.eqb (PlayerScore.user_id p) user_id).
Qed.

Lemma average_rating_of_rows (dungeon_id : string) (c : list LeaderboardItem) :
  LeaderboardService.average_rating_of dungeon_id c
  = map DungeonScore.average_rating (rows_of_dungeon dungeon_id c).
Proof.
  unfold LeaderboardService.average_rating_of, rows_of_dungeon.
  induction c as [|[p|d] c IH]; simpl; [reflexivity|assumption|].
  rewrite map_app, <- IH.
  now destruct (String.eqb (DungeonScore.dungeon_id d) dungeon_id).
Qed.

Lemma get_player_rank_of_row (db : DatabaseService) (p : PlayerScore.t) :
  player_row db p ->
  LeaderboardService.get_player_rank (PlayerScore.user_id p) db
  = (Return (Some (players_above (PlayerScore.total_score p) db + 1)), db).
Proof.
  intros Row.
  unfold LeaderboardService.get_player_rank, bind, query_values, ret.
  change (read leaderboard_container db) with (leaderboard db).
  unfold players_above. do 4 f_equal. f_equal.
  apply filter_ext. intros [q|d]; [|reflexivity].
  unfold LeaderboardService.outranks_player.
  rewrite total_score_of_rows, Row. reflexivity.
Qed.

Lemma get_dungeon_rank_of_row (db : DatabaseService) (d : DungeonScore.t) :
  dungeon_row db d ->
  LeaderboardService.get_dungeon_rank (DungeonScore.dungeon_id d) db
  = (Return (Some (dungeons_above (DungeonScore.average_rating d) db + 1)), db).
Proof.
  intros Row.
  unfold LeaderboardService.get_dungeon_rank, bind, query_values, ret.
  change (read leaderboard_container db) with (leaderboard db).
  unfold dungeons_above. do 4 f_equal. f_equal.
  apply filter_ext. intros [p|q]; [reflexivity|].
  unfold LeaderboardService.outranks_dungeon.
  rewrite average_rating_of_rows, Row. reflexivity.
Qed.

(** C8.  The rank of a leaderboard row is one more than the number of rows
    whose metric is strictly greater: [total_score] for a player,
    [average_rating] for a dungeon.  Scores 300, 200 and 100 rank first,
    second and third, and rows with equal metrics have equal ranks. *)
Theorem rank_counts_strictly_greater (db : DatabaseService) :
  (forall p,
      player_row db p ->
      LeaderboardService.get_player_rank (PlayerScore.user_id p) db
      = (Return (Some (players_above (PlayerScore.total_score p) db + 1)), db))
  /\ (forall d,
         dungeon_row db d ->
         LeaderboardService.get_dungeon_rank (DungeonScore.dungeon_id d) db
         = (Return (Some (dungeons_above (DungeonScore.average_rating d) db + 1)),
            db))
  /\ (forall p q,
         player_row db p -> player_row db q ->
         PlayerScore.total_score p = PlayerScore.total_score q ->
         LeaderboardService.get_player_rank (PlayerScore.user_id p) db
         = LeaderboardService.get_player_rank (PlayerScore.user_id q) db)
  /\ (forall d e,
         dungeon_row db d -> dungeon_row db e ->
         DungeonScore.average_rating d = DungeonScore.average_rating e ->
         LeaderboardService.get_dungeon_rank (DungeonScore.dungeon_id d) db
         = LeaderboardService.get_dungeon_rank (DungeonScore.dungeon_id e) db)
  /\ (LeaderboardService.get_player_rank "bea" db_podium
      = (Return (Some 1), db_podium)
      /\ LeaderboardService.get_player_rank "ann" db_podium
         = (Return (Some 2), db_podium)
      /\ LeaderboardService.get_player_rank "cyd" db_podium
         = (Return (Some 3), db_podium)).
Proof.
  split; [exact (get_player_rank_of_row db)|].
  split; [exact (get_dungeon_rank_of_row db)|].
  split; [|split].
  - intros p q Rp Rq E.
    now rewrite (get_player_rank_of_row db p Rp),
                (get_player_rank_of_row db q Rq), E.
  - intros d e Rd Re E.
    now rewrite (get_dungeon_rank_of_row db d Rd),
                (get_dungeon_rank_of_row db e Re), E.
  - repeat split.
Qed.

Lemma rank_counts_strictly_greater_witness :
  player_row db_podium ann_row
  /\ LeaderboardService.get_player_rank "ann" db_podium
     = (Return (Some (players_above 200 db_podium + 1)), db_podium)
  /\ players_above 200 db_podium = 1.
Proof.
  split; [reflexivity|]. split; [|reflexivity].
  exact (proj1 (rank_counts_strictly_greater db_podium) ann_row eq_refl).
Defined.

(** *** Floats: a quotient between 1 and 5 is finite *)

Lemma digits2_pos_size (p : positive) : digits2_pos p = Pos.size p.
Proof. induction p; simpl; congruence. Qed.

Lemma Zdigits2_upper (m k : Z) : 0 <= k -> 0 <= m < 2 ^ k -> Zdigits2 m <= k.
Proof.
  intros Hk [H0 Hm]. destruct m as [|p|p]; simpl; [assumption| |lia].
  rewrite digits2_pos_size.
  pose proof (Pos.size_le p) as L.
  assert (L' : 2 ^ Zpos (Pos.size p) <= 2 * Zpos p).
  { rewrite <- Pos2Z.inj_pow. change (2 * Zpos p) with (Zpos p~0).
    now apply Pos2Z.pos_le_pos. }
  destruct (Z_le_gt_dec (Zpos (Pos.size p)) k) as [?|G]; [assumption|].
  exfalso.
  assert (H : 2 ^ Z.succ k <= 2 ^ Zpos (Pos.size p))
    by (apply Z.pow_le_mono_r; lia).
  rewrite Z.pow_succ_r in H by lia. clear L.
  generalize dependent (2 ^ k). generalize dependent (2 ^ Zpos (Pos.size p)).
  intros. lia.
Qed.

Lemma Zdigits2_lower (p : positive) : 2 ^ (Zdigits2 (Zpos p) - 1) <= Zpos p.
Proof.
  change (Zdigits2 (Zpos p)) with (Zpos (digits2_pos p)).
  rewrite digits2_pos_size.
  pose proof (Pos.size_le p) as L.
  assert (L' : 2 ^ Zpos (Pos.size p) <= 2 * Zpos p).
  { rewrite <- Pos2Z.inj_pow. change (2 * Zpos p) with (Zpos p~0).
    now apply Pos2Z.pos_le_pos. }
  replace (Zpos (Pos.size p)) with (Z.succ (Zpos (Pos.size p) - 1)) in L' at 1
    by lia.
  rewrite Z.pow_succ_r in L' by lia. clear L.
  generalize dependent (2 ^ (Zpos (Pos.size p) - 1)). intros. lia.
Qed.

Lemma Zdigits2_gt (p : positive) : Zpos p < 2 ^ Zdigits2 (Zpos p).
Proof.
  change (Zdigits2 (Zpos p)) with (Zpos (digits2_pos p)).
  rewrite digits2_pos_size, <- Pos2Z.inj_pow.
  apply Pos2Z.pos_lt_pos, Pos.size_gt.
Qed.

Lemma Zdigits2_mono (p q : positive) :
  Zpos p <= Zpos q -> Zdigits2 (Zpos p) <= Zdigits2 (Zpos q).
Proof.
  intros L. pose proof (Zdigits2_lower p) as Lo. pose proof (Zdigits2_gt q) as Up.
  destruct (Z_le_gt_dec (Zdigits2 (Zpos p)) (Zdigits2 (Zpos q))) as [?|G];
    [assumption|exfalso].
  assert (2 ^ Zdigits2 (Zpos q) <= 2 ^ (Zdigits2 (Zpos p) - 1)).
  { apply Z.pow_le_mono_r; [lia|]. lia. }
  lia.
Qed.

Lemma Zdigits2_nonneg (m : Z) : 0 <= Zdigits2 m.
Proof. destruct m; simpl; lia. Qed.

Lemma shr_1_bounds (mrs : shr_record) :
  0 <= shr_m mrs -> 0 <= shr_m (shr_1 mrs) <= shr_m mrs.
Proof.
  destruct mrs as [m r s]. simpl. intros H.
  destruct m as [|[p|p|]|p]; simpl; lia.
Qed.

Lemma iter_shr_1_bounds (n : positive) (mrs : shr_record) :
  0 <= shr_m mrs -> 0 <= shr_m (iter_pos shr_1 n mrs) <= shr_m mrs.
Proof.
  revert mrs. induction n as [n IH|n IH|]; intros mrs H; simpl.
  - pose proof (shr_1_bounds mrs H) as B1.
    pose proof (IH _ (proj1 B1)) as B2.
    pose proof (IH _ (proj1 B2)) as B3. lia.
  - pose proof (IH _ H) as B2.
    pose proof (IH _ (proj1 B2)) as B3. lia.
  - now apply shr_1_bounds.
Qed.

Lemma shr_fexp_bounds (m e : Z) (l : location) :
  0 <= m ->
  0 <= shr_m (fst (shr_fexp prec emax m e l)) <= m
  /\ snd (shr_fexp prec emax m e l)
     = Z.max e (fexp prec emax (Zdigits2 m + e)).
Proof.
  intros H. unfold shr_fexp, shr.
  assert (M : shr_m (shr_record_of_loc m l) = m)
    by (destruct l as [|[]]; reflexivity).
  destruct (fexp prec emax (Zdigits2 m + e) - e) as [|n|n] eqn:N; simpl.
  - rewrite M. lia.
  - pose proof (iter_shr_1_bounds n (shr_record_of_loc m l)) as B.
    rewrite M in B. split; [now apply B|lia].
  - rewrite M. lia.
Qed.

Lemma round_nearest_even_bounds (m : Z) (l : location) :
  m <= round_nearest_even m l <= m + 1.
Proof.
  destruct l as [|[]]; simpl; try lia. destruct (Z.even m); lia.
Qed.

(** Rounding a small enough mantissa at a non-positive exponent never
    overflows. *)
Lemma binary_round_aux_finite (sx : bool) (mz ez : Z) (lz : location) :
  0 <= mz -> mz + 1 < 2 ^ 60 -> ez <= 0 ->
  forall s, binary_round_aux prec emax sx mz ez lz <> S754_infinity s.
Proof.
  intros M0 M1 E0 s. unfold binary_round_aux.
  pose proof (shr_fexp_bounds mz ez lz M0) as [B1 X1].
  destruct (shr_fexp prec emax mz ez lz) as [mrs1 e1]. simpl in B1, X1.
  pose proof (round_nearest_even_bounds (shr_m mrs1) (loc_of_shr_record mrs1))
    as R.
  set (m2 := round_nearest_even (shr_m mrs1) (loc_of_shr_record mrs1)) in *.
  assert (M2 : 0 <= m2) by lia.
  pose proof (shr_fexp_bounds m2 e1 loc_Exact M2) as [B2 X2].
  destruct (shr_fexp prec emax m2 e1 loc_Exact) as [mrs2 e2]. simpl in B2, X2.
  assert (D1 : Zdigits2 mz <= 60) by (apply Zdigits2_upper; lia).
  assert (D2 : Zdigits2 m2 <= 60) by (apply Zdigits2_upper; lia).
  pose proof (Zdigits2_nonneg mz). pose proof (Zdigits2_nonneg m2).
  unfold fexp, emin, prec, emax in *.
  destruct (shr_m mrs2); try discriminate.
  destruct (e2 <=? 1024 - 53) eqn:Le; [discriminate|].
  apply Z.leb_gt in Le. lia.
Qed.

Lemma SFdiv_small_finite (a b : positive) :
  Zpos b <= Zpos a <= 5 * Zpos b ->
  forall s,
    SFdiv prec emax (S754_finite false a 0) (S754_finite false b 0)
    <> S754_infinity s.
Proof.
  intros [Lo Hi] s. unfold SFdiv, SFdiv_core_binary.
  pose proof (Zdigits2_mono b a Lo) as D.
  set (d1 := Zdigits2 (Zpos a)) in *. set (d2 := Zdigits2 (Zpos b)) in *.
  set (e' := Z.min (fexp prec emax (d1 + 0 - (d2 + 0))) (0 - 0)).
  assert (E' : -53 <= e' <= 0)
    by (unfold e', fexp, emin, prec, emax; lia).
  set (m' := match 0 - 0 - e' with
             | Z0 => Zpos a
             | Zpos _ => Z.shiftl (Zpos a) (0 - 0 - e')
             | Zneg _ => 0
             end).
  assert (Mb : 0 <= m' <= 5 * Zpos b * 2 ^ 53).
  { assert (P : 1 <= 2 ^ (0 - 0 - e') <= 2 ^ 53).
    { split; [apply (Z.pow_le_mono_r 2 0); lia|apply Z.pow_le_mono_r; lia]. }
    unfold m'. destruct (0 - 0 - e') as [|k|k] eqn:K.
    - nia.
    - rewrite Z.shiftl_mul_pow2 by lia. nia.
    - lia. }
  pose proof (Z_div_mod m' (Zpos b) eq_refl) as DM.
  destruct (Z.div_eucl m' (Zpos b)) as [q r].
  destruct DM as [Eq Rr].
  apply binary_round_aux_finite.
  - nia.
  - assert (q <= 5 * 2 ^ 53) by nia.
    change (2 ^ 60) with (128 * 2 ^ 53). lia.
  - lia.
Qed.

Lemma truediv_small_returns (a b : Z) :
  0 < b -> b <= a <= 5 * b -> exists q, truediv a b = Return q.
Proof.
  intros Hb [Lo Hi]. unfold truediv.
  destruct b as [|pb|pb]; try lia. destruct a as [|pa|pa]; try lia.
  change (Z.to_pos (Z.abs (Zpos pa))) with pa.
  change (Z.to_pos (Z.abs (Zpos pb))) with pb.
  change (Zpos pa <? 0) with false. change (Zpos pb <? 0) with false.
  pose proof (SFdiv_small_finite pa pb (conj Lo Hi)) as F.
  destruct (SFdiv prec emax (S754_finite false pa 0) (S754_finite false pb 0))
    as [s|s| |s m e]; eauto.
  exfalso. exact (F s eq_refl).
Qed.

(** *** Ratings *)

Lemma fold_left_add_from (l : list Z) (a : Z) :
  fold_left Z.add l a = a + fold_left Z.add l 0.
Proof.
  revert a. induction l as [|x l IH]; intros a; simpl; [lia|].
  rewrite (IH (a + x)), (IH x). lia.
Qed.

Lemma sum_cons (x : Z) (l : list Z) : sum (x :: l) = x + sum l.
Proof. unfold sum. simpl. apply fold_left_add_from. Qed.

Lemma sum_app (l1 l2 : list Z) : sum (l1 ++ l2) = sum l1 + sum l2.
Proof.
  induction l1 as [|x l1 IH]; simpl; [reflexivity|].
  rewrite !sum_cons, IH. lia.
Qed.

Lemma len_cons {A : Type} (x : A) (l : list A) : len (x :: l) = 1 + len l.
Proof. unfold len. simpl List.length. lia. Qed.

Lemma len_app {A : Type} (l1 l2 : list A) : len (l1 ++ l2) = len l1 + len l2.
Proof. unfold len. rewrite length_app. lia. Qed.

Lemma len_nonneg {A : Type} (l : list A) : 0 <= len l.
Proof. unfold len. lia. Qed.

Lemma sum_between (rs : list DungeonRating.t) :
  (forall r, In r rs -> 1 <= DungeonRating.rating r <= 5) ->
  len rs <= sum (map DungeonRating.rating rs) <= 5 * len rs.
Proof.
  induction rs as [|r rs IH]; intros B; [unfold len, sum; simpl; lia|].
  simpl map. rewrite sum_cons, len_cons.
  pose proof (B r (or_introl eq_refl)).
  assert (forall x, In x rs -> 1 <= DungeonRating.rating x <= 5)
    by (intros x Hx; apply B; now right).
  specialize (IH H0). lia.
Qed.

Lemma get_dungeon_by_id_first (db : DatabaseService) (dungeon_id : string) :
  DungeonService.get_dungeon_by_id dungeon_id db =
  (Return
     match filter (fun c => String.eqb (Dungeon.id c) dungeon_id) (dungeons db) with
     | [] => None
     | d :: _ => Some d
     end, db).
Proof.
  unfold DungeonService.get_dungeon_by_id, bind, query_items,
    Container.query_items, ret.
  change (read dungeons_container db) with (dungeons db).
  now destruct (filter _ (dungeons db)).
Qed.

(** What [_update_dungeon_rating] does on a store whose dungeons sit in
    their creator's partition. *)
Lemma _update_dungeon_rating_run (db : DatabaseService) (dungeon_id : string)
      (now : timestamp) :
  dungeons_keyed db ->
  match ratings_of db dungeon_id with
  | [] => DungeonService._update_dungeon_rating dungeon_id now db = (Return tt, db)
  | _ :: _ =>
    match truediv (sum (map DungeonRating.rating (ratings_of db dungeon_id)))
                  (len (ratings_of db dungeon_id)) with
    | Raise e =>
      DungeonService._update_dungeon_rating dungeon_id now db = (Raise e, db)
    | Return mean =>
      match filter (fun c => String.eqb (Dungeon.id c) dungeon_id) (dungeons db) with
      | [] =>
        DungeonService._update_dungeon_rating dungeon_id now db = (Return tt, db)
      | dg :: _ =>
        exists l1 l2,
          dungeons db = l1 ++ dg :: l2
          /\ (forall x, In x l1 -> Dungeon.id x <> dungeon_id)
          /\ Dungeon.id dg = dungeon_id
          /\ DungeonService._update_dungeon_rating dungeon_id now db
             = (Return tt,
                write dungeons_container
                      (l1 ++ on_update now
                                (Dungeon.with_rating
                                   (round mean 2)
                                   (len (ratings_of db dungeon_id)) dg) :: l2)
                      db)
      end
    end
  end.
Proof.
  intros K.
  unfold DungeonService._update_dungeon_rating, bind, query_items,
    Container.query_items, lift.
  change (filter _ (read ratings_container db)) with (ratings_of db dungeon_id).
  destruct (ratings_of db dungeon_id) as [|r0 rs] eqn:R; [reflexivity|].
  destruct (truediv _ _) as [mean|e]; [|reflexivity].
  rewrite get_dungeon_by_id_first.
  destruct (filter _ (dungeons db)) as [|dg ds] eqn:F; [reflexivity|].
  change (fun c => String.eqb (Dungeon.id c) dungeon_id)
    with (fun c : Dungeon.t => String.eqb (doc_id c) dungeon_id) in F.
  destruct (first_by_id_read (dungeons db) dungeon_id dg ds F)
    as (l1 & l2 & E & N & Id & _ & Rd).
  exists l1, l2. split; [assumption|]. split; [assumption|]. split; [assumption|].
  assert (I : In dg (dungeons db)) by (rewrite E; apply in_or_app; right; now left).
  unfold bind.
  rewrite (update_item_at dungeons_container db l1 l2 dg dungeon_id
             (Dungeon.creator_id dg) _ now E).
  - reflexivity.
  - intros x Hx. unfold Container.addressed.
    apply N, String.eqb_neq in Hx. simpl in Hx |- *. now rewrite Hx.
  - apply addressed_true. split; [assumption|]. exact (K dg I).
  - exact (K dg I).
Qed.

Lemma rate_dungeon_out_of_range (db : DatabaseService) (d u : string) (r : Z)
      (c : option string) (uuid : string) (now : timestamp) :
  r < 1 \/ 5 < r ->
  DungeonService.rate_dungeon d u r c uuid now db
  = (Raise (ValueError DungeonService.rating_message), db).
Proof.
  intros Out. unfold DungeonService.rate_dungeon.
  destruct ((r <? 1) || (5 <? r)) eqn:G; [reflexivity|].
  apply orb_false_iff in G. destruct G as [G1 G2].
  apply Z.ltb_ge in G1, G2. lia.
Qed.

Lemma in_range_guard (r : Z) : 1 <= r <= 5 -> (r <? 1) || (5 <? r) = false.
Proof.
  intros [Lo Hi]. apply orb_false_iff. split; apply Z.ltb_ge; lia.
Qed.

Lemma rate_dungeon_insert (db : DatabaseService) (d u : string) (r : Z)
      (c : option string) (uuid : string) (now : timestamp) :
  1 <= r <= 5 ->
  ratings_by db d u = [] ->
  DungeonService.rate_dungeon d u r c uuid now db
  = then_recompute d now (DungeonRating.mk uuid d u r c now now d)
      (write ratings_container
             (ratings db ++ [DungeonRating.mk uuid d u r c now now d]) db).
Proof.
  intros In15 None.
  unfold DungeonService.rate_dungeon, then_recompute.
  rewrite (in_range_guard r In15).
  unfold bind at 1. unfold query_items at 1. unfold Container.query_items.
  change (filter _ (read ratings_container db)) with (ratings_by db d u).
  rewrite None.
  unfold bind, create_item, Container.create_item, ret. simpl.
  destruct (DungeonService._update_dungeon_rating d now _) as [[[]|e] db'];
    reflexivity.
Qed.

Lemma rate_dungeon_overwrite (db : DatabaseService) (d u : string) (r : Z)
      (c : option string) (uuid : string) (now : timestamp)
      (e : DungeonRating.t) (rest l1 l2 : list DungeonRating.t)
      (item : DungeonRating.t) :
  1 <= r <= 5 ->
  ratings_by db d u = e :: rest ->
  ratings db = l1 ++ item :: l2 ->
  (forall x, In x l1 -> Container.addressed (DungeonRating.id e) d x = false) ->
  Container.addressed (DungeonRating.id e) d item = true ->
  DungeonService.rate_dungeon d u r c uuid now db
  = then_recompute d now (on_update now (DungeonRating.with_rating r c item))
      (write ratings_container
             (l1 ++ on_update now (DungeonRating.with_rating r c item) :: l2) db).
Proof.
  intros In15 Some E N A.
  unfold DungeonService.rate_dungeon, then_recompute.
  rewrite (in_range_guard r In15).
  unfold bind at 1. unfold query_items at 1. unfold Container.query_items.
  change (filter _ (read ratings_container db)) with (ratings_by db d u).
  rewrite Some.
  unfold bind at 1.
  rewrite (update_item_at ratings_container db l1 l2 item (DungeonRating.id e) d
             (DungeonRating.with_rating r c) now E N A).
  - unfold bind, ret.
    destruct (DungeonService._update_dungeon_rating d now _) as [[[]|x] db'];
      reflexivity.
  - apply addressed_true in A. now destruct A.
Qed.

Lemma rate_dungeon_overwrite_lost (db : DatabaseService) (d u : string) (r : Z)
      (c : option string) (uuid : string) (now : timestamp)
      (e : DungeonRating.t) (rest : list DungeonRating.t) :
  1 <= r <= 5 ->
  ratings_by db d u = e :: rest ->
  Container.read_item (ratings db) (DungeonRating.id e) d = None ->
  DungeonService.rate_dungeon d u r c uuid now db
  = (Raise (ValueError (not_found_message (DungeonRating.id e))), db).
Proof.
  intros In15 Some Lost.
  unfold DungeonService.rate_dungeon.
  rewrite (in_range_guard r In15).
  unfold bind at 1. unfold query_items at 1. unfold Container.query_items.
  change (filter _ (read ratings_container db)) with (ratings_by db d u).
  rewrite Some.
  unfold bind at 1. unfold update_item, bind, get_item, raise.
  change (read ratings_container db) with (ratings db).
  now rewrite Lost.
Qed.

Lemma dungeon_at_first (db : DatabaseService) (d : string) (dg : Dungeon.t) :
  dungeon_at db d dg <->
  exists rest,
    filter (fun c => String.eqb (Dungeon.id c) d) (dungeons db) = dg :: rest.
Proof.
  unfold dungeon_at. rewrite get_dungeon_by_id_first.
  destruct (filter _ (dungeons db)) as [|x rest]; split.
  - discriminate.
  - intros (r & E). discriminate E.
  - intros E. injection E as ->. eauto.
  - intros (r & E). injection E as -> _. reflexivity.
Qed.

(** After the rating is written, the recomputation either fails on the
    division or stores on the dungeon the aggregate of the ratings it
    re-read. *)
Lemma then_recompute_run (db1 : DatabaseService) (d : string) (now : timestamp)
      (o : DungeonRating.t) :
  dungeons_keyed db1 ->
  ratings_of db1 d <> [] ->
  match truediv (sum (map DungeonRating.rating (ratings_of db1 d)))
                (len (ratings_of db1 d)) with
  | Raise e => then_recompute d now o db1 = (Raise e, db1)
  | Return mean =>
    exists db',
      then_recompute d now o db1 = (Return o, db')
      /\ ratings db' = ratings db1
      /\ dungeons_keyed db'
      /\ (forall dg, dungeon_at db' d dg -> aggregate_of (ratings_of db' d) dg)
  end.
Proof.
  intros K NE. unfold then_recompute.
  pose proof (_update_dungeon_rating_run db1 d now K) as Run.
  destruct (ratings_of db1 d) as [|r0 rs] eqn:R; [contradiction|].
  destruct (truediv _ _) as [mean|e] eqn:Div; [|now rewrite Run].
  destruct (filter (fun c => String.eqb (Dungeon.id c) d) (dungeons db1))
    as [|dg0 ds] eqn:F.
  - rewrite Run. exists db1. repeat split; auto.
    intros dg A. apply dungeon_at_first in A. destruct A as (rest & A).
    congruence.
  - destruct Run as (l1 & l2 & E & N & Id & Run). rewrite Run.
    set (dg' := on_update now (Dungeon.with_rating (round mean 2) (len (r0 :: rs)) dg0)).
    set (db' := write dungeons_container (l1 ++ dg' :: l2) db1).
    exists db'. split; [reflexivity|]. split; [reflexivity|]. split.
    + intros x Hx. change (dungeons db') with (l1 ++ dg' :: l2) in Hx.
      assert (K0 : Dungeon.partitionKey dg0 = Dungeon.creator_id dg0)
        by (apply K; rewrite E; apply in_or_app; right; now left).
      apply in_app_or in Hx. destruct Hx as [Hx|[<-|Hx]].
      * apply K. rewrite E. apply in_or_app. now left.
      * exact K0.
      * apply K. rewrite E. apply in_or_app. right. now right.
    + intros dg A. apply dungeon_at_first in A. destruct A as (rest & A).
      change (dungeons db') with (l1 ++ dg' :: l2) in A.
      rewrite filter_app in A. simpl in A.
      replace (filter (fun c => String.eqb (Dungeon.id c) d) l1)
        with (@nil Dungeon.t) in A.
      * rewrite Id, String.eqb_refl in A. simpl in A. injection A as <- _.
        change (ratings_of db' d) with (ratings_of db1 d). rewrite R.
        exists mean. repeat split. exact Div.
      * symmetry. apply filter_nil_forall. intros x Hx.
        apply N in Hx. now apply String.eqb_neq.
Qed.

Lemma ratings_of_nonempty (db : DatabaseService) (d : string)
      (x : DungeonRating.t) :
  In x (ratings db) -> DungeonRating.dungeon_id x = d -> ratings_of db d <> [].
Proof.
  intros I E Nil. unfold ratings_of in Nil. rewrite filter_nil_forall in Nil.
  specialize (Nil x I). unfold rated in Nil.
  rewrite E, String.eqb_refl in Nil. discriminate Nil.
Qed.

Lemma ratings_by_In (db : DatabaseService) (d u : string) (e : DungeonRating.t)
      (rest : list DungeonRating.t) :
  ratings_by db d u = e :: rest ->
  In e (ratings db)
  /\ DungeonRating.dungeon_id e = d /\ DungeonRating.user_id e = u.
Proof.
  intros E.
  assert (I : In e (ratings_by db d u)) by (rewrite E; now left).
  apply filter_In in I. destruct I as [I P].
  apply andb_true_iff in P. destruct P as [P1 P2].
  apply String.eqb_eq in P1, P2. auto.
Qed.

(** A successful [rate_dungeon] is a write of the rating followed by a
    recomputation on a store where the dungeon has ratings. *)
Lemma rate_dungeon_returned (db db' : DatabaseService) (d u : string) (r : Z)
      (c : option string) (uuid : string) (now : timestamp)
      (o : DungeonRating.t) :
  DungeonService.rate_dungeon d u r c uuid now db = (Return o, db') ->
  1 <= r <= 5
  /\ exists db1 o1,
      dungeons db1 = dungeons db
      /\ ratings_of db1 d <> []
      /\ written db d u r c uuid now (ratings db1) o1
      /\ then_recompute d now o1 db1 = (Return o, db').
Proof.
  intros Ret.
  assert (In15 : 1 <= r <= 5).
  { destruct (Z_lt_ge_dec r 1) as [Lt|Ge];
      [rewrite rate_dungeon_out_of_range in Ret by lia; discriminate Ret|].
    destruct (Z_lt_ge_dec 5 r) as [Lt|Ge'];
      [rewrite rate_dungeon_out_of_range in Ret by lia; discriminate Ret|].
    lia. }
  split; [assumption|].
  destruct (ratings_by db d u) as [|e rest] eqn:By.
  - rewrite (rate_dungeon_insert db d u r c uuid now In15 By) in Ret.
    eexists. eexists. split; [|split; [|split; [|exact Ret]]]; [reflexivity| |].
    + apply (ratings_of_nonempty _ d (DungeonRating.mk uuid d u r c now now d));
        [|reflexivity].
      simpl. apply in_or_app. right. now left.
    + left. rewrite By. repeat split.
  - destruct (Container.read_item (ratings db) (DungeonRating.id e) d)
      as [item|] eqn:Rd.
    + destruct (read_item_split _ _ _ _ Rd) as (l1 & l2 & E & N & A).
      rewrite (rate_dungeon_overwrite db d u r c uuid now e rest l1 l2 item
                 In15 By E N A) in Ret.
      eexists. eexists. split; [|split; [|split; [|exact Ret]]]; [reflexivity| |].
      * destruct (ratings_by_In db d u e rest By) as (Ie & De & _).
        rewrite E in Ie. apply in_app_or in Ie.
        destruct Ie as [Ie|[Ie|Ie]].
        -- apply (ratings_of_nonempty _ d e); [|assumption].
           simpl. apply in_or_app. now left.
        -- subst item.
           apply (ratings_of_nonempty _ d
                    (on_update now (DungeonRating.with_rating r c e)));
             [|assumption].
           simpl. apply in_or_app. right. now left.
        -- apply (ratings_of_nonempty _ d e); [|assumption].
           simpl. apply in_or_app. right. now right.
      * right. exists e, rest, l1, item, l2. rewrite By. repeat split; auto.
    + rewrite (rate_dungeon_overwrite_lost db d u r c uuid now e rest In15 By Rd)
        in Ret.
      discriminate Ret.
Qed.

(** C1.  After a successful [rate_dungeon], the dungeon carries
    [round(mean, 2)] of all the ratings stored for it and their count, both
    taken from the rating set as it is after the write. *)
Theorem rate_dungeon_recomputes_aggregate
        (db db' : DatabaseService) (d u : string) (r : Z) (c : option string)
        (uuid : string) (now : timestamp) (o : DungeonRating.t)
        (dg : Dungeon.t) :
  dungeons_keyed db ->
  DungeonService.rate_dungeon d u r c uuid now db = (Return o, db') ->
  dungeon_at db' d dg ->
  aggregate_of (ratings_of db' d) dg.
Proof.
  intros K Ret A.
  destruct (rate_dungeon_returned _ _ _ _ _ _ _ _ _ Ret)
    as (_ & db1 & o1 & Ed & NE & _ & Rec).
  assert (K1 : dungeons_keyed db1) by (unfold dungeons_keyed; now rewrite Ed).
  pose proof (then_recompute_run db1 d now o1 K1 NE) as Run.
  destruct (truediv _ _) as [mean|e]; [|congruence].
  destruct Run as (db2 & Rec' & _ & _ & Agg).
  assert (db2 = db') by congruence. subst db2. now apply Agg.
Qed.

Lemma rate_dungeon_recomputes_aggregate_witness :
  dungeons_keyed db_rated_54
  /\ map DungeonRating.rating (ratings_of db_rated_544 "dungeon-1") = [5; 4; 4]
  /\ (exists o,
         DungeonService.rate_dungeon "dungeon-1" "user-3" 4 None "rating-3" 4000
                                     db_rated_54
         = (Return o, db_rated_544))
  /\ exists dg,
      dungeon_at db_rated_544 "dungeon-1" dg
      /\ aggregate_of (ratings_of db_rated_544 "dungeon-1") dg
      /\ Dungeon.average_rating dg = float_4_33
      /\ Dungeon.total_ratings dg = 3.
Proof.
  assert (K : dungeons_keyed db_rated_54).
  { intros x [<-|[]]. reflexivity. }
  split; [exact K|]. split; [vm_compute; reflexivity|].
  split; [eexists; vm_compute; reflexivity|].
  eexists. split; [vm_compute; reflexivity|]. split; [|split; reflexivity].
  eapply (rate_dungeon_recomputes_aggregate db_rated_54 db_rated_544
            "dungeon-1" "user-3" 4 None "rating-3" 4000 _ _ K).
  - vm_compute. reflexivity.
  - vm_compute. reflexivity.
Defined.

Lemma rated_by_true (d u : string) (x : DungeonRating.t) :
  rated_by d u x = true <->
  DungeonRating.dungeon_id x = d /\ DungeonRating.user_id x = u.
Proof. unfold rated_by. now rewrite andb_true_iff, !String.eqb_eq. Qed.

Lemma rated_by_not_other (d u : string) (x : DungeonRating.t) :
  rated_by d u x = true -> rated_by_other d u x = false.
Proof.
  unfold rated_by, rated_by_other. intros H.
  apply andb_true_iff in H. destruct H as [-> ->]. reflexivity.
Qed.

(** The write of [rate_dungeon] is an upsert when identifiers are unique
    and the user has at most one row for the dungeon. *)
Lemma written_upsert (db : DatabaseService) (d u : string) (r : Z)
      (c : option string) (uuid : string) (now : timestamp)
      (rs' : list DungeonRating.t) (o : DungeonRating.t) :
  unique_ids (ratings db) ->
  ratings_keyed db ->
  (ratings_by db d u = [] -> fresh_id uuid (ratings db)) ->
  (List.length (ratings_by db d u) <= 1)%nat ->
  written db d u r c uuid now rs' o ->
  unique_ids rs'
  /\ (forall x, In x rs' ->
                DungeonRating.partitionKey x = DungeonRating.dungeon_id x)
  /\ filter (rated_by d u) rs' = [o]
  /\ DungeonRating.rating o = r
  /\ filter (rated_by_other d u) rs' = ratings_by_others db d u.
Proof.
  intros U K Fresh One [(By & -> & ->)|(e & rest & l1 & item & l2 & By & E & N & A & -> & ->)].
  - set (o := DungeonRating.mk uuid d u r c now now d).
    assert (Bo : rated_by d u o = true)
      by (apply rated_by_true; split; reflexivity).
    split; [|split; [|split; [|split]]].
    + apply unique_ids_create; [assumption|]. exact (Fresh By).
    + intros x Hx. apply in_app_or in Hx. destruct Hx as [Hx|[<-|[]]];
        [now apply K|reflexivity].
    + rewrite filter_app. fold (ratings_by db d u). rewrite By. simpl.
      now rewrite Bo.
    + reflexivity.
    + rewrite filter_app. simpl. rewrite (rated_by_not_other d u o Bo).
      apply app_nil_r.
  - destruct (ratings_by_In db d u e rest By) as (Ie & De & Ue).
    assert (Ae : Container.addressed (DungeonRating.id e) d e = true).
    { apply addressed_true. split; [reflexivity|]. simpl.
      rewrite (K e Ie). exact De. }
    rewrite E in U.
    destruct (unique_ids_split l1 l2 item U) as [U1 U2].
    apply addressed_true in A. destruct A as [Ai Ak]. simpl in Ai, Ak.
    assert (item = e).
    { rewrite E in Ie. apply in_app_or in Ie. destruct Ie as [Ie|[Ie|Ie]].
      - rewrite (N e Ie) in Ae. discriminate Ae.
      - assumption.
      - apply U2 in Ie. simpl in Ie. congruence. }
    subst item.
    set (o := on_update now (DungeonRating.with_rating r c e)).
    assert (Be : rated_by d u e = true) by (apply rated_by_true; auto).
    assert (Bo : rated_by d u o = true) by exact Be.
    unfold ratings_by in By, One. unfold ratings_by_others.
    rewrite E, filter_app in By, One. simpl in By, One.
    rewrite Be in By, One. rewrite length_app in One. simpl in One.
    assert (F1 : filter (rated_by d u) l1 = [])
      by (destruct (filter (rated_by d u) l1); [reflexivity|simpl in One; lia]).
    assert (F2 : filter (rated_by d u) l2 = [])
      by (destruct (filter (rated_by d u) l2); [reflexivity|simpl in One; lia]).
    split; [|split; [|split; [|split]]].
    + now apply (unique_ids_replace l1 l2 e o).
    + intros x Hx. apply in_app_or in Hx. destruct Hx as [Hx|[<-|Hx]].
      * apply K. rewrite E. apply in_or_app. now left.
      * exact (K e Ie).
      * apply K. rewrite E. apply in_or_app. right. now right.
    + rewrite filter_app. simpl. now rewrite Bo, F1, F2.
    + reflexivity.
    + rewrite E, !filter_app. simpl.
      now rewrite (rated_by_not_other d u o Bo), (rated_by_not_other d u e Be).
Qed.

Lemma rate_dungeon_upsert (db db' : DatabaseService) (d u : string) (r : Z)
      (c : option string) (uuid : string) (now : timestamp)
      (o : DungeonRating.t) :
  unique_ids (ratings db) ->
  ratings_keyed db ->
  dungeons_keyed db ->
  (ratings_by db d u = [] -> fresh_id uuid (ratings db)) ->
  (List.length (ratings_by db d u) <= 1)%nat ->
  DungeonService.rate_dungeon d u r c uuid now db = (Return o, db') ->
  unique_ids (ratings db')
  /\ ratings_keyed db'
  /\ dungeons_keyed db'
  /\ ratings_by db' d u = [o]
  /\ DungeonRating.rating o = r
  /\ ratings_by_others db' d u = ratings_by_others db d u
  /\ (forall dg, dungeon_at db' d dg -> aggregate_of (ratings_of db' d) dg).
Proof.
  intros U K Kd Fresh One Ret.
  destruct (rate_dungeon_returned _ _ _ _ _ _ _ _ _ Ret)
    as (_ & db1 & o1 & Ed & NE & W & Rec).
  destruct (written_upsert db d u r c uuid now _ _ U K Fresh One W)
    as (U' & K' & By' & Ro & Oth').
  assert (K1 : dungeons_keyed db1) by (unfold dungeons_keyed; now rewrite Ed).
  pose proof (then_recompute_run db1 d now o1 K1 NE) as Run.
  destruct (truediv _ _) as [mean|e]; [|congruence].
  destruct Run as (db2 & Rec' & Er & Kd' & Agg).
  rewrite Rec' in Rec. injection Rec as -> ->.
  unfold ratings_by, ratings_by_others, ratings_keyed. rewrite Er.
  repeat split; auto.
Qed.

Lemma rated_split (d u : string) (l : list DungeonRating.t) :
  len (filter (rated d) l)
  = len (filter (rated_by d u) l) + len (filter (rated_by_other d u) l)
  /\ sum (map DungeonRating.rating (filter (rated d) l))
     = sum (map DungeonRating.rating (filter (rated_by d u) l))
       + sum (map DungeonRating.rating (filter (rated_by_other d u) l)).
Proof.
  induction l as [|x l [IHl IHs]]; [split; reflexivity|].
  cbn [filter].
  change (rated_by d u x)
    with (rated d x && String.eqb (DungeonRating.user_id x) u).
  change (rated_by_other d u x)
    with (rated d x && negb (String.eqb (DungeonRating.user_id x) u)).
  destruct (rated d x); [|split; assumption].
  destruct (String.eqb (DungeonRating.user_id x) u); cbn [andb negb map];
    rewrite ?len_cons, ?sum_cons; split; lia.
Qed.

(** C4.  Rating the same dungeon twice as the same user leaves one row for
    the pair, holding the second value; the number of ratings of the
    dungeon, and its [total_ratings], are the same after the second call as
    after the first; and its [average_rating] is computed from the other
    users' ratings and the second value only. *)
Theorem rating_twice_keeps_one_row
        (db0 db1 db2 : DatabaseService) (d u : string) (r1 r2 : Z)
        (c1 c2 : option string) (uuid1 uuid2 : string) (now1 now2 : timestamp)
        (o1 o2 : DungeonRating.t) :
  unique_ids (ratings db0) ->
  ratings_keyed db0 ->
  dungeons_keyed db0 ->
  fresh_id uuid1 (ratings db0) ->
  (List.length (ratings_by db0 d u) <= 1)%nat ->
  DungeonService.rate_dungeon d u r1 c1 uuid1 now1 db0 = (Return o1, db1) ->
  DungeonService.rate_dungeon d u r2 c2 uuid2 now2 db1 = (Return o2, db2) ->
  ratings_by db2 d u = [o2]
  /\ DungeonRating.rating o2 = r2
  /\ len (ratings_of db2 d) = len (ratings_of db1 d)
  /\ forall dg1 dg2,
      dungeon_at db1 d dg1 -> dungeon_at db2 d dg2 ->
      Dungeon.total_ratings dg2 = Dungeon.total_ratings dg1
      /\ exists mean,
          truediv
            (sum (map DungeonRating.rating (ratings_by_others db0 d u)) + r2)
            (len (ratings_by_others db0 d u) + 1)
          = Return mean
          /\ Dungeon.average_rating dg2 = round mean 2.
Proof.
  intros U K Kd Fresh One Ret1 Ret2.
  destruct (rate_dungeon_upsert db0 db1 d u r1 c1 uuid1 now1 o1
              U K Kd (fun _ => Fresh) One Ret1)
    as (U1 & K1 & Kd1 & By1 & R1 & Oth1 & Agg1).
  destruct (rate_dungeon_upsert db1 db2 d u r2 c2 uuid2 now2 o2 U1 K1 Kd1)
    as (U2 & K2 & Kd2 & By2 & R2 & Oth2 & Agg2);
    [rewrite By1; discriminate|rewrite By1; simpl; lia|exact Ret2|].
  destruct (rated_split d u (ratings db1)) as [L1 S1].
  destruct (rated_split d u (ratings db2)) as [L2 S2].
  fold (ratings_of db1 d) (ratings_by db1 d u) (ratings_by_others db1 d u)
    in L1, S1.
  fold (ratings_of db2 d) (ratings_by db2 d u) (ratings_by_others db2 d u)
    in L2, S2.
  rewrite By1, Oth1 in L1, S1. rewrite By2, Oth2, Oth1 in L2, S2.
  simpl map in S1, S2. rewrite sum_cons in S1, S2.
  rewrite len_cons in L1, L2.
  change (sum []) with 0 in S1, S2. change (len (@nil DungeonRating.t)) with 0 in L1, L2.
  split; [assumption|]. split; [assumption|]. split; [lia|].
  intros dg1 dg2 A1 A2.
  destruct (Agg1 dg1 A1) as (m1 & _ & _ & T1).
  destruct (Agg2 dg2 A2) as (m2 & D2 & Av2 & T2).
  split; [lia|].
  exists m2. split; [|assumption].
  rewrite <- D2. f_equal; lia.
Qed.

Lemma rating_twice_keeps_one_row_witness :
  unique_ids (ratings db_dungeon)
  /\ ratings_keyed db_dungeon
  /\ dungeons_keyed db_dungeon
  /\ fresh_id "rating-1" (ratings db_dungeon)
  /\ (List.length (ratings_by db_dungeon "dungeon-1" "user-1") <= 1)%nat
  /\ exists o2,
      ratings_by db_rated_3 "dungeon-1" "user-1" = [o2]
      /\ DungeonRating.rating o2 = 3
      /\ len (ratings_of db_rated_3 "dungeon-1")
         = len (ratings_of db_rated_5 "dungeon-1").
Proof.
  assert (U : unique_ids (ratings db_dungeon)) by constructor.
  assert (F : fresh_id "rating-1" (ratings db_dungeon)) by (intros []).
  assert (K : ratings_keyed db_dungeon) by (intros x []).
  assert (Kd : dungeons_keyed db_dungeon) by (intros x [<-|[]]; reflexivity).
  assert (One : (List.length (ratings_by db_dungeon "dungeon-1" "user-1") <= 1)%nat)
    by (simpl; lia).
  split; [exact U|]. split; [exact K|]. split; [exact Kd|].
  split; [exact F|]. split; [exact One|].
  eexists.
  destruct (rating_twice_keeps_one_row
              db_dungeon db_rated_5 db_rated_3 "dungeon-1" "user-1" 5 3
              None (Some "meh"%string) "rating-1" "rating-2" 2000 3000
              (DungeonRating.mk "rating-1" "dungeon-1" "user-1" 5 None 2000 2000
                                "dungeon-1")
              (DungeonRating.mk "rating-1" "dungeon-1" "user-1" 3
                                (Some "meh"%string) 2000 3000 "dungeon-1")
              U K Kd F One eq_refl eq_refl)
    as (By & R & L & _).
  split; [exact By|]. split; [exact R|exact L].
Defined.

Lemma recompute_succeeds (db1 : DatabaseService) (d : string) (now : timestamp)
      (o : DungeonRating.t) :
  dungeons_keyed db1 ->
  ratings_in_range db1 ->
  ratings_of db1 d <> [] ->
  exists db', then_recompute d now o db1 = (Return o, db').
Proof.
  intros K B NE.
  pose proof (then_recompute_run db1 d now o K NE) as Run.
  assert (Bd : forall x, In x (ratings_of db1 d) -> 1 <= DungeonRating.rating x <= 5).
  { intros x Hx. apply filter_In in Hx. apply B. now destruct Hx. }
  pose proof (sum_between _ Bd) as S.
  assert (L : 0 < len (ratings_of db1 d)).
  { destruct (ratings_of db1 d); [contradiction|]. rewrite len_cons.
    pose proof (len_nonneg l). lia. }
  destruct (truediv_small_returns _ _ L S) as (q & Div).
  rewrite Div in Run. destruct Run as (db' & Rec & _). eauto.
Qed.

Lemma rate_dungeon_succeeds (db : DatabaseService) (d u : string) (r : Z)
      (c : option string) (uuid : string) (now : timestamp) :
  ratings_keyed db ->
  ratings_in_range db ->
  dungeons_keyed db ->
  1 <= r <= 5 ->
  exists o db',
    DungeonService.rate_dungeon d u r c uuid now db = (Return o, db')
    /\ DungeonRating.rating o = r.
Proof.
  intros K B Kd In15.
  destruct (ratings_by db d u) as [|e rest] eqn:By.
  - rewrite (rate_dungeon_insert db d u r c uuid now In15 By).
    set (o := DungeonRating.mk uuid d u r c now now d).
    destruct (recompute_succeeds
                (write ratings_container (ratings db ++ [o]) db) d now o)
      as (db' & Rec).
    + exact Kd.
    + intros x Hx. simpl in Hx. apply in_app_or in Hx.
      destruct Hx as [Hx|[<-|[]]]; [now apply B|exact In15].
    + apply (ratings_of_nonempty _ d o); [|reflexivity].
      simpl. apply in_or_app. right. now left.
    + exists o, db'. split; [exact Rec|reflexivity].
  - destruct (ratings_by_In db d u e rest By) as (Ie & De & _).
    destruct (Container.read_item (ratings db) (DungeonRating.id e) d)
      as [item|] eqn:Rd.
    + destruct (read_item_split _ _ _ _ Rd) as (l1 & l2 & E & N & A).
      rewrite (rate_dungeon_overwrite db d u r c uuid now e rest l1 l2 item
                 In15 By E N A).
      set (o := on_update now (DungeonRating.with_rating r c item)).
      assert (Ii : In item (ratings db))
        by (rewrite E; apply in_or_app; right; now left).
      assert (Di : DungeonRating.dungeon_id item = d).
      { apply addressed_true in A. destruct A as [_ Ak]. simpl in Ak.
        now rewrite <- (K item Ii). }
      destruct (recompute_succeeds
                  (write ratings_container (l1 ++ o :: l2) db) d now o)
        as (db' & Rec).
      * exact Kd.
      * intros x Hx. simpl in Hx. apply in_app_or in Hx.
        destruct Hx as [Hx|[<-|Hx]].
        -- apply B. rewrite E. apply in_or_app. now left.
        -- exact In15.
        -- apply B. rewrite E. apply in_or_app. right. now right.
      * apply (ratings_of_nonempty _ d o); [|exact Di].
        simpl. apply in_or_app. right. now left.
      * exists o, db'. split; [exact Rec|reflexivity].
    + exfalso.
      pose proof (read_item_None _ _ _ Rd e Ie) as Ne.
      assert (Ae : Container.addressed (DungeonRating.id e) d e = true).
      { apply addressed_true. split; [reflexivity|]. simpl.
        rewrite (K e Ie). exact De. }
      congruence.
Qed.

(** The range check of [rate_dungeon] on a store whose dungeons all sit in
    the partition named by their [creator_id]: the validation error is
    raised, nothing written, exactly when the rating is below 1 or above
    5, and the stored rating is returned exactly when it lies in [1, 5]. *)
Theorem rate_dungeon_validates_range
        (db : DatabaseService) (d u : string) (c : option string)
        (uuid : string) (now : timestamp) :
  ratings_keyed db ->
  ratings_in_range db ->
  dungeons_keyed db ->
  (forall r,
      r < 1 \/ 5 < r <->
      DungeonService.rate_dungeon d u r c uuid now db
      = (Raise (ValueError DungeonService.rating_message), db))
  /\ (forall r,
         1 <= r <= 5 <->
         exists o db',
           DungeonService.rate_dungeon d u r c uuid now db = (Return o, db')
           /\ DungeonRating.rating o = r)
  /\ DungeonService.rate_dungeon d u 0 c uuid now db
     = (Raise (ValueError DungeonService.rating_message), db)
  /\ DungeonService.rate_dungeon d u 6 c uuid now db
     = (Raise (ValueError DungeonService.rating_message), db)
  /\ (exists o db',
         DungeonService.rate_dungeon d u 1 c uuid now db = (Return o, db'))
  /\ (exists o db',
         DungeonService.rate_dungeon d u 5 c uuid now db = (Return o, db')).
Proof.
  intros K B Kd.
  assert (Ok : forall r, 1 <= r <= 5 ->
                         exists o db',
                           DungeonService.rate_dungeon d u r c uuid now db
                           = (Return o, db')
                           /\ DungeonRating.rating o = r)
    by (intros r In15; now apply rate_dungeon_succeeds).
  split; [|split; [|split; [|split; [|split]]]].
  - intros r. split; [apply rate_dungeon_out_of_range|].
    intros E. destruct (Z_lt_ge_dec r 1); [lia|]. destruct (Z_lt_ge_dec 5 r); [lia|].
    destruct (Ok r) as (o & db' & E' & _); [lia|congruence].
  - intros r. split; [apply Ok|].
    intros (o & db' & E & _).
    destruct (Z_lt_ge_dec r 1) as [Lt|Ge];
      [rewrite rate_dungeon_out_of_range in E by lia; discriminate E|].
    destruct (Z_lt_ge_dec 5 r) as [Lt|Ge'];
      [rewrite rate_dungeon_out_of_range in E by lia; discriminate E|].
    lia.
  - apply rate_dungeon_out_of_range. lia.
  - apply rate_dungeon_out_of_range. lia.
  - destruct (Ok 1) as (o & db' & E & _); [lia|eauto].
  - destruct (Ok 5) as (o & db' & E & _); [lia|eauto].
Qed.

Lemma rate_dungeon_validates_range_witness :
  ratings_keyed db_rated_5
  /\ ratings_in_range db_rated_5
  /\ dungeons_keyed db_rated_5
  /\ DungeonService.rate_dungeon "dungeon-1" "user-2" 6 None "rating-2" 3000
                                 db_rated_5
     = (Raise (ValueError DungeonService.rating_message), db_rated_5)
  /\ exists o db',
      DungeonService.rate_dungeon "dungeon-1" "user-2" 1 None "rating-2" 3000
                                  db_rated_5
      = (Return o, db').
Proof.
  assert (K : ratings_keyed db_rated_5) by (intros x [<-|[]]; reflexivity).
  assert (B : ratings_in_range db_rated_5) by (intros x [<-|[]]; simpl; lia).
  assert (Kd : dungeons_keyed db_rated_5) by (intros x [<-|[]]; reflexivity).
  split; [exact K|]. split; [exact B|]. split; [exact Kd|].
  destruct (rate_dungeon_validates_range db_rated_5 "dungeon-1" "user-2" None
              "rating-2" 3000 K B Kd) as (_ & _ & _ & Six & One & _).
  split; [exact Six|exact One].
Defined.

(** C9.  The claim fails after an update that names another creator.
    [update_dungeon] applies the dictionary of the request as it is, so
    the creator of a dungeon can change its [creator_id]; the document
    stays in the partition of the first creator.  From then on a rating of
    5 (or 1) is written to the ratings container and the recomputation,
    which addresses the dungeon in the partition named by its
    [creator_id], raises "Item dungeon-1 not found": the call does not
    succeed, and it has written. *)
Theorem rate_dungeon_after_creator_change :
  DungeonService.update_dungeon "dungeon-1" "creator-1"
                                (Dungeon.with_creator_id "creator-2") 1500
                                db_dungeon
  = (Return (Some handed_over), db_handed_over)
  /\ dungeon_at db_handed_over "dungeon-1" handed_over
  /\ ratings db_handed_over = []
  /\ (exists db',
         DungeonService.rate_dungeon "dungeon-1" "user-1" 5 None "rating-1" 2000
                                     db_handed_over
         = (Raise (ValueError "Item dungeon-1 not found"), db')
         /\ ratings db'
            = [DungeonRating.mk "rating-1" "dungeon-1" "user-1" 5 None 2000 2000
                                "dungeon-1"]
         /\ dungeons db' = dungeons db_handed_over)
  /\ (exists db',
         DungeonService.rate_dungeon "dungeon-1" "user-1" 1 None "rating-1" 2000
                                     db_handed_over
         = (Raise (ValueError "Item dungeon-1 not found"), db')
         /\ ratings db'
            = [DungeonRating.mk "rating-1" "dungeon-1" "user-1" 1 None 2000 2000
                                "dungeon-1"])
  /\ DungeonService.rate_dungeon "dungeon-1" "user-1" 6 None "rating-1" 2000
                                 db_handed_over
     = (Raise (ValueError DungeonService.rating_message), db_handed_over).
Proof.
  split; [reflexivity|]. split; [reflexivity|]. split; [reflexivity|].
  split; [|split; [|reflexivity]].
  - eexists. split; [vm_compute; reflexivity|]. split; reflexivity.
  - eexists. split; [vm_compute; reflexivity|]. reflexivity.
Qed.


(** *** The create methods write the partition keys the updates rely on *)

Lemma create_lobby_keeps_keys (db : DatabaseService) (lobby_create : LobbyCreate.t)
      (creator_id uuid : string) (now : timestamp) :
  lobbies_keyed db -> invites_keyed db ->
  lobbies_keyed (snd (LobbyService.create_lobby lobby_create creator_id uuid now db))
  /\ invites_keyed
       (snd (LobbyService.create_lobby lobby_create creator_id uuid now db)).
Proof.
  intros Kl Ki. simpl. split.
  - intros l Hl. simpl in Hl. apply in_app_or in Hl.
    destruct Hl as [Hl|[Hl|[]]]; [now apply Kl|].
    injection Hl as <-. reflexivity.
  - intros v Hv. simpl in Hv. apply in_app_or in Hv.
    destruct Hv as [Hv|[Hv|[]]]; [now apply Ki|discriminate Hv].
Qed.

Lemma create_lobby_invite_keeps_keys (db : DatabaseService)
      (lobby_id inviter_id invitee_id uuid : string) (now : timestamp) :
  lobbies_keyed db -> invites_keyed db ->
  lobbies_keyed
    (snd (LobbyService.create_lobby_invite lobby_id inviter_id invitee_id uuid
            now db))
  /\ invites_keyed
       (snd (LobbyService.create_lobby_invite lobby_id inviter_id invitee_id
               uuid now db)).
Proof.
  intros Kl Ki. unfold LobbyService.create_lobby_invite, bind.
  rewrite get_lobby_by_id_first.
  destruct (filter _ (lobbies db)) as [|[l|w] rest]; simpl; auto.
  destruct (negb (String.eqb (Lobby.creator_id l) inviter_id)); simpl; auto.
  destruct (negb (LobbyStatus_eqb (Lobby.status l) WAITING)); simpl; auto.
  destruct (Lobby.max_players l <=? Lobby.current_players l); simpl; auto.
  split.
  - intros x Hx. simpl in Hx. apply in_app_or in Hx.
    destruct Hx as [Hx|[Hx|[]]]; [now apply Kl|discriminate Hx].
  - intros v Hv. simpl in Hv. apply in_app_or in Hv.
    destruct Hv as [Hv|[Hv|[]]]; [now apply Ki|].
    injection Hv as <-. reflexivity.
Qed.

Lemma create_dungeon_keeps_keys (db : DatabaseService)
      (dungeon_create : DungeonCreate.t) (creator_id uuid : string)
      (now : timestamp) :
  dungeons_keyed db ->
  dungeons_keyed
    (snd (DungeonService.create_dungeon dungeon_create creator_id uuid now db)).
Proof.
  intros K x Hx. simpl in Hx. apply in_app_or in Hx.
  destruct Hx as [Hx|[<-|[]]]; [now apply K|reflexivity].
Qed.

(** *** Scenarios of the design document *)

(** A dungeon rated 5 and then 3 by the same user has one rating and the
    average 3.0. *)
Example rated_5_then_3 :
  (exists dg,
      dungeon_at db_rated_5 "dungeon-1" dg
      /\ Dungeon.average_rating dg = float_5 /\ Dungeon.total_ratings dg = 1)
  /\ (exists dg,
         dungeon_at db_rated_3 "dungeon-1" dg
         /\ Dungeon.average_rating dg = float_3 /\ Dungeon.total_ratings dg = 1)
  /\ List.length (ratings db_rated_3) = 1%nat.
Proof.
  split; [|split]; [eexists; split; [vm_compute; reflexivity|split; reflexivity]..|].
  reflexivity.
Qed.

(** A lobby for two takes one more player after its creation and refuses
    the next. *)
Example lobby_for_two_fills_up :
  fst (LobbyService.join_lobby "lobby-2" "stranger" None 3000 db_duo_invited)
  = Return true
  /\ LobbyService.join_lobby "lobby-2" "late" None 4000 db_duo_full
     = (Return false, db_duo_full).
Proof. split; reflexivity. Qed.

(** An invited player accepts while a seat is free: the player count goes
    from 1 to 2 and the invite leaves the pending listing. *)
Example invite_accepted_while_free :
  (exists l, lobby_at db_duo_invited "lobby-2" l /\ Lobby.current_players l = 1)
  /\ fst (LobbyService.get_lobby_invites "friend-1" 2500 db_duo_invited)
     = Return [duo_invite]
  /\ exists db',
      LobbyService.accept_lobby_invite "invite-1" "friend-1" 2500 db_duo_invited
      = (Return true, db')
      /\ LobbyService.get_lobby_invites "friend-1" 2500 db' = (Return [], db')
      /\ exists l, lobby_at db' "lobby-2" l /\ Lobby.current_players l = 2.
Proof.
  split; [eexists; split; reflexivity|]. split; [reflexivity|].
  eexists. split; [vm_compute; reflexivity|]. split; [reflexivity|].
  eexists. split; reflexivity.
Qed.

(** A lobby with password [x] refuses a join without password or with
    another one, and accepts the exact password. *)
Example password_gate :
  let locked :=
      snd (LobbyService.create_lobby
             (LobbyCreate.mk "Vault" "dungeon-1" 4 false (Some "x"%string))
             "creator-1" "lobby-3" 1000 empty_db) in
  LobbyService.join_lobby "lobby-3" "guest" None 2000 locked
  = (Return false, locked)
  /\ LobbyService.join_lobby "lobby-3" "guest" (Some "y"%string) 2000 locked
     = (Return false, locked)
  /\ fst (LobbyService.join_lobby "lobby-3" "guest" (Some "x"%string) 2000 locked)
     = Return true.
Proof. repeat split. Qed.

(** Invites live in the lobbies container: a lobby method called with the
    identifier of an invite finds a document that is no lobby, and the
    model validation raises. *)
Example lobby_method_on_an_invite_id :
  LobbyService.get_lobby_by_id "invite-1" db_duo_invited
  = (Raise ValidationError, db_duo_invited)
  /\ LobbyService.join_lobby "invite-1" "friend-1" None 2500 db_duo_invited
     = (Raise ValidationError, db_duo_invited)
  /\ LobbyService.leave_lobby "invite-1" "friend-1" 2500 db_duo_invited
     = (Raise ValidationError, db_duo_invited).
Proof. repeat split. Qed.


(** ** Further properties of the services *)

(** *** Lobby transitions *)

Lemma lobby_rewritten_at (db db' : DatabaseService) (lobby_id : string)
      (l l' : Lobby.t) :
  lobby_rewritten db db' lobby_id l l' ->
  Lobby.id l = lobby_id -> Lobby.id l' = lobby_id ->
  lobby_at db' lobby_id l'
  /\ (forall other,
         other <> lobby_id ->
         fst (LobbyService.get_lobby_by_id other db')
         = fst (LobbyService.get_lobby_by_id other db))
  /\ dungeons db' = dungeons db /\ ratings db' = ratings db
  /\ friendships db' = friendships db /\ leaderboard db' = leaderboard db.
Proof.
  intros (l1 & l2 & E & N & ->) Id Id'.
  assert (F1 : filter (fun c => String.eqb (doc_id c) lobby_id) l1 = []).
  { apply filter_nil_forall. intros x Hx. apply N in Hx.
    now apply String.eqb_neq. }
  split; [|split; [|repeat split]].
  - apply lobby_at_first. simpl lobbies. rewrite filter_app, F1. simpl.
    rewrite Id', String.eqb_refl. eauto.
  - intros other Ne. rewrite !get_lobby_by_id_first. simpl lobbies.
    rewrite E, !filter_app. simpl. rewrite Id, Id'.
    assert (Ne' : String.eqb lobby_id other = false)
      by (apply String.eqb_neq; congruence).
    rewrite Ne'.
    now destruct (filter _ l1 ++ filter _ l2) as [|[x|x] rest].
Qed.

(** A dictionary update addressed at the creator's partition, followed by
    [return True]. *)
Lemma lobby_update_returns_true (db : DatabaseService) (lobby_id pk : string)
      (l : Lobby.t) (f : Lobby.t -> Lobby.t) (now : timestamp) :
  lobbies_keyed db ->
  lobby_at db lobby_id l ->
  pk = Lobby.creator_id l ->
  Lobby.id (f l) = Lobby.id l ->
  Lobby.partitionKey (f l) = Lobby.partitionKey l ->
  exists db',
    (_ <- update_item lobbies_container lobby_id pk (on_lobby f) now ;; ret true) db
    = (Return true, db')
    /\ lobby_rewritten db db' lobby_id l (on_update now (f l)).
Proof.
  intros K A -> Fi Fk.
  destruct (update_lobby_at db lobby_id l f now A
              (K l (proj1 (lobby_at_In _ _ _ A))) Fi Fk)
    as (l1 & l2 & E & N & U & _).
  eexists. split.
  - unfold bind. rewrite U. reflexivity.
  - exists l1, l2. auto.
Qed.

Lemma complete_lobby_effect (db : DatabaseService) (lobby_id creator_id : string)
      (now : timestamp) (l : Lobby.t) :
  lobbies_keyed db ->
  lobby_at db lobby_id l ->
  (~ (Lobby.creator_id l = creator_id /\ Lobby.status l = IN_GAME)
   /\ LobbyService.complete_lobby lobby_id creator_id now db = (Return false, db))
  \/ (Lobby.creator_id l = creator_id /\ Lobby.status l = IN_GAME
      /\ exists db',
          LobbyService.complete_lobby lobby_id creator_id now db
          = (Return true, db')
          /\ lobby_rewritten db db' lobby_id l
               (on_update now (Lobby.with_completed now l))).
Proof.
  intros K A.
  remember (LobbyService.complete_lobby lobby_id creator_id now db) as r eqn:R.
  unfold LobbyService.complete_lobby, bind at 1 in R. rewrite A in R.
  destruct (String.eqb (Lobby.creator_id l) creator_id) eqn:C; simpl in R.
  - apply String.eqb_eq in C.
    destruct (LobbyStatus_eqb (Lobby.status l) IN_GAME) eqn:S; simpl in R.
    + apply LobbyStatus_eqb_eq in S. right. split; [assumption|].
      split; [assumption|].
      destruct (lobby_update_returns_true db lobby_id creator_id l
                  (Lobby.with_completed now) now K A (eq_sym C) eq_refl eq_refl)
        as (db' & U & RW).
      rewrite U in R. subst r. eauto.
    + left. split; [|exact R]. intros [_ S'].
      apply LobbyStatus_eqb_eq in S'. congruence.
  - left. split; [|exact R]. intros [C' _].
    apply String.eqb_eq in C'. congruence.
Qed.

Lemma cancel_lobby_effect (db : DatabaseService) (lobby_id creator_id : string)
      (now : timestamp) (l : Lobby.t) :
  lobbies_keyed db ->
  lobby_at db lobby_id l ->
  (~ (Lobby.creator_id l = creator_id
      /\ (Lobby.status l = WAITING \/ Lobby.status l = IN_GAME))
   /\ LobbyService.cancel_lobby lobby_id creator_id now db = (Return false, db))
  \/ (Lobby.creator_id l = creator_id
      /\ (Lobby.status l = WAITING \/ Lobby.status l = IN_GAME)
      /\ exists db',
          LobbyService.cancel_lobby lobby_id creator_id now db
          = (Return true, db')
          /\ lobby_rewritten db db' lobby_id l
               (on_update now (Lobby.with_cancelled l))).
Proof.
  intros K A.
  remember (LobbyService.cancel_lobby lobby_id creator_id now db) as r eqn:R.
  unfold LobbyService.cancel_lobby, bind at 1 in R. rewrite A in R.
  destruct (String.eqb (Lobby.creator_id l) creator_id) eqn:C; simpl in R.
  - apply String.eqb_eq in C.
    destruct (LobbyStatus_eqb (Lobby.status l) WAITING
              || LobbyStatus_eqb (Lobby.status l) IN_GAME) eqn:S; simpl in R.
    + apply orb_true_iff in S. rewrite !LobbyStatus_eqb_eq in S.
      right. split; [assumption|]. split; [assumption|].
      destruct (lobby_update_returns_true db lobby_id creator_id l
                  Lobby.with_cancelled now K A (eq_sym C) eq_refl eq_refl)
        as (db' & U & RW).
      rewrite U in R. subst r. eauto.
    + left. split; [|exact R]. intros [_ S'].
      rewrite <- !LobbyStatus_eqb_eq, <- orb_true_iff in S'. congruence.
  - left. split; [|exact R]. intros [C' _].
    apply String.eqb_eq in C'. congruence.
Qed.

(** X1.  For an existing lobby, [complete_lobby] returns [True] exactly
    when the caller is the creator and the game is running; the lobby is
    then [completed] with [completed_at = now], its players and start time
    kept.  Otherwise it returns [False] and the store is untouched. *)
Theorem complete_lobby_guard
        (db : DatabaseService) (lobby_id creator_id : string) (now : timestamp)
        (l : Lobby.t) :
  lobbies_keyed db ->
  lobby_at db lobby_id l ->
  ((exists db',
       LobbyService.complete_lobby lobby_id creator_id now db = (Return true, db'))
   <-> Lobby.creator_id l = creator_id /\ Lobby.status l = IN_GAME)
  /\ (LobbyService.complete_lobby lobby_id creator_id now db = (Return false, db)
      <-> ~ (Lobby.creator_id l = creator_id /\ Lobby.status l = IN_GAME))
  /\ (forall db',
         LobbyService.complete_lobby lobby_id creator_id now db = (Return true, db') ->
         exists l',
           lobby_at db' lobby_id l'
           /\ Lobby.status l' = COMPLETED
           /\ Lobby.completed_at l' = Some now
           /\ Lobby.started_at l' = Lobby.started_at l
           /\ Lobby.current_players l' = Lobby.current_players l).
Proof.
  intros K A.
  destruct (lobby_at_In _ _ _ A) as [_ Id].
  destruct (complete_lobby_effect db lobby_id creator_id now l K A)
    as [(No & E)|(C & S & db1 & E & R)].
  - split; [split|split; [split|]].
    + intros (db' & E'). congruence.
    + intros Yes. contradiction.
    + auto.
    + auto.
    + intros db' E'. congruence.
  - split; [split|split; [split|]].
    + auto.
    + eauto.
    + intros E'. congruence.
    + intros No. exfalso. apply No. auto.
    + intros db' E'. assert (db' = db1) by congruence. subst db'.
      destruct (lobby_rewritten_at _ _ _ _ _ R Id Id) as (A' & _).
      eexists. split; [exact A'|]. repeat split.
Qed.

Lemma complete_lobby_guard_witness :
  lobbies_keyed db_started
  /\ lobby_at db_started "lobby-1" started_lobby
  /\ LobbyService.complete_lobby "lobby-1" "stranger" 3000 db_started
     = (Return false, db_started)
  /\ exists db',
      LobbyService.complete_lobby "lobby-1" "creator-1" 3000 db_started
      = (Return true, db').
Proof.
  assert (K : lobbies_keyed db_started)
    by (intros l [E|[]]; injection E as <-; reflexivity).
  assert (A : lobby_at db_started "lobby-1" started_lobby) by reflexivity.
  split; [exact K|]. split; [exact A|]. split.
  - apply (proj1 (proj2 (complete_lobby_guard db_started "lobby-1" "stranger"
                           3000 started_lobby K A))).
    intros [C _]. discriminate C.
  - apply (proj1 (complete_lobby_guard db_started "lobby-1" "creator-1" 3000
                    started_lobby K A)).
    split; reflexivity.
Defined.

(** X2.  For an existing lobby, [cancel_lobby] returns [True] exactly when
    the caller is the creator and the lobby is waiting or in game; the
    lobby is then [cancelled].  Otherwise it returns [False] and the store
    is untouched. *)
Theorem cancel_lobby_guard
        (db : DatabaseService) (lobby_id creator_id : string) (now : timestamp)
        (l : Lobby.t) :
  lobbies_keyed db ->
  lobby_at db lobby_id l ->
  ((exists db',
       LobbyService.cancel_lobby lobby_id creator_id now db = (Return true, db'))
   <-> Lobby.creator_id l = creator_id
       /\ (Lobby.status l = WAITING \/ Lobby.status l = IN_GAME))
  /\ (LobbyService.cancel_lobby lobby_id creator_id now db = (Return false, db)
      <-> ~ (Lobby.creator_id l = creator_id
             /\ (Lobby.status l = WAITING \/ Lobby.status l = IN_GAME)))
  /\ (forall db',
         LobbyService.cancel_lobby lobby_id creator_id now db = (Return true, db') ->
         exists l',
           lobby_at db' lobby_id l'
           /\ Lobby.status l' = CANCELLED
           /\ Lobby.current_players l' = Lobby.current_players l).
Proof.
  intros K A.
  destruct (lobby_at_In _ _ _ A) as [_ Id].
  destruct (cancel_lobby_effect db lobby_id creator_id now l K A)
    as [(No & E)|(C & S & db1 & E & R)].
  - split; [split|split; [split|]].
    + intros (db' & E'). congruence.
    + intros Yes. contradiction.
    + auto.
    + auto.
    + intros db' E'. congruence.
  - split; [split|split; [split|]].
    + auto.
    + eauto.
    + intros E'. congruence.
    + intros No. exfalso. apply No. auto.
    + intros db' E'. assert (db' = db1) by congruence. subst db'.
      destruct (lobby_rewritten_at _ _ _ _ _ R Id Id) as (A' & _).
      eexists. split; [exact A'|]. repeat split.
Qed.

Lemma cancel_lobby_guard_witness :
  lobbies_keyed db_started
  /\ lobby_at db_started "lobby-1" started_lobby
  /\ exists db',
      LobbyService.cancel_lobby "lobby-1" "creator-1" 3000 db_started
      = (Return true, db').
Proof.
  assert (K : lobbies_keyed db_started)
    by (intros l [E|[]]; injection E as <-; reflexivity).
  assert (A : lobby_at db_started "lobby-1" started_lobby) by reflexivity.
  split; [exact K|]. split; [exact A|].
  apply (proj1 (cancel_lobby_guard db_started "lobby-1" "creator-1" 3000
                  started_lobby K A)).
  split; [reflexivity|]. right. reflexivity.
Defined.

Lemma join_lobby_effect (db : DatabaseService) (lobby_id user_id : string)
      (password : option string) (now : timestamp) (l : Lobby.t) :
  lobbies_keyed db ->
  lobby_at db lobby_id l ->
  ((Lobby.status l <> WAITING
    \/ Lobby.max_players l <= Lobby.current_players l
    \/ password_mismatch l password)
   /\ LobbyService.join_lobby lobby_id user_id password now db
      = (Return false, db))
  \/ (Lobby.status l = WAITING
      /\ Lobby.current_players l < Lobby.max_players l
      /\ exists db',
          LobbyService.join_lobby lobby_id user_id password now db
          = (Return true, db')
          /\ lobby_rewritten db db' lobby_id l
               (on_update now
                  (Lobby.with_current_players (Lobby.current_players l + 1) l))).
Proof.
  intros K A.
  remember (LobbyService.join_lobby lobby_id user_id password now db) as r eqn:R.
  unfold LobbyService.join_lobby, bind at 1 in R. rewrite A in R.
  destruct (LobbyStatus_eqb (Lobby.status l) WAITING) eqn:S; simpl in R.
  2:{ left. split; [|exact R]. left. intros W.
      apply LobbyStatus_eqb_eq in W. congruence. }
  apply LobbyStatus_eqb_eq in S.
  destruct (Lobby.max_players l <=? Lobby.current_players l) eqn:Full.
  { left. split; [|exact R]. right. left. now apply Z.leb_le. }
  apply Z.leb_gt in Full.
  destruct (truthy (Lobby.password l)
            && negb (opt_str_eqb (Lobby.password l) password)) eqn:Pw.
  { left. split; [|exact R]. right. right.
    apply andb_true_iff in Pw. destruct Pw as [T Ne]. split; [exact T|].
    intros Eq. apply opt_str_eqb_eq in Eq. rewrite Eq in Ne. discriminate Ne. }
  right. split; [assumption|]. split; [assumption|].
  destruct (lobby_update_returns_true db lobby_id (Lobby.creator_id l) l
              (Lobby.with_current_players (Lobby.current_players l + 1))
              now K A eq_refl eq_refl eq_refl)
    as (db' & U & RW).
  rewrite U in R. subst r. eauto.
Qed.

Lemma leave_lobby_effect (db : DatabaseService) (lobby_id user_id : string)
      (now : timestamp) (l : Lobby.t) :
  lobbies_keyed db ->
  lobby_at db lobby_id l ->
  LobbyService.leave_lobby lobby_id user_id now db = (Return false, db)
  \/ (Lobby.status l = WAITING
      /\ exists db',
          LobbyService.leave_lobby lobby_id user_id now db = (Return true, db')
          /\ lobby_rewritten db db' lobby_id l
               (on_update now
                  (Lobby.with_current_players
                     (Z.max 0 (Lobby.current_players l - 1)) l))).
Proof.
  intros K A.
  remember (LobbyService.leave_lobby lobby_id user_id now db) as r eqn:R.
  unfold LobbyService.leave_lobby, bind at 1 in R. rewrite A in R.
  destruct (LobbyStatus_eqb (Lobby.status l) WAITING) eqn:S; simpl in R;
    [|now left].
  apply LobbyStatus_eqb_eq in S.
  right. split; [assumption|].
  destruct (lobby_update_returns_true db lobby_id (Lobby.creator_id l) l
              (Lobby.with_current_players (Z.max 0 (Lobby.current_players l - 1)))
              now K A eq_refl eq_refl eq_refl)
    as (db' & U & RW).
  rewrite U in R. subst r. eauto.
Qed.

Lemma start_lobby_effect (db : DatabaseService) (lobby_id creator_id : string)
      (now : timestamp) (l : Lobby.t) :
  lobbies_keyed db ->
  lobby_at db lobby_id l ->
  LobbyService.start_lobby lobby_id creator_id now db = (Return false, db)
  \/ (Lobby.status l = WAITING
      /\ exists db',
          LobbyService.start_lobby lobby_id creator_id now db = (Return true, db')
          /\ lobby_rewritten db db' lobby_id l
               (on_update now (Lobby.with_started now l))).
Proof.
  intros K A.
  remember (LobbyService.start_lobby lobby_id creator_id now db) as r eqn:R.
  unfold LobbyService.start_lobby, bind at 1 in R. rewrite A in R.
  destruct (String.eqb (Lobby.creator_id l) creator_id) eqn:C; simpl in R;
    [|now left].
  apply String.eqb_eq in C.
  destruct (LobbyStatus_eqb (Lobby.status l) WAITING) eqn:S; simpl in R;
    [|now left].
  apply LobbyStatus_eqb_eq in S.
  destruct (Lobby.current_players l <? 1); [now left|].
  right. split; [assumption|].
  destruct (lobby_update_returns_true db lobby_id creator_id l
              (Lobby.with_started now) now K A (eq_sym C) eq_refl eq_refl)
    as (db' & U & RW).
  rewrite U in R. subst r. eauto.
Qed.

Lemma lobby_rewritten_keyed (db db' : DatabaseService) (lobby_id : string)
      (l l' : Lobby.t) :
  lobby_rewritten db db' lobby_id l l' ->
  Lobby.partitionKey l' = Lobby.partitionKey l ->
  Lobby.creator_id l' = Lobby.creator_id l ->
  lobbies_keyed db -> lobbies_keyed db'.
Proof.
  intros (l1 & l2 & E & _ & ->) Pk Cr K x Hx. simpl in Hx.
  apply in_app_or in Hx. destruct Hx as [Hx|[Hx|Hx]].
  - apply K. rewrite E. apply in_or_app. now left.
  - injection Hx as <-. rewrite Pk, Cr. apply K. rewrite E.
    apply in_or_app. right. now left.
  - apply K. rewrite E. apply in_or_app. right. now right.
Qed.

(** One call on a lobby: nothing happens, or the lobby is rewritten with
    the same identity, creator and size, seats still in bounds, and no
    earlier stage of its life. *)
Lemma lobby_call_step (db : DatabaseService) (lobby_id : string) (l : Lobby.t)
      (c : lobby_call) (now : timestamp) :
  lobbies_keyed db ->
  lobby_at db lobby_id l ->
  run_lobby_call lobby_id c now db = (Return false, db)
  \/ exists db' l',
      run_lobby_call lobby_id c now db = (Return true, db')
      /\ lobby_rewritten db db' lobby_id l l'
      /\ Lobby.id l' = Lobby.id l
      /\ Lobby.partitionKey l' = Lobby.partitionKey l
      /\ Lobby.creator_id l' = Lobby.creator_id l
      /\ Lobby.max_players l' = Lobby.max_players l
      /\ (seats_in_bounds l -> seats_in_bounds l')
      /\ stage (Lobby.status l) <= stage (Lobby.status l')
      /\ stage (Lobby.status l) < 2.
Proof.
  intros K A. unfold seats_in_bounds.
  destruct c as [u pw|u|cr|cr|cr]; simpl run_lobby_call.
  - destruct (join_lobby_effect db lobby_id u pw now l K A)
      as [(_ & E)|(S & Room & db' & E & RW)]; [now left|right].
    exists db'. eexists. split; [exact E|]. split; [exact RW|].
    simpl. rewrite S. simpl. repeat split; lia.
  - destruct (leave_lobby_effect db lobby_id u now l K A)
      as [E|(S & db' & E & RW)]; [now left|right].
    exists db'. eexists. split; [exact E|]. split; [exact RW|].
    simpl. rewrite S. simpl. repeat split; lia.
  - destruct (start_lobby_effect db lobby_id cr now l K A)
      as [E|(S & db' & E & RW)]; [now left|right].
    exists db'. eexists. split; [exact E|]. split; [exact RW|].
    simpl. rewrite S. simpl. repeat split; lia.
  - destruct (complete_lobby_effect db lobby_id cr now l K A)
      as [(_ & E)|(_ & S & db' & E & RW)]; [now left|right].
    exists db'. eexists. split; [exact E|]. split; [exact RW|].
    simpl. rewrite S. simpl. repeat split; lia.
  - destruct (cancel_lobby_effect db lobby_id cr now l K A)
      as [(_ & E)|(_ & S & db' & E & RW)]; [now left|right].
    exists db'. eexists. split; [exact E|]. split; [exact RW|].
    simpl. destruct S as [S|S]; rewrite S; simpl; repeat split; lia.
Qed.

(** One call moves the player count inside any interval that contains 0
    and reaches [max_players]. *)
Lemma lobby_call_step_seats (db : DatabaseService) (lobby_id : string)
      (l : Lobby.t) (c : lobby_call) (now : timestamp) :
  lobbies_keyed db ->
  lobby_at db lobby_id l ->
  run_lobby_call lobby_id c now db = (Return false, db)
  \/ exists db' l',
      run_lobby_call lobby_id c now db = (Return true, db')
      /\ lobby_rewritten db db' lobby_id l l'
      /\ Lobby.id l' = Lobby.id l
      /\ Lobby.partitionKey l' = Lobby.partitionKey l
      /\ Lobby.creator_id l' = Lobby.creator_id l
      /\ Lobby.max_players l' = Lobby.max_players l
      /\ (forall lo hi,
             lo <= 0 <= hi ->
             Lobby.max_players l <= hi ->
             lo <= Lobby.current_players l <= hi ->
             lo <= Lobby.current_players l' <= hi)
      /\ stage (Lobby.status l) <= stage (Lobby.status l').
Proof.
  intros K A.
  destruct c as [u pw|u|cr|cr|cr]; simpl run_lobby_call.
  - destruct (join_lobby_effect db lobby_id u pw now l K A)
      as [(_ & E)|(S & Room & db' & E & RW)]; [now left|right].
    exists db'. eexists. split; [exact E|]. split; [exact RW|].
    simpl. rewrite S. simpl.
    repeat split; try reflexivity; try lia; intros; lia.
  - destruct (leave_lobby_effect db lobby_id u now l K A)
      as [E|(S & db' & E & RW)]; [now left|right].
    exists db'. eexists. split; [exact E|]. split; [exact RW|].
    simpl. rewrite S. simpl.
    repeat split; try reflexivity; try lia; intros; lia.
  - destruct (start_lobby_effect db lobby_id cr now l K A)
      as [E|(S & db' & E & RW)]; [now left|right].
    exists db'. eexists. split; [exact E|]. split; [exact RW|].
    simpl. rewrite S. simpl.
    repeat split; try reflexivity; try lia; intros; lia.
  - destruct (complete_lobby_effect db lobby_id cr now l K A)
      as [(_ & E)|(_ & S & db' & E & RW)]; [now left|right].
    exists db'. eexists. split; [exact E|]. split; [exact RW|].
    simpl. rewrite S. simpl.
    repeat split; try reflexivity; try lia; intros; lia.
  - destruct (cancel_lobby_effect db lobby_id cr now l K A)
      as [(_ & E)|(_ & S & db' & E & RW)]; [now left|right].
    exists db'. eexists. split; [exact E|]. split; [exact RW|].
    simpl.
    destruct S as [S|S]; rewrite S; simpl;
      repeat split; try reflexivity; try lia; intros; lia.
Qed.

Lemma lobby_calls_stay_within
      (calls : list (lobby_call * timestamp)) (db : DatabaseService)
      (lobby_id : string) (l : Lobby.t) (lo hi : Z) :
  lobbies_keyed db ->
  lobby_at db lobby_id l ->
  lo <= 0 <= hi ->
  Lobby.max_players l <= hi ->
  lo <= Lobby.current_players l <= hi ->
  exists l',
    lobby_at (run_lobby_calls lobby_id calls db) lobby_id l'
    /\ lobbies_keyed (run_lobby_calls lobby_id calls db)
    /\ lo <= Lobby.current_players l' <= hi
    /\ Lobby.max_players l' = Lobby.max_players l
    /\ Lobby.creator_id l' = Lobby.creator_id l
    /\ stage (Lobby.status l) <= stage (Lobby.status l').
Proof.
  revert db l. induction calls as [|[c now] calls IH]; intros db l K A Z0 Mx B.
  - exists l. simpl. repeat split; auto; lia.
  - simpl run_lobby_calls.
    destruct (lobby_at_In _ _ _ A) as [_ Id].
    destruct (lobby_call_step_seats db lobby_id l c now K A)
      as [E|(db' & l' & E & RW & Id' & Pk & Cr & Mx' & Bd & St)].
    + rewrite E. simpl. now apply IH.
    + rewrite E. simpl.
      destruct (lobby_rewritten_at _ _ _ _ _ RW Id (eq_trans Id' Id)) as (A' & _).
      destruct (IH db' l' (lobby_rewritten_keyed _ _ _ _ _ RW Pk Cr K) A' Z0)
        as (l'' & A'' & K'' & B'' & Mx'' & Cr'' & St'').
      * now rewrite Mx'.
      * now apply Bd.
      * exists l''. repeat split; auto; try apply B''; try congruence. lia.
Qed.

(** X3.  Whatever sequence of join, leave, start, complete and cancel
    calls is made on a lobby, by whomever, the lobby stays in the store
    with its creator and its [max_players], and its status never moves
    back to an earlier stage (waiting, then in game, then completed or
    cancelled).  Its [current_players] never leaves the interval from
    [min(0, c)] to [max(0, c, max_players)], [c] being the count at the
    start: a count that starts between 0 and [max_players] stays there,
    and the count of a lobby created with [max_players <= 0], which
    starts at 1 because [max_players] is not validated, stays between 0
    and 1. *)
Theorem lobby_calls_keep_seats_and_stage
        (calls : list (lobby_call * timestamp)) (db : DatabaseService)
        (lobby_id : string) (l : Lobby.t) :
  lobbies_keyed db ->
  lobby_at db lobby_id l ->
  exists l',
    lobby_at (run_lobby_calls lobby_id calls db) lobby_id l'
    /\ lobbies_keyed (run_lobby_calls lobby_id calls db)
    /\ Z.min 0 (Lobby.current_players l) <= Lobby.current_players l'
       <= Z.max 0 (Z.max (Lobby.current_players l) (Lobby.max_players l))
    /\ (seats_in_bounds l -> seats_in_bounds l')
    /\ (Lobby.current_players l = 1 ->
        Lobby.max_players l <= 0 ->
        0 <= Lobby.current_players l' <= 1)
    /\ Lobby.max_players l' = Lobby.max_players l
    /\ Lobby.creator_id l' = Lobby.creator_id l
    /\ stage (Lobby.status l) <= stage (Lobby.status l').
Proof.
  intros K A.
  destruct (lobby_calls_stay_within
              calls db lobby_id l
              (Z.min 0 (Lobby.current_players l))
              (Z.max 0 (Z.max (Lobby.current_players l) (Lobby.max_players l)))
              K A)
    as (l' & A' & K' & B' & Mx & Cr & St); try lia.
  exists l'. split; [exact A'|]. split; [exact K'|]. split; [exact B'|].
  split; [|split; [|auto]].
  - unfold seats_in_bounds. rewrite Mx. lia.
  - lia.
Qed.

Lemma lobby_calls_keep_seats_and_stage_witness :
  lobbies_keyed db_no_seats
  /\ lobby_at db_no_seats "lobby-3" no_seats_lobby
  /\ ~ seats_in_bounds no_seats_lobby
  /\ exists l',
      lobby_at
        (run_lobby_calls "lobby-3"
           [(Join "guest-1" None, 2000); (Leave "stranger", 2100);
            (Join "guest-2" None, 2200); (Leave "stranger", 2300);
            (Start "creator-1", 2400); (Cancel "creator-1", 2500)]
           db_no_seats)
        "lobby-3" l'
      /\ 0 <= Lobby.current_players l' <= 1
      /\ Lobby.max_players l' = 0.
Proof.
  assert (K : lobbies_keyed db_no_seats).
  { intros l [E|[]]. injection E as <-. reflexivity. }
  split; [exact K|]. split; [reflexivity|]. split.
  - unfold seats_in_bounds. simpl. lia.
  - destruct (lobby_calls_keep_seats_and_stage
                [(Join "guest-1" None, 2000); (Leave "stranger", 2100);
                 (Join "guest-2" None, 2200); (Leave "stranger", 2300);
                 (Start "creator-1", 2400); (Cancel "creator-1", 2500)]
                db_no_seats "lobby-3" no_seats_lobby K eq_refl)
      as (l' & A' & _ & _ & _ & Edge & Mx & _).
    exists l'. split; [exact A'|]. split; [|exact Mx].
    apply Edge; [reflexivity|simpl; lia].
Defined.

(** X4.  A completed or cancelled lobby is frozen: join, leave, start,
    complete and cancel all return [False] whoever calls them, a new
    invite is refused with an error, and the store is untouched. *)
Theorem closed_lobby_is_frozen
        (db : DatabaseService) (lobby_id : string) (l : Lobby.t) :
  lobby_at db lobby_id l ->
  closed l ->
  (forall c now, run_lobby_call lobby_id c now db = (Return false, db))
  /\ (forall inviter_id invitee_id uuid now,
         exists msg,
           LobbyService.create_lobby_invite lobby_id inviter_id invitee_id uuid
                                            now db
           = (Raise (ValueError msg), db)).
Proof.
  intros A Cl.
  assert (W : LobbyStatus_eqb (Lobby.status l) WAITING = false)
    by (destruct Cl as [S|S]; rewrite S; reflexivity).
  assert (G : LobbyStatus_eqb (Lobby.status l) IN_GAME = false)
    by (destruct Cl as [S|S]; rewrite S; reflexivity).
  split.
  - intros [u pw|u|cr|cr|cr] now; simpl;
      [unfold LobbyService.join_lobby|unfold LobbyService.leave_lobby
      |unfold LobbyService.start_lobby|unfold LobbyService.complete_lobby
      |unfold LobbyService.cancel_lobby];
      unfold bind; rewrite A; rewrite ?W, ?G; simpl; try reflexivity;
        now destruct (String.eqb (Lobby.creator_id l) cr).
  - intros inviter_id invitee_id uuid now.
    unfold LobbyService.create_lobby_invite, bind. rewrite A.
    destruct (String.eqb (Lobby.creator_id l) inviter_id); simpl;
      [rewrite W; simpl|]; eexists; reflexivity.
Qed.

Lemma closed_lobby_is_frozen_witness :
  lobby_at db_completed "lobby-1" completed_lobby
  /\ closed completed_lobby
  /\ LobbyService.cancel_lobby "lobby-1" "creator-1" 4000 db_completed
     = (Return false, db_completed)
  /\ LobbyService.join_lobby "lobby-1" "guest-1" None 4000 db_completed
     = (Return false, db_completed).
Proof.
  assert (A : lobby_at db_completed "lobby-1" completed_lobby) by reflexivity.
  assert (C : closed completed_lobby) by (left; reflexivity).
  split; [exact A|]. split; [exact C|].
  destruct (closed_lobby_is_frozen db_completed "lobby-1" completed_lobby A C)
    as [F _].
  split; [exact (F (Cancel "creator-1") 4000)|exact (F (Join "guest-1" None) 4000)].
Defined.

(** X5.  A join, leave, start, complete or cancel call on one lobby
    changes nothing else: every other lobby is found as before, the
    invites are the same, and the other containers are untouched. *)
Theorem lobby_call_touches_one_lobby
        (db : DatabaseService) (lobby_id : string) (l : Lobby.t)
        (c : lobby_call) (now : timestamp) :
  lobbies_keyed db ->
  lobby_at db lobby_id l ->
  (forall other,
      other <> lobby_id ->
      fst (LobbyService.get_lobby_by_id other
             (snd (run_lobby_call lobby_id c now db)))
      = fst (LobbyService.get_lobby_by_id other db))
  /\ (forall v,
         In (InviteDoc v) (lobbies (snd (run_lobby_call lobby_id c now db)))
         <-> In (InviteDoc v) (lobbies db))
  /\ dungeons (snd (run_lobby_call lobby_id c now db)) = dungeons db
  /\ ratings (snd (run_lobby_call lobby_id c now db)) = ratings db
  /\ friendships (snd (run_lobby_call lobby_id c now db)) = friendships db
  /\ leaderboard (snd (run_lobby_call lobby_id c now db)) = leaderboard db.
Proof.
  intros K A.
  destruct (lobby_at_In _ _ _ A) as [_ Id].
  destruct (lobby_call_step db lobby_id l c now K A)
    as [E|(db' & l' & E & RW & Id' & _)]; rewrite E; simpl.
  - repeat split; auto.
  - destruct (lobby_rewritten_at _ _ _ _ _ RW Id (eq_trans Id' Id))
      as (_ & Oth & D & R & F & L).
    split; [exact Oth|]. split; [|auto].
    destruct RW as (l1 & l2 & El & _ & ->). simpl lobbies. rewrite El.
    intros v. rewrite !in_app_iff. simpl.
    split; intros [H|[H|H]]; auto; discriminate H.
Qed.

Lemma lobby_call_touches_one_lobby_witness :
  lobbies_keyed db_duo_invited
  /\ lobby_at db_duo_invited "lobby-2"
              (Lobby.mk "lobby-2" "Duo" "creator-1" "dungeon-1" 2 1 true None
                        WAITING 1000 1000 None None "creator-1")
  /\ forall v,
      In (InviteDoc v)
         (lobbies (snd (run_lobby_call "lobby-2" (Cancel "creator-1") 2500
                          db_duo_invited)))
      <-> In (InviteDoc v) (lobbies db_duo_invited).
Proof.
  assert (K : lobbies_keyed db_duo_invited).
  { intros l [E|[E|[]]]; [injection E as <-; reflexivity|discriminate E]. }
  split; [exact K|]. split; [reflexivity|].
  exact (proj1 (proj2 (lobby_call_touches_one_lobby
                         db_duo_invited "lobby-2" _ (Cancel "creator-1") 2500
                         K eq_refl))).
Defined.

Lemma filter_fresh_id {D : Type} `{Document D} (uuid : string) (c : list D) :
  fresh_id uuid c -> filter (fun x => String.eqb (doc_id x) uuid) c = [].
Proof.
  intros F. apply filter_nil_forall. intros x Hx. apply String.eqb_neq.
  intros E. apply F. rewrite <- E. now apply in_map.
Qed.

(** X6.  [create_lobby] with a fresh identifier returns a waiting lobby
    with one player, the creator, whatever [max_players] is; the lobby is
    then found under its identifier and every other lookup is as before. *)
Theorem create_lobby_then_get
        (db : DatabaseService) (lobby_create : LobbyCreate.t)
        (creator_id uuid : string) (now : timestamp) :
  fresh_id uuid (lobbies db) ->
  exists l db',
    LobbyService.create_lobby lobby_create creator_id uuid now db = (Return l, db')
    /\ lobby_at db' uuid l
    /\ Lobby.id l = uuid
    /\ Lobby.creator_id l = creator_id
    /\ Lobby.status l = WAITING
    /\ Lobby.current_players l = 1
    /\ Lobby.max_players l = LobbyCreate.max_players lobby_create
    /\ Lobby.password l = LobbyCreate.password lobby_create
    /\ Lobby.partitionKey l = creator_id
    /\ forall other,
        other <> uuid ->
        fst (LobbyService.get_lobby_by_id other db')
        = fst (LobbyService.get_lobby_by_id other db).
Proof.
  intros F.
  set (l := Lobby.mk uuid (LobbyCreate.name lobby_create) creator_id
                     (LobbyCreate.dungeon_id lobby_create)
                     (LobbyCreate.max_players lobby_create) 1
                     (LobbyCreate.is_public lobby_create)
                     (LobbyCreate.password lobby_create)
                     WAITING now now None None creator_id).
  exists l, (write lobbies_container (lobbies db ++ [LobbyDoc l]) db).
  split; [reflexivity|].
  split; [|repeat split].
  - apply lobby_at_first. simpl lobbies. rewrite filter_app.
    rewrite (filter_fresh_id uuid (lobbies db) F). simpl.
    rewrite String.eqb_refl. eauto.
  - intros other Ne. rewrite !get_lobby_by_id_first. simpl lobbies.
    rewrite filter_app. simpl.
    assert (Ne' : String.eqb uuid other = false)
      by (apply String.eqb_neq; congruence).
    rewrite Ne', app_nil_r.
    now destruct (filter _ (lobbies db)) as [|[x|x] rest].
Qed.

Lemma create_lobby_then_get_witness :
  fresh_id "lobby-9" (lobbies db_one_lobby)
  /\ exists l db',
      LobbyService.create_lobby duo "creator-2" "lobby-9" 5000 db_one_lobby
      = (Return l, db')
      /\ lobby_at db' "lobby-9" l
      /\ Lobby.current_players l = 1.
Proof.
  assert (F : fresh_id "lobby-9" (lobbies db_one_lobby)).
  { intros [E|[]]. discriminate E. }
  split; [exact F|].
  destruct (create_lobby_then_get db_one_lobby duo "creator-2" "lobby-9" 5000 F)
    as (l & db' & E & A & _ & _ & _ & P & _).
  exists l, db'. repeat split; assumption.
Defined.

Lemma listed_invites (db : DatabaseService) (user_id : string) (now : timestamp) :
  exists listing,
    LobbyService.get_lobby_invites user_id now db = (Return listing, db)
    /\ forall v,
        In v listing <->
        In (InviteDoc v) (lobbies db)
        /\ LobbyInvite.invitee_id v = user_id
        /\ LobbyInvite.is_accepted v = None
        /\ now < LobbyInvite.expires_at v.
Proof.
  unfold LobbyService.get_lobby_invites, bind, query_values, lift.
  change (read lobbies_container db) with (lobbies db).
  match goal with
  | |- context [comprehension as_LobbyInvite ?l] =>
    destruct (comprehension_invites l) as (vs & C & Hvs)
  end.
  - intros x Hx. apply order_by_desc_In, filter_In in Hx.
    destruct Hx as [_ Hx]. destruct x as [l|w]; [discriminate Hx|eauto].
  - exists vs. rewrite C. split; [reflexivity|].
    intros v. rewrite Hvs, order_by_desc_In, filter_In. simpl.
    rewrite !andb_true_iff, String.eqb_eq, Z.ltb_lt.
    destruct (LobbyInvite.is_accepted v); intuition congruence.
Qed.

(** X7.  [create_lobby_invite] raises, writing nothing, when the lobby is
    absent, the inviter is not its creator, it is not waiting, or it is
    full.  Otherwise it stores a pending invite that expires 24 hours
    later; the invitee sees it in the pending listing until then, and the
    lobby itself is unchanged: an invite reserves no seat. *)
Theorem create_lobby_invite_outcomes
        (db : DatabaseService) (lobby_id inviter_id invitee_id uuid : string)
        (now : timestamp) :
  (lobby_absent db lobby_id ->
   LobbyService.create_lobby_invite lobby_id inviter_id invitee_id uuid now db
   = (Raise (ValueError "Lobby not found"), db))
  /\ (forall l,
         lobby_at db lobby_id l ->
         Lobby.creator_id l <> inviter_id
         \/ Lobby.status l <> WAITING
         \/ Lobby.max_players l <= Lobby.current_players l ->
         exists msg,
           LobbyService.create_lobby_invite lobby_id inviter_id invitee_id uuid
                                            now db
           = (Raise (ValueError msg), db))
  /\ (forall l,
         lobby_at db lobby_id l ->
         Lobby.creator_id l = inviter_id ->
         Lobby.status l = WAITING ->
         Lobby.current_players l < Lobby.max_players l ->
         let v := LobbyInvite.mk uuid lobby_id inviter_id invitee_id now now
                                 (now + hours_24) None lobby_id in
         exists db',
           LobbyService.create_lobby_invite lobby_id inviter_id invitee_id uuid
                                            now db
           = (Return v, db')
           /\ lobbies db' = lobbies db ++ [InviteDoc v]
           /\ lobby_at db' lobby_id l
           /\ forall now',
               now' < now + hours_24 ->
               exists listing,
                 LobbyService.get_lobby_invites invitee_id now' db'
                 = (Return listing, db')
                 /\ In v listing).
Proof.
  split; [|split].
  - intros A. unfold LobbyService.create_lobby_invite, bind. now rewrite A.
  - intros l A Why. unfold LobbyService.create_lobby_invite, bind. rewrite A.
    destruct (String.eqb (Lobby.creator_id l) inviter_id) eqn:C; simpl;
      [|eexists; reflexivity].
    apply String.eqb_eq in C.
    destruct (LobbyStatus_eqb (Lobby.status l) WAITING) eqn:S; simpl;
      [|eexists; reflexivity].
    apply LobbyStatus_eqb_eq in S.
    destruct (Lobby.max_players l <=? Lobby.current_players l) eqn:Full;
      [eexists; reflexivity|].
    apply Z.leb_gt in Full. destruct Why as [?|[?|?]]; [contradiction..|lia].
  - intros l A C S Room v.
    set (db' := write lobbies_container (lobbies db ++ [InviteDoc v]) db).
    exists db'. split; [|split; [reflexivity|split]].
    + unfold LobbyService.create_lobby_invite, bind. rewrite A.
      rewrite C, String.eqb_refl, S. simpl.
      destruct (Lobby.max_players l <=? Lobby.current_players l) eqn:Full;
        [apply Z.leb_le in Full; lia|].
      reflexivity.
    + apply lobby_at_first in A. destruct A as (rest & A).
      apply lobby_at_first. simpl lobbies. rewrite filter_app, A. simpl. eauto.
    + intros now' Live.
      destruct (listed_invites db' invitee_id now') as (listing & E & L).
      exists listing. split; [exact E|]. apply L. simpl.
      split; [apply in_or_app; right; now left|]. auto.
Qed.

Lemma create_lobby_invite_outcomes_witness :
  lobby_at db_duo "lobby-2"
           (Lobby.mk "lobby-2" "Duo" "creator-1" "dungeon-1" 2 1 true None
                     WAITING 1000 1000 None None "creator-1")
  /\ (exists msg,
         LobbyService.create_lobby_invite "lobby-2" "stranger" "friend-1"
                                          "invite-1" 2000 db_duo
         = (Raise (ValueError msg), db_duo))
  /\ exists db',
      LobbyService.create_lobby_invite "lobby-2" "creator-1" "friend-1"
                                       "invite-1" 2000 db_duo
      = (Return duo_invite, db')
      /\ exists listing,
          LobbyService.get_lobby_invites "friend-1" 2500 db'
          = (Return listing, db')
          /\ In duo_invite listing.
Proof.
  split; [reflexivity|].
  destruct (create_lobby_invite_outcomes db_duo "lobby-2" "stranger" "friend-1"
              "invite-1" 2000) as (_ & Refuse & _).
  destruct (create_lobby_invite_outcomes db_duo "lobby-2" "creator-1" "friend-1"
              "invite-1" 2000) as (_ & _ & Accept).
  split.
  - apply (Refuse _ eq_refl). left. discriminate.
  - destruct (Accept _ eq_refl eq_refl eq_refl) as (db' & E & _ & _ & L);
      [simpl; lia|].
    exists db'. split; [exact E|]. apply L. vm_compute. reflexivity.
Defined.

(** *** Invites: accepting and declining *)

(** The invite selected by [c.id = @inviteId AND c.invitee_id = @userId]. *)
Lemma select_invite (db : DatabaseService) (v : LobbyInvite.t) (user_id : string) :
  unique_ids (lobbies db) ->
  In (InviteDoc v) (lobbies db) ->
  exists l1 l2,
    lobbies db = l1 ++ InviteDoc v :: l2
    /\ (forall x, In x l1 -> doc_id x <> LobbyInvite.id v)
    /\ (forall x, In x l2 -> doc_id x <> LobbyInvite.id v)
    /\ filter (fun c => String.eqb (doc_id c) (LobbyInvite.id v)
                        && invite_where
                             (fun w => String.eqb (LobbyInvite.invitee_id w) user_id)
                             c)
              (lobbies db)
       = if String.eqb (LobbyInvite.invitee_id v) user_id
         then [InviteDoc v] else [].
Proof.
  intros U I. destruct (in_unique_split _ _ U I) as (l1 & l2 & E & N1 & N2).
  exists l1, l2. split; [exact E|]. split; [exact N1|]. split; [exact N2|].
  rewrite E.
  exact (filter_one_by_id
           (invite_where (fun w => String.eqb (LobbyInvite.invitee_id w) user_id))
           l1 l2 (InviteDoc v) N1 N2).
Qed.

Lemma no_invite_selected (db : DatabaseService) (invite_id user_id : string) :
  (forall v, In (InviteDoc v) (lobbies db) ->
             LobbyInvite.id v = invite_id ->
             LobbyInvite.invitee_id v <> user_id) ->
  filter (fun c => String.eqb (doc_id c) invite_id
                   && invite_where
                        (fun w => String.eqb (LobbyInvite.invitee_id w) user_id) c)
         (lobbies db)
  = [].
Proof.
  intros No. apply filter_nil_forall. intros [l|v] Hx; simpl.
  - apply andb_false_r.
  - destruct (String.eqb (LobbyInvite.id v) invite_id) eqn:Id; [|reflexivity].
    apply String.eqb_eq in Id. simpl. apply String.eqb_neq. now apply No.
Qed.

(** Writing the answer [b] on a stored invite. *)
Lemma flag_invite (db : DatabaseService) (v : LobbyInvite.t) (b : bool)
      (now : timestamp) (l1 l2 : list LobbiesItem) :
  lobbies db = l1 ++ InviteDoc v :: l2 ->
  (forall x, In x l1 -> doc_id x <> LobbyInvite.id v) ->
  LobbyInvite.partitionKey v = LobbyInvite.lobby_id v ->
  update_item lobbies_container (LobbyInvite.id v) (LobbyInvite.lobby_id v)
              (on_invite (LobbyInvite.with_is_accepted b)) now db
  = (Return (InviteDoc (on_update now (LobbyInvite.with_is_accepted b v))),
     write lobbies_container
           (l1 ++ InviteDoc (on_update now (LobbyInvite.with_is_accepted b v))
               :: l2) db).
Proof.
  intros E N1 K.
  rewrite (update_item_at lobbies_container db l1 l2 (InviteDoc v)
             (LobbyInvite.id v) (LobbyInvite.lobby_id v)
             (on_invite (LobbyInvite.with_is_accepted b)) now E).
  - reflexivity.
  - intros x Hx. unfold Container.addressed.
    apply N1, String.eqb_neq in Hx. now rewrite Hx.
  - apply addressed_true. simpl. auto.
  - simpl. exact K.
Qed.

(** An answered invite is in no pending listing. *)
Lemma answered_invite_unlisted (db' : DatabaseService) (v' : LobbyInvite.t)
      (b : bool) (user_id : string) (now' : timestamp) :
  (forall w, In (InviteDoc w) (lobbies db') ->
             LobbyInvite.id w = LobbyInvite.id v' -> w = v') ->
  LobbyInvite.is_accepted v' = Some b ->
  exists listing,
    LobbyService.get_lobby_invites user_id now' db' = (Return listing, db')
    /\ forall w, In w listing -> LobbyInvite.id w <> LobbyInvite.id v'.
Proof.
  intros Only Ans.
  destruct (listed_invites db' user_id now') as (listing & E & L).
  exists listing. split; [exact E|].
  intros w Hw Id. apply L in Hw. destruct Hw as (I & _ & Pending & _).
  rewrite (Only w I Id) in Pending. congruence.
Qed.

Lemma only_invite_with_its_id (l1 l2 : list LobbiesItem) (v' : LobbyInvite.t) :
  (forall x, In x l1 -> doc_id x <> LobbyInvite.id v') ->
  (forall x, In x l2 -> doc_id x <> LobbyInvite.id v') ->
  forall w, In (InviteDoc w) (l1 ++ InviteDoc v' :: l2) ->
            LobbyInvite.id w = LobbyInvite.id v' -> w = v'.
Proof.
  intros N1 N2 w Hw Id. apply in_app_or in Hw. destruct Hw as [Hw|[Hw|Hw]].
  - apply N1 in Hw. simpl in Hw. contradiction.
  - now injection Hw.
  - apply N2 in Hw. simpl in Hw. contradiction.
Qed.

(** X8.  [accept_lobby_invite] returns [False] and writes nothing when no
    invite with that identifier is addressed to the caller, and when the
    caller's invite has expired. *)
Theorem accept_lobby_invite_refuses_without_writing
        (db : DatabaseService) (invite_id user_id : string) (now : timestamp) :
  ((forall v, In (InviteDoc v) (lobbies db) ->
              LobbyInvite.id v = invite_id ->
              LobbyInvite.invitee_id v <> user_id) ->
   LobbyService.accept_lobby_invite invite_id user_id now db = (Return false, db))
  /\ (forall v,
         unique_ids (lobbies db) ->
         In (InviteDoc v) (lobbies db) ->
         LobbyInvite.id v = invite_id ->
         LobbyInvite.invitee_id v = user_id ->
         LobbyInvite.expires_at v < now ->
         LobbyService.accept_lobby_invite invite_id user_id now db
         = (Return false, db)).
Proof.
  split.
  - intros No.
    unfold LobbyService.accept_lobby_invite, bind, query_items,
      Container.query_items.
    change (read lobbies_container db) with (lobbies db).
    now rewrite (no_invite_selected db invite_id user_id No).
  - intros v U I <- Inv Late.
    destruct (select_invite db v user_id U I) as (l1 & l2 & _ & _ & _ & Sel).
    unfold LobbyService.accept_lobby_invite, bind, query_items,
      Container.query_items.
    change (read lobbies_container db) with (lobbies db).
    rewrite Sel, Inv, String.eqb_refl.
    apply Z.ltb_lt in Late. now rewrite Late.
Qed.

Lemma accept_lobby_invite_refuses_without_writing_witness :
  unique_ids (lobbies db_duo_invited)
  /\ In (InviteDoc duo_invite) (lobbies db_duo_invited)
  /\ LobbyInvite.expires_at duo_invite < 2000 + hours_24 + 1
  /\ LobbyService.accept_lobby_invite "invite-1" "friend-1"
                                      (2000 + hours_24 + 1) db_duo_invited
     = (Return false, db_duo_invited)
  /\ LobbyService.accept_lobby_invite "invite-1" "stranger" 2500 db_duo_invited
     = (Return false, db_duo_invited).
Proof.
  assert (U : unique_ids (lobbies db_duo_invited)).
  { unfold unique_ids. simpl. repeat constructor; simpl.
    - intros [E|[]]. discriminate E.
    - intros []. }
  assert (I : In (InviteDoc duo_invite) (lobbies db_duo_invited))
    by (right; left; reflexivity).
  assert (X : LobbyInvite.expires_at duo_invite < 2000 + hours_24 + 1)
    by (vm_compute; reflexivity).
  split; [exact U|]. split; [exact I|]. split; [exact X|]. split.
  - exact (proj2 (accept_lobby_invite_refuses_without_writing
                    db_duo_invited "invite-1" "friend-1" (2000 + hours_24 + 1))
                 duo_invite U I eq_refl eq_refl X).
  - apply (proj1 (accept_lobby_invite_refuses_without_writing
                    db_duo_invited "invite-1" "stranger" 2500)).
    intros v [E|[E|[]]] _; [discriminate E|].
    injection E as <-. discriminate.
Defined.

Lemma lobby_rewritten_invites (db db' : DatabaseService) (lobby_id : string)
      (l l' : Lobby.t) :
  lobby_rewritten db db' lobby_id l l' ->
  Lobby.id l' = Lobby.id l ->
  (forall w, In (InviteDoc w) (lobbies db') <-> In (InviteDoc w) (lobbies db))
  /\ (unique_ids (lobbies db) -> unique_ids (lobbies db')).
Proof.
  intros (l1 & l2 & E & _ & ->) Id. simpl lobbies. rewrite E. split.
  - intros w. rewrite !in_app_iff. simpl.
    split; intros [H|[H|H]]; auto; discriminate H.
  - apply unique_ids_replace. exact Id.
Qed.

(** A valid invite to a waiting lobby with a free seat and no password:
    the flag is written, then the join takes the seat. *)
Lemma accept_lobby_invite_run (db : DatabaseService) (v : LobbyInvite.t)
      (l : Lobby.t) (user_id : string) (now : timestamp) :
  unique_ids (lobbies db) ->
  In (InviteDoc v) (lobbies db) ->
  LobbyInvite.partitionKey v = LobbyInvite.lobby_id v ->
  LobbyInvite.invitee_id v = user_id ->
  now <= LobbyInvite.expires_at v ->
  lobbies_keyed db ->
  lobby_at db (LobbyInvite.lobby_id v) l ->
  Lobby.status l = WAITING ->
  Lobby.current_players l < Lobby.max_players l ->
  truthy (Lobby.password l) = false ->
  exists db',
    LobbyService.accept_lobby_invite (LobbyInvite.id v) user_id now db
    = (Return true, db')
    /\ lobby_at db' (LobbyInvite.lobby_id v)
         (on_update now
            (Lobby.with_current_players (Lobby.current_players l + 1) l))
    /\ In (InviteDoc (on_update now (LobbyInvite.with_is_accepted true v)))
          (lobbies db')
    /\ (forall w, In (InviteDoc w) (lobbies db') ->
                  LobbyInvite.id w = LobbyInvite.id v ->
                  w = on_update now (LobbyInvite.with_is_accepted true v))
    /\ unique_ids (lobbies db')
    /\ lobbies_keyed db'.
Proof.
  intros U I K Inv Exp Kl A S Room NoPw.
  destruct (select_invite db v user_id U I) as (l1 & l2 & E & N1 & N2 & Sel).
  set (v' := on_update now (LobbyInvite.with_is_accepted true v)).
  set (db1 := write lobbies_container (l1 ++ InviteDoc v' :: l2) db).
  assert (E1 : lobbies db1 = l1 ++ InviteDoc v' :: l2) by reflexivity.
  assert (A1 : lobby_at db1 (LobbyInvite.lobby_id v) l).
  { unfold lobby_at in *.
    pose proof (get_lobby_by_id_invite_rewritten
                  db db1 l1 l2 v v' (LobbyInvite.lobby_id v) E E1 eq_refl) as Same.
    pose proof (get_lobby_by_id_keeps_db db1 (LobbyInvite.lobby_id v)) as Keep.
    destruct (LobbyService.get_lobby_by_id (LobbyInvite.lobby_id v) db1)
      as [r d]. simpl in Same, Keep. rewrite A in Same. simpl in Same.
    now subst. }
  assert (K1 : lobbies_keyed db1).
  { intros x Hx. apply Kl. rewrite E1 in Hx. rewrite E.
    apply in_app_or in Hx. apply in_or_app.
    destruct Hx as [Hx|[Hx|Hx]]; [now left|discriminate Hx|right; now right]. }
  assert (U1 : unique_ids (lobbies db1)).
  { rewrite E1. rewrite E in U.
    now apply (unique_ids_replace l1 l2 (InviteDoc v) (InviteDoc v')). }
  destruct (join_lobby_effect db1 (LobbyInvite.lobby_id v) user_id None now l K1 A1)
    as [(Why & _)|(_ & _ & db2 & J & RW)].
  { exfalso. destruct Why as [W|[Full|[T _]]]; [contradiction|lia|congruence]. }
  destruct (lobby_at_In _ _ _ A1) as [_ Id].
  destruct (lobby_rewritten_at _ _ _ _ _ RW Id Id) as (A2 & _).
  destruct (lobby_rewritten_invites _ _ _ _ _ RW eq_refl) as (Inv2 & U2).
  exists db2. split; [|split; [exact A2|split; [|split; [|split]]]].
  - unfold LobbyService.accept_lobby_invite, bind, query_items,
      Container.query_items.
    change (read lobbies_container db) with (lobbies db).
    rewrite Sel, Inv, String.eqb_refl.
    destruct (LobbyInvite.expires_at v <? now) eqn:Late;
      [apply Z.ltb_lt in Late; lia|].
    unfold bind. rewrite (flag_invite db v true now l1 l2 E N1 K).
    exact J.
  - apply Inv2. rewrite E1. apply in_or_app. right. now left.
  - intros w Hw Id'. apply Inv2 in Hw. rewrite E1 in Hw.
    exact (only_invite_with_its_id l1 l2 v' N1 N2 w Hw Id').
  - exact (U2 U1).
  - exact (lobby_rewritten_keyed _ _ _ _ _ RW eq_refl eq_refl K1).
Qed.

(** X9.  A caller who accepts an own invite that has not expired, to a
    waiting lobby with a free seat and no password, gets [True]: the
    lobby has one player more, the invite is stored as accepted and is
    gone from the pending listing.  At the very instant of expiry the
    invite can still be accepted although the listing no longer shows
    it. *)
Theorem accept_lobby_invite_takes_a_seat
        (db : DatabaseService) (v : LobbyInvite.t) (l : Lobby.t)
        (user_id : string) (now : timestamp) :
  unique_ids (lobbies db) ->
  In (InviteDoc v) (lobbies db) ->
  LobbyInvite.partitionKey v = LobbyInvite.lobby_id v ->
  LobbyInvite.invitee_id v = user_id ->
  now <= LobbyInvite.expires_at v ->
  lobbies_keyed db ->
  lobby_at db (LobbyInvite.lobby_id v) l ->
  Lobby.status l = WAITING ->
  Lobby.current_players l < Lobby.max_players l ->
  truthy (Lobby.password l) = false ->
  (exists db',
      LobbyService.accept_lobby_invite (LobbyInvite.id v) user_id now db
      = (Return true, db')
      /\ (forall l', lobby_at db' (LobbyInvite.lobby_id v) l' ->
                     Lobby.current_players l' = Lobby.current_players l + 1)
      /\ (forall w, In (InviteDoc w) (lobbies db') ->
                    LobbyInvite.id w = LobbyInvite.id v ->
                    LobbyInvite.is_accepted w = Some true)
      /\ forall now',
          exists listing,
            LobbyService.get_lobby_invites user_id now' db'
            = (Return listing, db')
            /\ forall w, In w listing -> LobbyInvite.id w <> LobbyInvite.id v)
  /\ (LobbyInvite.expires_at v = now ->
      exists listing,
        LobbyService.get_lobby_invites user_id now db = (Return listing, db)
        /\ ~ In v listing).
Proof.
  intros U I K Inv Exp Kl A S Room NoPw. split.
  - destruct (accept_lobby_invite_run db v l user_id now
                U I K Inv Exp Kl A S Room NoPw)
      as (db' & E & A' & _ & Only & _).
    exists db'. split; [exact E|]. split; [|split].
    + intros l' A''. now rewrite (lobby_at_unique _ _ _ _ A'' A').
    + intros w Hw Id. now rewrite (Only w Hw Id).
    + intros now'.
      exact (answered_invite_unlisted db'
               (on_update now (LobbyInvite.with_is_accepted true v)) true
               user_id now' Only eq_refl).
  - intros Edge. destruct (listed_invites db user_id now) as (listing & E & L).
    exists listing. split; [exact E|]. intros Hv. apply L in Hv. lia.
Qed.

Lemma accept_lobby_invite_takes_a_seat_witness :
  unique_ids (lobbies db_duo_invited)
  /\ In (InviteDoc duo_invite) (lobbies db_duo_invited)
  /\ lobbies_keyed db_duo_invited
  /\ exists db',
      LobbyService.accept_lobby_invite "invite-1" "friend-1" (2000 + hours_24)
                                       db_duo_invited
      = (Return true, db')
      /\ forall l', lobby_at db' "lobby-2" l' -> Lobby.current_players l' = 2.
Proof.
  assert (U : unique_ids (lobbies db_duo_invited)).
  { unfold unique_ids. simpl. repeat constructor; simpl.
    - intros [E|[]]. discriminate E.
    - intros []. }
  assert (I : In (InviteDoc duo_invite) (lobbies db_duo_invited))
    by (right; left; reflexivity).
  assert (K : lobbies_keyed db_duo_invited).
  { intros l [E|[E|[]]]; [injection E as <-; reflexivity|discriminate E]. }
  split; [exact U|]. split; [exact I|]. split; [exact K|].
  destruct (accept_lobby_invite_takes_a_seat
              db_duo_invited duo_invite
              (Lobby.mk "lobby-2" "Duo" "creator-1" "dungeon-1" 2 1 true None
                        WAITING 1000 1000 None None "creator-1")
              "friend-1" (2000 + hours_24) U I eq_refl eq_refl
              (Z.le_refl _) K eq_refl eq_refl eq_refl eq_refl)
    as [(db' & E & Seat & _) _].
  exists db'. split; [exact E|exact Seat].
Defined.

(** X10.  [decline_lobby_invite] returns [False], writing nothing, when no
    invite with that identifier is addressed to the caller.  On the
    caller's own invite it returns [True] whatever the expiry and whatever
    answer the invite already carries: the invite is stored as declined,
    leaves the pending listing, and no lobby changes. *)
Theorem decline_lobby_invite_outcomes
        (db : DatabaseService) (invite_id user_id : string) (now : timestamp) :
  ((forall v, In (InviteDoc v) (lobbies db) ->
              LobbyInvite.id v = invite_id ->
              LobbyInvite.invitee_id v <> user_id) ->
   LobbyService.decline_lobby_invite invite_id user_id now db
   = (Return false, db))
  /\ (forall v,
         unique_ids (lobbies db) ->
         In (InviteDoc v) (lobbies db) ->
         LobbyInvite.id v = invite_id ->
         LobbyInvite.partitionKey v = LobbyInvite.lobby_id v ->
         LobbyInvite.invitee_id v = user_id ->
         exists db',
           LobbyService.decline_lobby_invite invite_id user_id now db
           = (Return true, db')
           /\ (forall w, In (InviteDoc w) (lobbies db') ->
                         LobbyInvite.id w = invite_id ->
                         LobbyInvite.is_accepted w = Some false)
           /\ (forall now',
                  exists listing,
                    LobbyService.get_lobby_invites user_id now' db'
                    = (Return listing, db')
                    /\ forall w, In w listing -> LobbyInvite.id w <> invite_id)
           /\ forall lobby_id,
               fst (LobbyService.get_lobby_by_id lobby_id db')
               = fst (LobbyService.get_lobby_by_id lobby_id db)).
Proof.
  split.
  - intros No.
    unfold LobbyService.decline_lobby_invite, bind, query_items,
      Container.query_items.
    change (read lobbies_container db) with (lobbies db).
    now rewrite (no_invite_selected db invite_id user_id No).
  - intros v U I <- K Inv.
    destruct (select_invite db v user_id U I) as (l1 & l2 & E & N1 & N2 & Sel).
    set (v' := on_update now (LobbyInvite.with_is_accepted false v)).
    set (db' := write lobbies_container (l1 ++ InviteDoc v' :: l2) db).
    assert (Only : forall w, In (InviteDoc w) (lobbies db') ->
                             LobbyInvite.id w = LobbyInvite.id v' -> w = v')
      by exact (only_invite_with_its_id l1 l2 v' N1 N2).
    exists db'. split; [|split; [|split]].
    + unfold LobbyService.decline_lobby_invite, bind, query_items,
        Container.query_items.
      change (read lobbies_container db) with (lobbies db).
      rewrite Sel, Inv, String.eqb_refl.
      unfold bind. now rewrite (flag_invite db v false now l1 l2 E N1 K).
    + intros w Hw Id. now rewrite (Only w Hw Id).
    + intros now'.
      exact (answered_invite_unlisted db' v' false user_id now' Only eq_refl).
    + intros lobby_id.
      exact (get_lobby_by_id_invite_rewritten db db' l1 l2 v v' lobby_id
               E eq_refl eq_refl).
Qed.

Lemma decline_lobby_invite_outcomes_witness :
  unique_ids (lobbies db_duo_invited)
  /\ In (InviteDoc duo_invite) (lobbies db_duo_invited)
  /\ LobbyService.decline_lobby_invite "invite-1" "stranger" 2500 db_duo_invited
     = (Return false, db_duo_invited)
  /\ exists db',
      LobbyService.decline_lobby_invite "invite-1" "friend-1" 2500 db_duo_invited
      = (Return true, db').
Proof.
  assert (U : unique_ids (lobbies db_duo_invited)).
  { unfold unique_ids. simpl. repeat constructor; simpl.
    - intros [E|[]]. discriminate E.
    - intros []. }
  assert (I : In (InviteDoc duo_invite) (lobbies db_duo_invited))
    by (right; left; reflexivity).
  split; [exact U|]. split; [exact I|]. split.
  - apply (proj1 (decline_lobby_invite_outcomes
                    db_duo_invited "invite-1" "stranger" 2500)).
    intros v [E|[E|[]]] _; [discriminate E|].
    injection E as <-. discriminate.
  - destruct (proj2 (decline_lobby_invite_outcomes
                       db_duo_invited "invite-1" "friend-1" 2500)
                    duo_invite U I eq_refl eq_refl eq_refl)
      as (db' & E & _).
    eauto.
Defined.

(** X11.  Declining an invite after having accepted it frees no seat: the
    decline returns [True] and the invite is stored as declined, while the
    lobby keeps the player count the acceptance gave it. *)
Theorem decline_after_accept_keeps_the_seat
        (db : DatabaseService) (v : LobbyInvite.t) (l : Lobby.t)
        (user_id : string) (now later : timestamp) :
  unique_ids (lobbies db) ->
  In (InviteDoc v) (lobbies db) ->
  LobbyInvite.partitionKey v = LobbyInvite.lobby_id v ->
  LobbyInvite.invitee_id v = user_id ->
  now <= LobbyInvite.expires_at v ->
  lobbies_keyed db ->
  lobby_at db (LobbyInvite.lobby_id v) l ->
  Lobby.status l = WAITING ->
  Lobby.current_players l < Lobby.max_players l ->
  truthy (Lobby.password l) = false ->
  exists db1 db2,
    LobbyService.accept_lobby_invite (LobbyInvite.id v) user_id now db
    = (Return true, db1)
    /\ LobbyService.decline_lobby_invite (LobbyInvite.id v) user_id later db1
       = (Return true, db2)
    /\ (forall w, In (InviteDoc w) (lobbies db2) ->
                  LobbyInvite.id w = LobbyInvite.id v ->
                  LobbyInvite.is_accepted w = Some false)
    /\ forall l', lobby_at db2 (LobbyInvite.lobby_id v) l' ->
                  Lobby.current_players l' = Lobby.current_players l + 1.
Proof.
  intros U I K Inv Exp Kl A S Room NoPw.
  destruct (accept_lobby_invite_run db v l user_id now
              U I K Inv Exp Kl A S Room NoPw)
    as (db1 & E & A1 & I1 & _ & U1 & _).
  set (v1 := on_update now (LobbyInvite.with_is_accepted true v)) in *.
  destruct (select_invite db1 v1 user_id U1 I1) as (l1 & l2 & E1 & N1 & N2 & Sel).
  set (v2 := on_update later (LobbyInvite.with_is_accepted false v1)).
  set (db2 := write lobbies_container (l1 ++ InviteDoc v2 :: l2) db1).
  exists db1, db2. split; [exact E|]. split; [|split].
  - unfold LobbyService.decline_lobby_invite, bind, query_items,
      Container.query_items.
    change (read lobbies_container db1) with (lobbies db1).
    change (LobbyInvite.id v) with (LobbyInvite.id v1).
    rewrite Sel. change (LobbyInvite.invitee_id v1) with (LobbyInvite.invitee_id v).
    rewrite Inv, String.eqb_refl.
    unfold bind.
    now rewrite (flag_invite db1 v1 false later l1 l2 E1 N1 K).
  - intros w Hw Id.
    now rewrite (only_invite_with_its_id l1 l2 v2 N1 N2 w Hw Id).
  - intros l' A2.
    pose proof (get_lobby_by_id_invite_rewritten db1 db2 l1 l2 v1 v2
                  (LobbyInvite.lobby_id v) E1 eq_refl eq_refl) as Same.
    unfold lobby_at in A1, A2. rewrite A1, A2 in Same. simpl in Same.
    injection Same as ->. reflexivity.
Qed.

Lemma decline_after_accept_keeps_the_seat_witness :
  unique_ids (lobbies db_duo_invited)
  /\ In (InviteDoc duo_invite) (lobbies db_duo_invited)
  /\ lobbies_keyed db_duo_invited
  /\ exists db1 db2,
      LobbyService.accept_lobby_invite "invite-1" "friend-1" 2500 db_duo_invited
      = (Return true, db1)
      /\ LobbyService.decline_lobby_invite "invite-1" "friend-1" 2600 db1
         = (Return true, db2)
      /\ forall l', lobby_at db2 "lobby-2" l' -> Lobby.current_players l' = 2.
Proof.
  assert (U : unique_ids (lobbies db_duo_invited)).
  { unfold unique_ids. simpl. repeat constructor; simpl.
    - intros [E|[]]. discriminate E.
    - intros []. }
  assert (I : In (InviteDoc duo_invite) (lobbies db_duo_invited))
    by (right; left; reflexivity).
  assert (K : lobbies_keyed db_duo_invited).
  { intros l [E|[E|[]]]; [injection E as <-; reflexivity|discriminate E]. }
  split; [exact U|]. split; [exact I|]. split; [exact K|].
  destruct (decline_after_accept_keeps_the_seat
              db_duo_invited duo_invite
              (Lobby.mk "lobby-2" "Duo" "creator-1" "dungeon-1" 2 1 true None
                        WAITING 1000 1000 None None "creator-1")
              "friend-1" 2500 2600 U I eq_refl eq_refl
              ltac:(vm_compute; discriminate) K eq_refl eq_refl eq_refl
              eq_refl)
    as (db1 & db2 & E1 & E2 & _ & Seat).
  exists db1, db2. split; [exact E1|]. split; [exact E2|exact Seat].
Defined.

(** *** Friendships: one row per pair *)

Section StoreFacts.
Context {D : Type} `{Document D}.

Lemma unique_ids_same (c : list D) (x y : D) :
  unique_ids c -> In x c -> In y c -> doc_id x = doc_id y -> x = y.
Proof.
  intros U Ix Iy E.
  destruct (in_unique_split c x U Ix) as (l1 & l2 & -> & N1 & N2).
  apply in_app_or in Iy. destruct Iy as [Iy|[Iy|Iy]].
  - apply N1 in Iy. congruence.
  - exact Iy.
  - apply N2 in Iy. congruence.
Qed.

(** A point read or a delete through another partition than the
    document's misses it. *)
Lemma other_partition_unaddressed (c : list D) (d : D) (pk : string) :
  unique_ids c -> In d c -> doc_partition_key d <> pk ->
  forall x, In x c -> Container.addressed (doc_id d) pk x = false.
Proof.
  intros U I Ne x Ix.
  destruct (Container.addressed (doc_id d) pk x) eqn:A; [|reflexivity].
  apply addressed_true in A. destruct A as [Id Pk].
  rewrite (unique_ids_same c x d U Ix I Id) in Pk. contradiction.
Qed.

Lemma read_item_unaddressed (c : list D) (i pk : string) :
  (forall x, In x c -> Container.addressed i pk x = false) ->
  Container.read_item c i pk = None.
Proof.
  intros N. unfold Container.read_item.
  destruct (find (Container.addressed i pk) c) as [d|] eqn:F; [|reflexivity].
  apply find_some in F. destruct F as [I A]. rewrite (N d I) in A.
  discriminate A.
Qed.

Lemma delete_item_cases (c : list D) (i pk : string) :
  (Container.delete_item c i pk = None
   /\ forall x, In x c -> Container.addressed i pk x = false)
  \/ exists l1 d l2,
      c = l1 ++ d :: l2
      /\ (forall x, In x l1 -> Container.addressed i pk x = false)
      /\ Container.addressed i pk d = true
      /\ Container.delete_item c i pk = Some (l1 ++ l2).
Proof.
  induction c as [|x c IH]; simpl.
  - left. split; [reflexivity|intros x []].
  - destruct (Container.addressed i pk x) eqn:A.
    + right. exists [], x, c. simpl. intuition.
    + destruct IH as [(E & N)|(l1 & d & l2 & -> & N & Ad & E)]; rewrite E.
      * left. split; [reflexivity|]. intros y [<-|Hy]; auto.
      * right. exists (x :: l1), d, l2. simpl. intuition. now subst.
Qed.

Lemma update_item_cases (c : container D) (db : DatabaseService)
      (i pk : string) (updates : D -> D) (now : timestamp) :
  (forall d, doc_partition_key (on_update now (updates d))
             = doc_partition_key d) ->
  (Container.read_item (read c db) i pk = None
   /\ update_item c i pk updates now db
      = (Raise (ValueError (not_found_message i)), db))
  \/ exists l1 d l2,
      read c db = l1 ++ d :: l2
      /\ (forall x, In x l1 -> Container.addressed i pk x = false)
      /\ Container.addressed i pk d = true
      /\ update_item c i pk updates now db
         = (Return (on_update now (updates d)),
            write c (l1 ++ on_update now (updates d) :: l2) db).
Proof.
  intros K.
  destruct (Container.read_item (read c db) i pk) as [d|] eqn:R.
  - right. destruct (read_item_split _ _ _ _ R) as (l1 & l2 & E & N & A).
    exists l1, d, l2. split; [exact E|]. split; [exact N|]. split; [exact A|].
    apply update_item_at; auto.
    rewrite K. now apply addressed_true in A.
  - left. split; [reflexivity|].
    unfold update_item, bind, get_item, raise. now rewrite R.
Qed.
End StoreFacts.

Lemma snd_then_ret {A B : Type} (m : M A) (b : B) (db : DatabaseService) :
  snd ((_ <- m ;; ret b) db) = snd (m db).
Proof. unfold bind, ret. now destruct (m db) as [[a|e] d]. Qed.

Lemma linked_true (a b : string) (f : Friendship.t) :
  linked a b f = true <->
  (Friendship.requester_id f = a /\ Friendship.addressee_id f = b)
  \/ (Friendship.requester_id f = b /\ Friendship.addressee_id f = a).
Proof.
  unfold linked. now rewrite orb_true_iff, !directed_true.
Qed.

Lemma linked_sym (a b : string) (f : Friendship.t) :
  linked a b f = linked b a f.
Proof. unfold linked. apply orb_comm. Qed.

Lemma unlinked_filters (c : list Friendship.t) (a b : string) :
  filter (FriendshipService.directed a b) c = [] ->
  filter (FriendshipService.directed b a) c = [] ->
  filter (linked a b) c = [].
Proof.
  rewrite !filter_nil_forall. intros Fab Fba x Hx. unfold linked.
  now rewrite (Fab x Hx), (Fba x Hx).
Qed.

Lemma linked_filters (c : list Friendship.t) (a b : string) :
  filter (linked a b) c = [] ->
  filter (FriendshipService.directed a b) c = []
  /\ filter (FriendshipService.directed b a) c = [].
Proof.
  rewrite !filter_nil_forall. intros L.
  split; intros x Hx; specialize (L x Hx); unfold linked in L;
    apply orb_false_iff in L; tauto.
Qed.

(** The row [_get_friendship] returns is a stored row that links the two
    users. *)
Lemma found_row_linked (db : DatabaseService) (a b : string) (f : Friendship.t) :
  FriendshipService._get_friendship a b db = (Return (Some f), db) ->
  In f (friendships db) /\ linked a b f = true.
Proof.
  rewrite _get_friendship_first. intros E. injection E as E. unfold linked.
  destruct (filter (FriendshipService.directed a b) (friendships db))
    as [|g gs] eqn:Fab.
  - destruct (filter (FriendshipService.directed b a) (friendships db))
      as [|g gs] eqn:Fba; [discriminate E|].
    injection E as ->.
    assert (I : In f (filter (FriendshipService.directed b a) (friendships db)))
      by (rewrite Fba; now left).
    apply filter_In in I. destruct I as [I Dr]. rewrite Dr.
    split; [exact I|apply orb_true_r].
  - injection E as ->.
    assert (I : In f (filter (FriendshipService.directed a b) (friendships db)))
      by (rewrite Fab; now left).
    apply filter_In in I. destruct I as [I Dr]. now rewrite Dr.
Qed.

Lemma one_row_same (db : DatabaseService) (a b : string) (f g : Friendship.t) :
  one_row_per_pair db ->
  In f (friendships db) -> linked a b f = true ->
  In g (friendships db) -> linked a b g = true ->
  g = f.
Proof.
  intros One If Lf Ig Lg. specialize (One a b).
  assert (Ff : In f (filter (linked a b) (friendships db)))
    by (apply filter_In; auto).
  assert (Fg : In g (filter (linked a b) (friendships db)))
    by (apply filter_In; auto).
  destruct (filter (linked a b) (friendships db)) as [|x [|y rest]].
  - destruct Ff.
  - destruct Ff as [<-|[]]. destruct Fg as [<-|[]]. reflexivity.
  - simpl in One. lia.
Qed.

(** With one row per pair, [_get_friendship] finds the row of the pair
    whichever user is named first. *)
Lemma the_row_found (db : DatabaseService) (a b : string) (f : Friendship.t) :
  one_row_per_pair db ->
  In f (friendships db) -> linked a b f = true ->
  FriendshipService._get_friendship a b db = (Return (Some f), db).
Proof.
  intros One I L.
  destruct (FriendshipService._get_friendship a b db) as [[[g|]|e] db0] eqn:G;
    pose proof G as G'; rewrite _get_friendship_first in G';
    injection G' as G' <-.
  - destruct (found_row_linked db a b g G) as [Ig Lg].
    now rewrite (one_row_same db a b f g One I L Ig Lg).
  - exfalso.
    destruct (unrelated_not_found db a b G) as [Fab Fba].
    pose proof (unlinked_filters _ a b Fab Fba) as N.
    rewrite filter_nil_forall in N. rewrite (N f I) in L. discriminate L.
  - discriminate G'.
Qed.

Lemma no_row_found (db : DatabaseService) (a b : string) :
  filter (linked a b) (friendships db) = [] ->
  FriendshipService._get_friendship a b db = (Return None, db).
Proof.
  intros N. destruct (linked_filters _ a b N) as [Fab Fba].
  now rewrite _get_friendship_first, Fab, Fba.
Qed.

Lemma update_status_step (db : DatabaseService) (i pk : string)
      (s : FriendshipStatus) (now : timestamp) :
  friendship_step
    (friendships db)
    (friendships
       (snd (update_item friendships_container i pk (Friendship.with_status s)
                         now db))).
Proof.
  assert (K : forall d : Friendship.t,
             doc_partition_key (on_update now (Friendship.with_status s d))
             = doc_partition_key d) by reflexivity.
  destruct (update_item_cases friendships_container db i pk
              (Friendship.with_status s) now K)
    as [(_ & E)|(l1 & d & l2 & R & _ & _ & E)]; rewrite E.
  - now left.
  - right. left. exists l1, d, l2, s, now. split; [exact R|reflexivity].
Qed.

Lemma delete_step (db : DatabaseService) (i pk : string) :
  friendship_step
    (friendships db)
    (friendships (snd (delete_item friendships_container i pk db))).
Proof.
  unfold delete_item.
  destruct (delete_item_cases (read friendships_container db) i pk)
    as [(E & _)|(l1 & d & l2 & R & _ & _ & E)]; rewrite E.
  - now left.
  - right. right. right. exists l1, d, l2. split; [exact R|reflexivity].
Qed.

(** Every call of the service is one of the four steps. *)
Lemma friendship_call_step (c : friendship_call) (now : timestamp)
      (db : DatabaseService) :
  friendship_step (friendships db) (friendships (run_friendship_call c now db)).
Proof.
  destruct c as [a b uuid|b a|b a|a b uuid|a b|a b]; simpl run_friendship_call.
  - destruct (send_friend_request_cases db a b uuid now)
      as [(msg & E & _)|(Ne & Fab & Fba & E)]; rewrite E; [now left|].
    right. right. left.
    exists (Friendship.mk uuid a b PENDING now now a).
    split; [reflexivity|]. split; [|split; [exact Ne|reflexivity]].
    now apply unlinked_filters.
  - unfold FriendshipService.accept_friend_request, bind at 1.
    rewrite _get_friendship_first.
    match goal with
    | |- context [match ?m with | Some f => @?k f | None => _ end] =>
      destruct m as [f|]; [|now left]
    end.
    destruct (negb _); [now left|].
    rewrite snd_then_ret. apply update_status_step.
  - unfold FriendshipService.reject_friend_request, bind at 1.
    rewrite _get_friendship_first.
    match goal with
    | |- context [match ?m with | Some f => @?k f | None => _ end] =>
      destruct m as [f|]; [|now left]
    end.
    destruct (negb _); [now left|].
    rewrite snd_then_ret. apply update_status_step.
  - unfold FriendshipService.block_user.
    destruct (String.eqb a b) eqn:Self; [now left|].
    unfold bind.
    destruct (FriendshipService._get_friendship a b db) as [[[f|]|e] db0] eqn:G;
      pose proof G as G'; rewrite _get_friendship_first in G';
      injection G' as G' <-.
    + apply update_status_step.
    + destruct (unrelated_not_found db a b G) as [Fab Fba].
      right. right. left.
      exists (Friendship.mk uuid a b BLOCKED now now a).
      split; [reflexivity|]. split; [now apply unlinked_filters|].
      split; [now apply String.eqb_neq|reflexivity].
    + discriminate G'.
  - unfold FriendshipService.unblock_user, bind.
    rewrite _get_friendship_first.
    match goal with
    | |- context [match ?m with | Some f => @?k f | None => _ end] =>
      destruct m as [f|]; [|now left]
    end.
    destruct (negb _); [now left|]. apply delete_step.
  - unfold FriendshipService.remove_friend, bind.
    rewrite _get_friendship_first.
    match goal with
    | |- context [match ?m with | Some f => @?k f | None => _ end] =>
      destruct m as [f|]; [|now left]
    end.
    destruct (negb _); [now left|]. apply delete_step.
Qed.

Lemma friendship_step_one_row (db db' : DatabaseService) :
  friendship_step (friendships db) (friendships db') ->
  one_row_per_pair db -> one_row_per_pair db'.
Proof.
  unfold one_row_per_pair.
  intros [E|[(l1 & f & l2 & s & now & E & E')
            |[(f & E' & N & _)|(l1 & f & l2 & E & E')]]] One a b;
    specialize (One a b).
  - now rewrite E.
  - rewrite E in One. rewrite E'. rewrite filter_app, length_app in *.
    cbn [filter] in *.
    change (linked a b (on_update now (Friendship.with_status s f)))
      with (linked a b f).
    destruct (linked a b f); simpl in *; lia.
  - rewrite E', filter_app, length_app. cbn [filter].
    destruct (linked a b f) eqn:L; [|simpl; lia].
    assert (Z0 : filter (linked a b) (friendships db) = []).
    { rewrite filter_nil_forall in *. intros x Hx. specialize (N x Hx).
      apply linked_true in L. destruct L as [[<- <-]|[<- <-]];
        [exact N|now rewrite linked_sym]. }
    rewrite Z0. simpl. lia.
  - rewrite E in One. rewrite E'. rewrite filter_app, length_app in *.
    cbn [filter] in One. destruct (linked a b f); simpl in One; lia.
Qed.

Lemma friendship_step_rows (c c' : list Friendship.t) :
  friendship_step c c' ->
  forall x, In x c' ->
    (exists y, In y c
               /\ Friendship.requester_id x = Friendship.requester_id y
               /\ Friendship.addressee_id x = Friendship.addressee_id y
               /\ Friendship.partitionKey x = Friendship.partitionKey y)
    \/ (Friendship.requester_id x <> Friendship.addressee_id x
        /\ Friendship.partitionKey x = Friendship.requester_id x).
Proof.
  intros [->|[(l1 & f & l2 & s & now & -> & ->)
             |[(f & -> & _ & Ne & K)|(l1 & f & l2 & -> & ->)]]] x Hx.
  - left. exists x. auto.
  - left. apply in_app_or in Hx. destruct Hx as [Hx|[<-|Hx]].
    + exists x. split; [apply in_or_app; now left|auto].
    + exists f. split; [apply in_or_app; right; now left|auto].
    + exists x. split; [apply in_or_app; right; now right|auto].
  - apply in_app_or in Hx. destruct Hx as [Hx|[<-|[]]].
    + left. exists x. auto.
    + right. auto.
  - left. exists x. split; [|auto].
    apply in_app_or in Hx. apply in_or_app.
    destruct Hx; [now left|right; now right].
Qed.

(** X12.  Whatever sequence of friend requests, answers, blocks, unblocks
    and removals is made, by whomever, the store keeps at most one row per
    pair of users, every row stays in the partition of its requester, and
    no row links a user to themself. *)
Theorem friendship_calls_keep_one_row_per_pair
        (calls : list (friendship_call * timestamp)) (db : DatabaseService) :
  one_row_per_pair db ->
  friendships_keyed db ->
  no_self_row db ->
  one_row_per_pair (run_friendship_calls calls db)
  /\ friendships_keyed (run_friendship_calls calls db)
  /\ no_self_row (run_friendship_calls calls db).
Proof.
  revert db. induction calls as [|[c now] calls IH]; intros db One K NS.
  - simpl. auto.
  - simpl run_friendship_calls.
    pose proof (friendship_call_step c now db) as Step.
    apply IH.
    + exact (friendship_step_one_row _ _ Step One).
    + intros x Hx.
      destruct (friendship_step_rows _ _ Step x Hx)
        as [(y & Hy & R & _ & P)|[_ P]]; [|exact P].
      rewrite R, P. now apply K.
    + intros x Hx.
      destruct (friendship_step_rows _ _ Step x Hx)
        as [(y & Hy & R & A & _)|[Ne _]]; [|exact Ne].
      rewrite R, A. now apply NS.
Qed.

Lemma friendship_calls_keep_one_row_per_pair_witness :
  one_row_per_pair empty_db
  /\ friendships_keyed empty_db
  /\ no_self_row empty_db
  /\ one_row_per_pair
       (run_friendship_calls
          [(SendRequest "alice" "bob" "friendship-1", 1000);
           (Block "bob" "alice" "friendship-2", 1100);
           (SendRequest "bob" "alice" "friendship-3", 1200);
           (AcceptRequest "bob" "alice", 1300);
           (RemoveFriend "bob" "alice", 1400);
           (Block "alice" "carol" "friendship-4", 1500);
           (Unblock "alice" "carol", 1600)]
          empty_db).
Proof.
  assert (One : one_row_per_pair empty_db) by (intros a b; simpl; lia).
  assert (K : friendships_keyed empty_db) by intros f [].
  assert (NS : no_self_row empty_db) by intros f [].
  split; [exact One|]. split; [exact K|]. split; [exact NS|].
  exact (proj1 (friendship_calls_keep_one_row_per_pair _ empty_db One K NS)).
Defined.

Lemma _get_friendship_sym (db : DatabaseService) (a b : string) :
  one_row_per_pair db ->
  FriendshipService._get_friendship a b db
  = FriendshipService._get_friendship b a db.
Proof.
  intros One.
  destruct (FriendshipService._get_friendship a b db) as [[[f|]|e] db0] eqn:G;
    pose proof G as G'; rewrite _get_friendship_first in G';
    injection G' as G' <-.
  - destruct (found_row_linked db a b f G) as [I L].
    rewrite linked_sym in L. symmetry. now apply the_row_found.
  - destruct (unrelated_not_found db a b G) as [Fab Fba].
    now rewrite _get_friendship_first, Fab, Fba.
  - discriminate G'.
Qed.

Lemma related_linked (db : DatabaseService) (a b : string) :
  related db a b <->
  exists f, In f (friendships db) /\ linked a b f = true.
Proof.
  unfold related. split; intros (f & I & L); exists f; split; auto;
    now apply linked_true.
Qed.

(** Who [get_friends] lists. *)
Lemma get_friends_listing (db : DatabaseService) (a : string) :
  exists l,
    FriendshipService.get_friends a db = (Return l, db)
    /\ forall b,
        In b l <->
        exists f, In f (friendships db)
                  /\ Friendship.status f = ACCEPTED
                  /\ linked a b f = true.
Proof.
  eexists. split; [reflexivity|]. intros b.
  change (read friendships_container db) with (friendships db).
  unfold Container.query_items. rewrite in_map_iff. split.
  - intros (f & Sel & I). exists f.
    apply in_app_or in I.
    destruct I as [I|I]; apply filter_In in I; destruct I as [I P];
      apply andb_true_iff in P; destruct P as [P S];
      apply String.eqb_eq in P; apply FriendshipStatus_eqb_eq in S;
      (split; [exact I|split; [exact S|]]); apply linked_true.
    + rewrite P, String.eqb_refl in Sel. auto.
    + destruct (String.eqb (Friendship.requester_id f) a) eqn:R.
      * apply String.eqb_eq in R. left. split; congruence.
      * right. auto.
  - intros (f & I & S & L). exists f.
    apply FriendshipStatus_eqb_eq in S.
    apply linked_true in L. destruct L as [[R A]|[R A]].
    + split; [now rewrite R, String.eqb_refl|].
      apply in_or_app. left. apply filter_In. split; [exact I|].
      now rewrite R, String.eqb_refl, S.
    + split.
      * destruct (String.eqb (Friendship.requester_id f) a) eqn:Ra; [|exact R].
        apply String.eqb_eq in Ra. congruence.
      * apply in_or_app. right. apply filter_In. split; [exact I|].
        now rewrite A, String.eqb_refl, S.
Qed.

(** X13.  With one row per pair, friendship reads do not depend on who is
    named first: [are_friends] and [is_blocked] give the same answer for
    (a, b) and (b, a) (so [is_blocked] does not tell who blocked whom),
    and [get_friends(a)] lists b exactly when [are_friends(a, b)]. *)
Theorem friendship_reads_are_symmetric
        (db : DatabaseService) (a b : string) :
  one_row_per_pair db ->
  FriendshipService.are_friends a b db = FriendshipService.are_friends b a db
  /\ FriendshipService.is_blocked a b db = FriendshipService.is_blocked b a db
  /\ exists l,
      FriendshipService.get_friends a db = (Return l, db)
      /\ (In b l <->
          FriendshipService.are_friends a b db = (Return true, db)).
Proof.
  intros One. split; [|split].
  - unfold FriendshipService.are_friends, bind.
    now rewrite (_get_friendship_sym db a b One).
  - unfold FriendshipService.is_blocked, bind.
    now rewrite (_get_friendship_sym db a b One).
  - destruct (get_friends_listing db a) as (l & E & L).
    exists l. split; [exact E|]. rewrite L. split.
    + intros (f & I & S & Lk).
      unfold FriendshipService.are_friends, bind.
      rewrite (the_row_found db a b f One I Lk). unfold ret.
      now rewrite S.
    + unfold FriendshipService.are_friends, bind.
      destruct (FriendshipService._get_friendship a b db)
        as [[[f|]|e] db0] eqn:G;
        pose proof G as G'; rewrite _get_friendship_first in G';
        injection G' as G' <-; unfold ret; intros R;
        [|discriminate R|discriminate R].
      destruct (found_row_linked db a b f G) as [I Lk].
      exists f. split; [exact I|]. split; [|exact Lk].
      apply FriendshipStatus_eqb_eq. congruence.
Qed.

Lemma friendship_reads_are_symmetric_witness :
  one_row_per_pair db_friends
  /\ FriendshipService.are_friends "alice" "bob" db_friends
     = FriendshipService.are_friends "bob" "alice" db_friends
  /\ exists l,
      FriendshipService.get_friends "bob" db_friends = (Return l, db_friends)
      /\ In "alice"%string l.
Proof.
  assert (One : one_row_per_pair db_friends).
  { intros a b. change (friendships db_friends) with [alice_and_bob].
    cbn [filter]. destruct (linked a b alice_and_bob); simpl; lia. }
  split; [exact One|].
  split.
  - exact (proj1 (friendship_reads_are_symmetric db_friends "alice" "bob" One)).
  - destruct (friendship_reads_are_symmetric db_friends "bob" "alice" One)
      as (_ & _ & l & E & L).
    exists l. split; [exact E|]. now apply L.
Defined.

(** *** Friendships: the partition of a row *)

Section DeleteFacts.
Context {D : Type} `{Document D}.

Lemma delete_item_unaddressed (c : list D) (i pk : string) :
  (forall x, In x c -> Container.addressed i pk x = false) ->
  Container.delete_item c i pk = None.
Proof.
  intros N.
  destruct (delete_item_cases c i pk)
    as [(E & _)|(l1 & d & l2 & -> & _ & A & _)]; [exact E|].
  rewrite (N d) in A; [discriminate A|]. apply in_or_app. right. now left.
Qed.

Lemma delete_item_app (l1 l2 : list D) (d : D) (i pk : string) :
  (forall x, In x l1 -> Container.addressed i pk x = false) ->
  Container.addressed i pk d = true ->
  Container.delete_item (l1 ++ d :: l2) i pk = Some (l1 ++ l2).
Proof.
  intros N A. induction l1 as [|x l1 IH]; simpl.
  - now rewrite A.
  - rewrite (N x (or_introl eq_refl)), IH; [reflexivity|].
    intros y Hy. apply N. now right.
Qed.

Lemma unaddressed_by_id (l : list D) (i pk : string) :
  (forall x, In x l -> doc_id x <> i) ->
  forall x, In x l -> Container.addressed i pk x = false.
Proof.
  intros N x Hx. unfold Container.addressed.
  apply N, String.eqb_neq in Hx. now rewrite Hx.
Qed.
End DeleteFacts.

(** A call through the partition of the addressee misses the row. *)
Lemma row_unaddressed (db : DatabaseService) (f : Friendship.t) (pk : string) :
  unique_ids (friendships db) ->
  In f (friendships db) ->
  Friendship.partitionKey f <> pk ->
  (forall now s,
      update_item friendships_container (Friendship.id f) pk
                  (Friendship.with_status s) now db
      = (Raise (ValueError (not_found_message (Friendship.id f))), db))
  /\ delete_item friendships_container (Friendship.id f) pk db
     = (Return false, db).
Proof.
  intros U I Ne.
  pose proof (other_partition_unaddressed (friendships db) f pk U I Ne) as N.
  split.
  - intros now s. unfold update_item, bind, get_item, raise.
    change (read friendships_container db) with (friendships db).
    change (Friendship.id f) with (doc_id f).
    now rewrite (read_item_unaddressed _ _ _ N).
  - unfold delete_item.
    change (read friendships_container db) with (friendships db).
    change (Friendship.id f) with (doc_id f).
    now rewrite (delete_item_unaddressed _ _ _ N).
Qed.

(** A call through the partition of the requester reaches the row. *)
Lemma row_addressed (db : DatabaseService) (f : Friendship.t) :
  unique_ids (friendships db) ->
  In f (friendships db) ->
  exists l1 l2,
    friendships db = l1 ++ f :: l2
    /\ (forall x, In x l1 -> doc_id x <> doc_id f)
    /\ (forall x, In x l2 -> doc_id x <> doc_id f)
    /\ (forall now s,
           update_item friendships_container (Friendship.id f)
                       (Friendship.partitionKey f)
                       (Friendship.with_status s) now db
           = (Return (on_update now (Friendship.with_status s f)),
              write friendships_container
                    (l1 ++ on_update now (Friendship.with_status s f) :: l2)
                    db))
    /\ delete_item friendships_container (Friendship.id f)
                   (Friendship.partitionKey f) db
       = (Return true, write friendships_container (l1 ++ l2) db).
Proof.
  intros U I.
  destruct (in_unique_split _ f U I) as (l1 & l2 & E & N1 & N2).
  exists l1, l2. split; [exact E|]. split; [exact N1|]. split; [exact N2|].
  assert (A : Container.addressed (Friendship.id f) (Friendship.partitionKey f)
                                  f = true)
    by (apply addressed_true; split; reflexivity).
  pose proof (unaddressed_by_id l1 (doc_id f) (Friendship.partitionKey f) N1)
    as N.
  split.
  - intros now s. now apply update_item_at.
  - unfold delete_item.
    change (read friendships_container db) with (friendships db).
    rewrite E.
    change (Friendship.id f) with (doc_id f).
    now rewrite (delete_item_app l1 l2 f _ _ N A).
Qed.

Lemma directed_linked (f : Friendship.t) :
  linked (Friendship.requester_id f) (Friendship.addressee_id f) f = true
  /\ linked (Friendship.addressee_id f) (Friendship.requester_id f) f = true.
Proof.
  split; apply linked_true; auto.
Qed.

(** X14.  A relationship row lives in the partition of the user who
    created it, and calls that reach for it through the other user's
    partition never change it: the requester's own attempt to accept or
    reject a pending request raises "Item ... not found", so does the
    addressee's [block_user], and the addressee's [unblock_user] and
    [remove_friend] return [False].  The store is left as it was. *)
Theorem relationship_row_is_out_of_reach
        (db : DatabaseService) (f : Friendship.t) (uuid : string)
        (now : timestamp) :
  one_row_per_pair db ->
  unique_ids (friendships db) ->
  In f (friendships db) ->
  Friendship.partitionKey f = Friendship.requester_id f ->
  Friendship.requester_id f <> Friendship.addressee_id f ->
  let a := Friendship.requester_id f in
  let b := Friendship.addressee_id f in
  let not_found := ValueError (not_found_message (Friendship.id f)) in
  (Friendship.status f = PENDING ->
   FriendshipService.accept_friend_request a b now db = (Raise not_found, db)
   /\ FriendshipService.reject_friend_request a b now db
      = (Raise not_found, db))
  /\ FriendshipService.block_user b a uuid now db = (Raise not_found, db)
  /\ FriendshipService.unblock_user b a db = (Return false, db)
  /\ FriendshipService.remove_friend b a db = (Return false, db).
Proof.
  intros One U I K Ne a b not_found.
  destruct (directed_linked f) as [_ Lba].
  pose proof (the_row_found db b a f One I Lba) as G.
  assert (Pk : Friendship.partitionKey f <> b) by (rewrite K; exact Ne).
  destruct (row_unaddressed db f b U I Pk) as [Upd Del].
  split; [|split; [|split]].
  - intros S. split.
    + unfold FriendshipService.accept_friend_request, bind.
      rewrite G, S. simpl. now rewrite Upd.
    + unfold FriendshipService.reject_friend_request, bind.
      rewrite G, S. simpl. now rewrite Upd.
  - unfold FriendshipService.block_user, bind.
    assert (Self : String.eqb b a = false)
      by (apply String.eqb_neq; intros E; apply Ne; now symmetry).
    rewrite Self, G. apply Upd.
  - unfold FriendshipService.unblock_user, bind. rewrite G.
    destruct (negb _); [reflexivity|exact Del].
  - unfold FriendshipService.remove_friend, bind. rewrite G.
    destruct (negb _); [reflexivity|exact Del].
Qed.

Lemma relationship_row_is_out_of_reach_witness :
  one_row_per_pair db_friends
  /\ unique_ids (friendships db_friends)
  /\ In alice_and_bob (friendships db_friends)
  /\ FriendshipService.remove_friend "bob" "alice" db_friends
     = (Return false, db_friends)
  /\ FriendshipService.are_friends "bob" "alice" db_friends
     = (Return true, db_friends).
Proof.
  assert (One : one_row_per_pair db_friends).
  { intros a b. change (friendships db_friends) with [alice_and_bob].
    cbn [filter]. destruct (linked a b alice_and_bob); simpl; lia. }
  assert (U : unique_ids (friendships db_friends)).
  { unfold unique_ids. simpl. repeat constructor. intros []. }
  assert (I : In alice_and_bob (friendships db_friends)) by (left; reflexivity).
  split; [exact One|]. split; [exact U|]. split; [exact I|].
  split; [|reflexivity].
  refine (proj2 (proj2 (proj2 (relationship_row_is_out_of_reach
                                 db_friends alice_and_bob "friendship-9" 3000
                                 One U I eq_refl _)))).
  discriminate.
Defined.

(** X15.  The user who sent the request can end an accepted friendship:
    [remove_friend] returns [True], deletes the row and nothing else, and
    afterwards no row links the two users, so neither is a friend of the
    other any more. *)
Theorem remove_friend_by_requester
        (db : DatabaseService) (f : Friendship.t) :
  one_row_per_pair db ->
  unique_ids (friendships db) ->
  In f (friendships db) ->
  Friendship.partitionKey f = Friendship.requester_id f ->
  Friendship.status f = ACCEPTED ->
  let a := Friendship.requester_id f in
  let b := Friendship.addressee_id f in
  exists db',
    FriendshipService.remove_friend a b db = (Return true, db')
    /\ (forall g, In g (friendships db') <-> In g (friendships db) /\ g <> f)
    /\ ~ related db' a b
    /\ FriendshipService.are_friends a b db' = (Return false, db')
    /\ FriendshipService.are_friends b a db' = (Return false, db').
Proof.
  intros One U I K S a b.
  destruct (directed_linked f) as [Lab _].
  pose proof (the_row_found db a b f One I Lab) as G.
  destruct (row_addressed db f U I) as (l1 & l2 & E & N1 & N2 & _ & Del).
  rewrite K in Del.
  set (db' := write friendships_container (l1 ++ l2) db) in *.
  assert (Rows : forall g, In g (friendships db')
                           <-> In g (friendships db) /\ g <> f).
  { intros g. change (friendships db') with (l1 ++ l2). rewrite E.
    rewrite !in_app_iff. simpl. split.
    - intros [Hg|Hg]; (split; [tauto|]); intros ->;
        [now apply (N1 f Hg)|now apply (N2 f Hg)].
    - intros [[Hg|[Hg|Hg]] Ng]; auto. now symmetry in Hg. }
  assert (NR : filter (linked a b) (friendships db') = []).
  { apply filter_nil_forall. intros x Hx.
    destruct (linked a b x) eqn:L; [|reflexivity].
    apply Rows in Hx. destruct Hx as [Hx Nx].
    now pose proof (one_row_same db a b f x One I Lab Hx L). }
  exists db'. split; [|split; [exact Rows|split; [|split]]].
  - unfold FriendshipService.remove_friend, bind. rewrite G, S. exact Del.
  - intros R. apply related_linked in R. destruct R as (g & Ig & Lg).
    rewrite filter_nil_forall in NR. rewrite (NR g Ig) in Lg. discriminate Lg.
  - unfold FriendshipService.are_friends, bind.
    now rewrite (no_row_found db' a b NR).
  - unfold FriendshipService.are_friends, bind.
    rewrite (no_row_found db' b a); [reflexivity|].
    rewrite <- NR. apply filter_ext. intros x. apply linked_sym.
Qed.

Lemma remove_friend_by_requester_witness :
  one_row_per_pair db_friends
  /\ unique_ids (friendships db_friends)
  /\ In alice_and_bob (friendships db_friends)
  /\ exists db',
      FriendshipService.remove_friend "alice" "bob" db_friends
      = (Return true, db')
      /\ FriendshipService.are_friends "bob" "alice" db' = (Return false, db').
Proof.
  assert (One : one_row_per_pair db_friends).
  { intros a b. change (friendships db_friends) with [alice_and_bob].
    cbn [filter]. destruct (linked a b alice_and_bob); simpl; lia. }
  assert (U : unique_ids (friendships db_friends)).
  { unfold unique_ids. simpl. repeat constructor. intros []. }
  assert (I : In alice_and_bob (friendships db_friends)) by (left; reflexivity).
  split; [exact One|]. split; [exact U|]. split; [exact I|].
  destruct (remove_friend_by_requester db_friends alice_and_bob
              One U I eq_refl eq_refl)
    as (db' & E & _ & _ & _ & F).
  exists db'. split; [exact E|exact F].
Defined.

Lemma write_back_friendships (db : DatabaseService) (c : list Friendship.t) :
  write friendships_container (friendships db)
        (write friendships_container c db) = db.
Proof. now destruct db. Qed.

(** X16.  Blocking a user one has no relationship with stores a blocked
    row; [is_blocked] then answers [True] for the pair in either order; the
    blocked user's [unblock_user] returns [False] and changes nothing, and
    the blocker's returns [True] and restores the store as it was before
    the block. *)
Theorem block_then_unblock_restores
        (db : DatabaseService) (a b uuid : string) (now : timestamp) :
  a <> b ->
  ~ related db a b ->
  fresh_id uuid (friendships db) ->
  exists f db1,
    FriendshipService.block_user a b uuid now db = (Return f, db1)
    /\ Friendship.status f = BLOCKED
    /\ FriendshipService.is_blocked a b db1 = (Return true, db1)
    /\ FriendshipService.is_blocked b a db1 = (Return true, db1)
    /\ FriendshipService.unblock_user b a db1 = (Return false, db1)
    /\ FriendshipService.unblock_user a b db1 = (Return true, db).
Proof.
  intros Ne NR Fresh.
  assert (Nl : filter (linked a b) (friendships db) = []).
  { apply filter_nil_forall. intros x Hx.
    destruct (linked a b x) eqn:L; [|reflexivity].
    exfalso. apply NR, related_linked. eauto. }
  destruct (linked_filters _ a b Nl) as [Fab Fba].
  set (f := Friendship.mk uuid a b BLOCKED now now a).
  set (db1 := write friendships_container (friendships db ++ [f]) db).
  assert (Dab : FriendshipService.directed a b f = true)
    by (apply directed_true; split; reflexivity).
  assert (Dba : FriendshipService.directed b a f = false).
  { unfold FriendshipService.directed. simpl.
    apply String.eqb_neq in Ne. now rewrite Ne. }
  assert (Gab : FriendshipService._get_friendship a b db1
                = (Return (Some f), db1)).
  { rewrite _get_friendship_first.
    change (friendships db1) with (friendships db ++ [f]).
    rewrite filter_app, Fab. simpl. now rewrite Dab. }
  assert (Gba : FriendshipService._get_friendship b a db1
                = (Return (Some f), db1)).
  { rewrite _get_friendship_first.
    change (friendships db1) with (friendships db ++ [f]).
    rewrite !filter_app, Fab, Fba. simpl. now rewrite Dab, Dba. }
  assert (N : forall pk x, In x (friendships db) ->
                           Container.addressed uuid pk x = false).
  { intros pk. apply unaddressed_by_id. intros x Hx E. apply Fresh.
    rewrite <- E. now apply in_map. }
  exists f, db1. split; [|split; [reflexivity|split; [|split; [|split]]]].
  - unfold FriendshipService.block_user, bind.
    apply String.eqb_neq in Ne. rewrite Ne.
    now rewrite (no_row_found db a b Nl).
  - unfold FriendshipService.is_blocked, bind. now rewrite Gab.
  - unfold FriendshipService.is_blocked, bind. now rewrite Gba.
  - unfold FriendshipService.unblock_user, bind. rewrite Gba. simpl.
    unfold delete_item.
    change (read friendships_container db1) with (friendships db ++ [f]).
    rewrite delete_item_unaddressed; [reflexivity|].
    intros x Hx. apply in_app_or in Hx. destruct Hx as [Hx|[<-|[]]].
    + now apply N.
    + unfold Container.addressed. simpl.
      apply String.eqb_neq in Ne. rewrite Ne. apply andb_false_r.
  - unfold FriendshipService.unblock_user, bind. rewrite Gab. simpl.
    unfold delete_item.
    change (read friendships_container db1) with (friendships db ++ [f]).
    rewrite (delete_item_app (friendships db) [] f uuid a (N a)).
    + rewrite app_nil_r. unfold db1. now rewrite write_back_friendships.
    + apply addressed_true. split; reflexivity.
Qed.

Lemma block_then_unblock_restores_witness :
  ~ related db_requested "alice" "carol"
  /\ fresh_id "friendship-2" (friendships db_requested)
  /\ exists f db1,
      FriendshipService.block_user "alice" "carol" "friendship-2" 2000
                                   db_requested
      = (Return f, db1)
      /\ FriendshipService.unblock_user "alice" "carol" db1
         = (Return true, db_requested).
Proof.
  assert (NR : ~ related db_requested "alice" "carol").
  { intros (g & [<-|[]] & [[_ E]|[E _]]); discriminate E. }
  assert (Fresh : fresh_id "friendship-2" (friendships db_requested)).
  { intros [E|[]]. discriminate E. }
  split; [exact NR|]. split; [exact Fresh|].
  destruct (block_then_unblock_restores
              db_requested "alice" "carol" "friendship-2" 2000)
    as (f & db1 & E & _ & _ & _ & _ & Un); auto; [discriminate|].
  exists f, db1. split; [exact E|exact Un].
Defined.

(** X17.  A rejected request is final.  The addressee's
    [reject_friend_request] on a pending request returns [True]; from then
    on accepting or rejecting it again returns [False], a new request
    between the two users raises in either direction, they are not
    friends, and neither [remove_friend] nor [unblock_user] removes the
    row: all of these leave the store as it is. *)
Theorem rejected_request_is_final
        (db : DatabaseService) (f : Friendship.t) (uuid : string)
        (now later : timestamp) :
  one_row_per_pair db ->
  unique_ids (friendships db) ->
  In f (friendships db) ->
  Friendship.partitionKey f = Friendship.requester_id f ->
  Friendship.status f = PENDING ->
  let a := Friendship.requester_id f in
  let b := Friendship.addressee_id f in
  exists db',
    FriendshipService.reject_friend_request b a now db = (Return true, db')
    /\ FriendshipService.accept_friend_request b a later db'
       = (Return false, db')
    /\ FriendshipService.reject_friend_request b a later db'
       = (Return false, db')
    /\ (exists msg, FriendshipService.send_friend_request a b uuid later db'
                    = (Raise (ValueError msg), db'))
    /\ (exists msg, FriendshipService.send_friend_request b a uuid later db'
                    = (Raise (ValueError msg), db'))
    /\ FriendshipService.are_friends a b db' = (Return false, db')
    /\ FriendshipService.are_friends b a db' = (Return false, db')
    /\ (forall x y, (x = a /\ y = b) \/ (x = b /\ y = a) ->
                    FriendshipService.remove_friend x y db'
                    = (Return false, db')
                    /\ FriendshipService.unblock_user x y db'
                       = (Return false, db')).
Proof.
  intros One U I K S. cbv zeta.
  set (a := Friendship.requester_id f) in *.
  set (b := Friendship.addressee_id f) in *.
  destruct (directed_linked f) as [Lab Lba].
  pose proof (the_row_found db a b f One I Lab) as G.
  destruct (row_addressed db f U I) as (l1 & l2 & E & N1 & N2 & Upd & _).
  rewrite K in Upd. specialize (Upd now REJECTED).
  set (f' := on_update now (Friendship.with_status REJECTED f)) in *.
  set (db' := write friendships_container (l1 ++ f' :: l2) db) in *.
  assert (One' : one_row_per_pair db').
  { apply (friendship_step_one_row db db'); [|exact One].
    right. left. exists l1, f, l2, REJECTED, now. split; [exact E|reflexivity]. }
  assert (I' : In f' (friendships db'))
    by (apply in_or_app; right; now left).
  assert (Gab : FriendshipService._get_friendship a b db'
                = (Return (Some f'), db'))
    by (apply the_row_found; auto).
  assert (Gba : FriendshipService._get_friendship b a db'
                = (Return (Some f'), db'))
    by (apply the_row_found; auto).
  assert (R : related db' a b).
  { apply related_linked. exists f'. auto. }
  assert (R' : related db' b a).
  { apply related_linked. exists f'. auto. }
  exists db'. repeat split.
  - unfold FriendshipService.reject_friend_request, bind.
    rewrite G, S. simpl. unfold bind. now rewrite Upd.
  - unfold FriendshipService.accept_friend_request, bind. now rewrite Gab.
  - unfold FriendshipService.reject_friend_request, bind. now rewrite Gab.
  - apply send_friend_request_refused. now right.
  - apply send_friend_request_refused. now right.
  - unfold FriendshipService.are_friends, bind. now rewrite Gab.
  - unfold FriendshipService.are_friends, bind. now rewrite Gba.
  - destruct H as [[-> ->]|[-> ->]];
      unfold FriendshipService.remove_friend, bind;
      [now rewrite Gab|now rewrite Gba].
  - destruct H as [[-> ->]|[-> ->]];
      unfold FriendshipService.unblock_user, bind;
      [now rewrite Gab|now rewrite Gba].
Qed.

Lemma rejected_request_is_final_witness :
  one_row_per_pair db_requested
  /\ unique_ids (friendships db_requested)
  /\ In alice_asked_bob (friendships db_requested)
  /\ exists db',
      FriendshipService.reject_friend_request "bob" "alice" 2000 db_requested
      = (Return true, db')
      /\ FriendshipService.accept_friend_request "bob" "alice" 3000 db'
         = (Return false, db').
Proof.
  assert (One : one_row_per_pair db_requested).
  { intros a b. change (friendships db_requested) with [alice_asked_bob].
    cbn [filter]. destruct (linked a b alice_asked_bob); simpl; lia. }
  assert (U : unique_ids (friendships db_requested)).
  { unfold unique_ids. simpl. repeat constructor. intros []. }
  assert (I : In alice_asked_bob (friendships db_requested))
    by (left; reflexivity).
  split; [exact One|]. split; [exact U|]. split; [exact I|].
  destruct (rejected_request_is_final db_requested alice_asked_bob
              "friendship-2" 2000 3000 One U I eq_refl eq_refl)
    as (db' & E & A & _).
  exists db'. split; [exact E|exact A].
Defined.

(** *** Dungeons *)

Lemma dungeon_found (db : DatabaseService) (d : string) (dg : Dungeon.t) :
  dungeons_keyed db ->
  dungeon_at db d dg ->
  exists l1 l2,
    dungeons db = l1 ++ dg :: l2
    /\ (forall x, In x l1 -> Dungeon.id x <> d)
    /\ Dungeon.id dg = d
    /\ Dungeon.partitionKey dg = Dungeon.creator_id dg
    /\ (forall pk x, In x l1 -> Container.addressed d pk x = false)
    /\ Container.addressed d (Dungeon.creator_id dg) dg = true.
Proof.
  intros K A. apply dungeon_at_first in A. destruct A as (rest & F).
  change (fun c => String.eqb (Dungeon.id c) d)
    with (fun c : Dungeon.t => String.eqb (doc_id c) d) in F.
  destruct (first_by_id_read (dungeons db) d dg rest F)
    as (l1 & l2 & E & N & Id & _ & _).
  assert (I : In dg (dungeons db))
    by (rewrite E; apply in_or_app; right; now left).
  exists l1, l2. split; [exact E|]. split; [exact N|]. split; [exact Id|].
  split; [exact (K dg I)|]. split.
  - intros pk. now apply unaddressed_by_id.
  - apply addressed_true. split; [exact Id|exact (K dg I)].
Qed.

Lemma dungeon_lookup (db : DatabaseService) (d : string) :
  DungeonService.get_dungeon_by_id d db = (Return None, db)
  \/ exists dg, dungeon_at db d dg.
Proof.
  unfold dungeon_at. rewrite get_dungeon_by_id_first.
  destruct (filter _ (dungeons db)); eauto.
Qed.

Lemma dungeon_rewritten_at (db db' : DatabaseService) (d : string)
      (dg dg' : Dungeon.t) :
  dungeon_rewritten db db' d dg dg' ->
  Dungeon.id dg = d -> Dungeon.id dg' = d ->
  dungeon_at db' d dg'
  /\ (forall other,
         other <> d ->
         fst (DungeonService.get_dungeon_by_id other db')
         = fst (DungeonService.get_dungeon_by_id other db))
  /\ ratings db' = ratings db /\ lobbies db' = lobbies db
  /\ friendships db' = friendships db /\ leaderboard db' = leaderboard db.
Proof.
  intros (l1 & l2 & E & N & ->) Id Id'.
  assert (F1 : filter (fun c => String.eqb (Dungeon.id c) d) l1 = []).
  { apply filter_nil_forall. intros x Hx. apply N in Hx.
    now apply String.eqb_neq. }
  split; [|split; [|repeat split]].
  - apply dungeon_at_first. simpl dungeons. rewrite filter_app, F1. simpl.
    rewrite Id', String.eqb_refl. eauto.
  - intros other Ne. rewrite !get_dungeon_by_id_first. simpl dungeons.
    rewrite E, !filter_app. simpl. rewrite Id, Id'.
    assert (Ne' : String.eqb d other = false)
      by (apply String.eqb_neq; congruence).
    now rewrite Ne'.
Qed.

Lemma dungeon_rewritten_keyed (db db' : DatabaseService) (d : string)
      (dg dg' : Dungeon.t) :
  dungeon_rewritten db db' d dg dg' ->
  Dungeon.partitionKey dg' = Dungeon.partitionKey dg ->
  Dungeon.creator_id dg' = Dungeon.creator_id dg ->
  dungeons_keyed db -> dungeons_keyed db'.
Proof.
  intros (l1 & l2 & E & _ & ->) Pk Cr K x Hx. simpl dungeons in Hx.
  apply in_app_or in Hx. destruct Hx as [Hx|[<-|Hx]].
  - apply K. rewrite E. apply in_or_app. now left.
  - rewrite Pk, Cr. apply K. rewrite E. apply in_or_app. right. now left.
  - apply K. rewrite E. apply in_or_app. right. now right.
Qed.

Lemma increment_play_count_effect (db : DatabaseService) (d : string)
      (now : timestamp) :
  dungeons_keyed db ->
  (DungeonService.get_dungeon_by_id d db = (Return None, db)
   /\ DungeonService.increment_play_count d now db = (Return tt, db))
  \/ exists dg db',
      dungeon_at db d dg
      /\ DungeonService.increment_play_count d now db = (Return tt, db')
      /\ dungeon_rewritten db db' d dg
           (on_update now
              (Dungeon.with_play_count (Dungeon.play_count dg + 1) dg)).
Proof.
  intros K. destruct (dungeon_lookup db d) as [G|(dg & G)].
  - left. split; [exact G|].
    unfold DungeonService.increment_play_count, bind. now rewrite G.
  - right.
    destruct (dungeon_found db d dg K G) as (l1 & l2 & E & N & Id & Pk & Un & Ad).
    exists dg. eexists. split; [exact G|]. split.
    + unfold DungeonService.increment_play_count, bind. rewrite G.
      rewrite (update_item_at dungeons_container db l1 l2 dg d
                 (Dungeon.creator_id dg)
                 (Dungeon.with_play_count (Dungeon.play_count dg + 1))
                 now E (Un _) Ad Pk).
      reflexivity.
    + exists l1, l2. auto.
Qed.

Lemma delete_dungeon_effect (db : DatabaseService) (d creator_id : string) :
  dungeons_keyed db ->
  (DungeonService.delete_dungeon d creator_id db = (Return false, db)
   /\ forall dg, dungeon_at db d dg -> Dungeon.creator_id dg <> creator_id)
  \/ exists dg l1 l2,
      dungeon_at db d dg
      /\ Dungeon.creator_id dg = creator_id
      /\ dungeons db = l1 ++ dg :: l2
      /\ (forall x, In x l1 -> Dungeon.id x <> d)
      /\ Dungeon.id dg = d
      /\ DungeonService.delete_dungeon d creator_id db
         = (Return true, write dungeons_container (l1 ++ l2) db).
Proof.
  intros K. destruct (dungeon_lookup db d) as [G|(dg & G)].
  - left. split.
    + unfold DungeonService.delete_dungeon, bind. now rewrite G.
    + intros dg A. unfold dungeon_at in A. congruence.
  - destruct (String.eqb (Dungeon.creator_id dg) creator_id) eqn:Cr.
    + right. apply String.eqb_eq in Cr.
      destruct (dungeon_found db d dg K G)
        as (l1 & l2 & E & N & Id & Pk & Un & Ad).
      exists dg, l1, l2. repeat split; auto.
      unfold DungeonService.delete_dungeon, bind. rewrite G.
      apply String.eqb_eq in Cr. rewrite Cr. simpl.
      apply String.eqb_eq in Cr. rewrite Cr in Ad.
      unfold delete_item.
      change (read dungeons_container db) with (dungeons db). rewrite E.
      now rewrite (delete_item_app l1 l2 dg d creator_id (Un creator_id) Ad).
    + left. split.
      * unfold DungeonService.delete_dungeon, bind. rewrite G.
        now rewrite Cr.
      * intros dg' A. unfold dungeon_at in A, G.
        assert (dg' = dg) by congruence. subst dg'.
        now apply String.eqb_neq.
Qed.

(** X18.  [create_dungeon] with a fresh identifier returns a draft owned
    by the creator, with no rating and no play; the dungeon is then found
    under its identifier, and every other lookup is as before. *)
Theorem create_dungeon_then_get
        (db : DatabaseService) (dungeon_create : DungeonCreate.t)
        (creator_id uuid : string) (now : timestamp) :
  fresh_id uuid (dungeons db) ->
  exists dg db',
    DungeonService.create_dungeon dungeon_create creator_id uuid now db
    = (Return dg, db')
    /\ dungeon_at db' uuid dg
    /\ Dungeon.id dg = uuid
    /\ Dungeon.creator_id dg = creator_id
    /\ Dungeon.partitionKey dg = creator_id
    /\ Dungeon.status dg = DRAFT
    /\ Dungeon.average_rating dg = float_zero
    /\ Dungeon.total_ratings dg = 0
    /\ Dungeon.play_count dg = 0
    /\ Dungeon.is_public dg = DungeonCreate.is_public dungeon_create
    /\ forall other,
        other <> uuid ->
        fst (DungeonService.get_dungeon_by_id other db')
        = fst (DungeonService.get_dungeon_by_id other db).
Proof.
  intros F.
  eexists. eexists. split; [reflexivity|].
  split; [|repeat split].
  - apply dungeon_at_first. simpl dungeons. unfold Container.create_item.
    rewrite filter_app.
    change (fun c => String.eqb (Dungeon.id c) uuid)
      with (fun c : Dungeon.t => String.eqb (doc_id c) uuid).
    rewrite (filter_fresh_id uuid (dungeons db) F). simpl.
    rewrite String.eqb_refl. eauto.
  - intros other Ne. rewrite !get_dungeon_by_id_first. simpl dungeons.
    unfold Container.create_item. rewrite filter_app. simpl.
    assert (Ne' : String.eqb uuid other = false)
      by (apply String.eqb_neq; congruence).
    now rewrite Ne', app_nil_r.
Qed.

Lemma create_dungeon_then_get_witness :
  fresh_id "dungeon-2" (dungeons db_dungeon)
  /\ exists dg db',
      DungeonService.create_dungeon crypt "creator-2" "dungeon-2" 5000 db_dungeon
      = (Return dg, db')
      /\ dungeon_at db' "dungeon-2" dg
      /\ Dungeon.status dg = DRAFT.
Proof.
  assert (F : fresh_id "dungeon-2" (dungeons db_dungeon)).
  { intros [E|[]]. discriminate E. }
  split; [exact F|].
  destruct (create_dungeon_then_get db_dungeon crypt "creator-2" "dungeon-2"
              5000 F)
    as (dg & db' & E & A & _ & _ & _ & S & _).
  exists dg, db'. auto.
Defined.

(** The dungeon [get_dungeon_by_id] finds is the first document of its
    identifier. *)
Lemma dungeon_first (db : DatabaseService) (d : string) (dg : Dungeon.t) :
  dungeon_at db d dg ->
  exists l1 l2,
    dungeons db = l1 ++ dg :: l2
    /\ (forall x, In x l1 -> Dungeon.id x <> d)
    /\ Dungeon.id dg = d
    /\ (forall pk x, In x l1 -> Container.addressed d pk x = false).
Proof.
  intros A. apply dungeon_at_first in A. destruct A as (rest & F).
  change (fun c => String.eqb (Dungeon.id c) d)
    with (fun c : Dungeon.t => String.eqb (doc_id c) d) in F.
  destruct (first_by_id_read (dungeons db) d dg rest F)
    as (l1 & l2 & E & N & Id & _ & _).
  exists l1, l2. split; [exact E|]. split; [exact N|]. split; [exact Id|].
  intros pk. now apply unaddressed_by_id.
Qed.

(** A dungeon whose [creator_id] is no longer the partition it is stored
    in cannot be addressed through its [creator_id]. *)
Lemma dungeon_misplaced (db : DatabaseService) (d : string) (dg : Dungeon.t)
      (pk : string) :
  unique_ids (dungeons db) ->
  dungeon_at db d dg ->
  Dungeon.partitionKey dg <> pk ->
  Container.read_item (dungeons db) d pk = None
  /\ Container.delete_item (dungeons db) d pk = None.
Proof.
  intros U A Ne.
  destruct (dungeon_first db d dg A) as (l1 & l2 & E & _ & Id & _).
  assert (I : In dg (dungeons db))
    by (rewrite E; apply in_or_app; right; now left).
  pose proof (other_partition_unaddressed (dungeons db) dg pk U I Ne) as N.
  change (doc_id dg) with (Dungeon.id dg) in N. rewrite Id in N.
  split; [now apply read_item_unaddressed|now apply delete_item_unaddressed].
Qed.

(** X19.  [increment_play_count] does nothing for an unknown identifier.
    For a dungeon stored in the partition named by its [creator_id] it
    adds exactly one to [play_count] and leaves its rating aggregate,
    owner and status, all ratings and every other dungeon untouched.  For
    a dungeon whose [creator_id] differs from its partition key, as
    [update_dungeon] can leave it, it raises "Item ... not found" and
    changes nothing. *)
Theorem increment_play_count_adds_one
        (db : DatabaseService) (d : string) (now : timestamp) :
  (DungeonService.get_dungeon_by_id d db = (Return None, db) ->
   DungeonService.increment_play_count d now db = (Return tt, db))
  /\ (forall dg,
         dungeon_at db d dg ->
         Dungeon.partitionKey dg = Dungeon.creator_id dg ->
         exists dg' db',
           DungeonService.increment_play_count d now db = (Return tt, db')
           /\ dungeon_at db' d dg'
           /\ Dungeon.play_count dg' = Dungeon.play_count dg + 1
           /\ Dungeon.average_rating dg' = Dungeon.average_rating dg
           /\ Dungeon.total_ratings dg' = Dungeon.total_ratings dg
           /\ Dungeon.creator_id dg' = Dungeon.creator_id dg
           /\ Dungeon.status dg' = Dungeon.status dg
           /\ ratings db' = ratings db
           /\ forall other,
               other <> d ->
               fst (DungeonService.get_dungeon_by_id other db')
               = fst (DungeonService.get_dungeon_by_id other db))
  /\ (forall dg,
         dungeon_at db d dg ->
         unique_ids (dungeons db) ->
         Dungeon.partitionKey dg <> Dungeon.creator_id dg ->
         DungeonService.increment_play_count d now db
         = (Raise (ValueError (not_found_message d)), db)).
Proof.
  split; [|split].
  - intros G. unfold DungeonService.increment_play_count, bind. now rewrite G.
  - intros dg A Pk.
    destruct (dungeon_first db d dg A) as (l1 & l2 & E & N & Id & Un).
    assert (Ad : Container.addressed d (Dungeon.creator_id dg) dg = true)
      by (apply addressed_true; split; [exact Id|exact Pk]).
    set (dg' := on_update now
                  (Dungeon.with_play_count (Dungeon.play_count dg + 1) dg)).
    set (db' := write dungeons_container (l1 ++ dg' :: l2) db).
    assert (RW : dungeon_rewritten db db' d dg dg') by (exists l1, l2; auto).
    destruct (dungeon_rewritten_at _ _ _ _ _ RW Id Id) as (A' & Oth & Rt & _).
    exists dg', db'. split; [|split; [exact A'|repeat split; auto]].
    unfold DungeonService.increment_play_count, bind. rewrite A.
    now rewrite (update_item_at dungeons_container db l1 l2 dg d
                   (Dungeon.creator_id dg)
                   (Dungeon.with_play_count (Dungeon.play_count dg + 1))
                   now E (Un _) Ad Pk).
  - intros dg A U Ne.
    destruct (dungeon_misplaced db d dg (Dungeon.creator_id dg) U A Ne)
      as [Rd _].
    unfold DungeonService.increment_play_count, bind. rewrite A.
    unfold update_item, bind, get_item, raise.
    change (read dungeons_container db) with (dungeons db).
    now rewrite Rd.
Qed.

Lemma increment_play_count_adds_one_witness :
  (exists dg dg' db',
      dungeon_at db_rated_5 "dungeon-1" dg
      /\ Dungeon.partitionKey dg = Dungeon.creator_id dg
      /\ DungeonService.increment_play_count "dungeon-1" 4000 db_rated_5
         = (Return tt, db')
      /\ dungeon_at db' "dungeon-1" dg'
      /\ Dungeon.play_count dg' = Dungeon.play_count dg + 1)
  /\ dungeon_at db_handed_over "dungeon-1" handed_over
  /\ unique_ids (dungeons db_handed_over)
  /\ Dungeon.partitionKey handed_over <> Dungeon.creator_id handed_over
  /\ DungeonService.increment_play_count "dungeon-1" 4000 db_handed_over
     = (Raise (ValueError "Item dungeon-1 not found"), db_handed_over).
Proof.
  assert (U : unique_ids (dungeons db_handed_over)).
  { unfold unique_ids. simpl. repeat constructor. intros []. }
  assert (Ne : Dungeon.partitionKey handed_over
               <> Dungeon.creator_id handed_over) by discriminate.
  split; [|split; [reflexivity|split; [exact U|split; [exact Ne|]]]].
  - eexists.
    destruct (proj1 (proj2 (increment_play_count_adds_one
                              db_rated_5 "dungeon-1" 4000))
                    _ eq_refl eq_refl)
      as (dg' & db' & E & A & P & _).
    exists dg', db'. split; [reflexivity|]. split; [reflexivity|].
    split; [exact E|]. split; [exact A|exact P].
  - exact (proj2 (proj2 (increment_play_count_adds_one
                           db_handed_over "dungeon-1" 4000))
                 handed_over eq_refl U Ne).
Defined.

(** X20.  [delete_dungeon] returns [False], writing nothing, when the
    dungeon is unknown or belongs to somebody else.  Called by the creator
    of a dungeon stored in the creator's partition it returns [True] and
    the dungeon can no longer be found; the ratings given to it stay in
    the store, and every other dungeon is as before.  Called by the
    creator of a dungeon whose [creator_id] differs from its partition
    key, as [update_dungeon] can leave it, it returns [False] and deletes
    nothing. *)
Theorem delete_dungeon_outcomes
        (db : DatabaseService) (d creator_id : string) :
  ((forall dg, dungeon_at db d dg -> Dungeon.creator_id dg <> creator_id) ->
   DungeonService.delete_dungeon d creator_id db = (Return false, db))
  /\ (forall dg,
         dungeon_at db d dg ->
         Dungeon.creator_id dg = creator_id ->
         unique_ids (dungeons db) ->
         (Dungeon.partitionKey dg = creator_id ->
          exists db',
            DungeonService.delete_dungeon d creator_id db = (Return true, db')
            /\ DungeonService.get_dungeon_by_id d db' = (Return None, db')
            /\ ratings db' = ratings db
            /\ forall other,
                other <> d ->
                fst (DungeonService.get_dungeon_by_id other db')
                = fst (DungeonService.get_dungeon_by_id other db))
         /\ (Dungeon.partitionKey dg <> creator_id ->
             DungeonService.delete_dungeon d creator_id db
             = (Return false, db))).
Proof.
  split.
  - intros No. destruct (dungeon_lookup db d) as [G|(dg & G)].
    + unfold DungeonService.delete_dungeon, bind. now rewrite G.
    + unfold DungeonService.delete_dungeon, bind. rewrite G.
      apply No, String.eqb_neq in G. now rewrite G.
  - intros dg A Cr U.
    assert (Run : DungeonService.delete_dungeon d creator_id db
                  = delete_item dungeons_container d creator_id db).
    { unfold DungeonService.delete_dungeon, bind. rewrite A.
      apply String.eqb_eq in Cr. now rewrite Cr. }
    rewrite Run. split.
    + intros Pk.
      destruct (dungeon_first db d dg A) as (l1 & l2 & Es & N & Id & Un).
      assert (Ad : Container.addressed d creator_id dg = true)
        by (apply addressed_true; split; [exact Id|exact Pk]).
      eexists. split.
      * unfold delete_item.
        change (read dungeons_container db) with (dungeons db). rewrite Es.
        now rewrite (delete_item_app l1 l2 dg d creator_id (Un creator_id) Ad).
      * rewrite Es in U. destruct (unique_ids_split l1 l2 dg U) as [_ U2].
        assert (F1 : filter (fun c => String.eqb (Dungeon.id c) d) l1 = []).
        { apply filter_nil_forall. intros x Hx. apply N in Hx.
          now apply String.eqb_neq. }
        assert (F2 : filter (fun c => String.eqb (Dungeon.id c) d) l2 = []).
        { apply filter_nil_forall. intros x Hx. apply U2 in Hx.
          apply String.eqb_neq. simpl in Hx. congruence. }
        split; [|split; [reflexivity|]].
        -- rewrite get_dungeon_by_id_first. simpl dungeons.
           now rewrite filter_app, F1, F2.
        -- intros other Ne. rewrite !get_dungeon_by_id_first. simpl dungeons.
           rewrite Es, !filter_app. simpl. rewrite Id.
           assert (Ne' : String.eqb d other = false)
             by (apply String.eqb_neq; congruence).
           now rewrite Ne'.
    + intros Ne.
      destruct (dungeon_misplaced db d dg creator_id U A Ne) as [_ Dl].
      unfold delete_item.
      change (read dungeons_container db) with (dungeons db).
      now rewrite Dl.
Qed.

Lemma delete_dungeon_outcomes_witness :
  unique_ids (dungeons db_rated_5)
  /\ DungeonService.delete_dungeon "dungeon-1" "creator-2" db_rated_5
     = (Return false, db_rated_5)
  /\ (exists db',
         DungeonService.delete_dungeon "dungeon-1" "creator-1" db_rated_5
         = (Return true, db')
         /\ ratings db' = ratings db_rated_5)
  /\ unique_ids (dungeons db_handed_over)
  /\ dungeon_at db_handed_over "dungeon-1" handed_over
  /\ DungeonService.delete_dungeon "dungeon-1" "creator-2" db_handed_over
     = (Return false, db_handed_over).
Proof.
  assert (U : unique_ids (dungeons db_rated_5)).
  { unfold unique_ids. simpl. repeat constructor. intros []. }
  assert (U' : unique_ids (dungeons db_handed_over)).
  { unfold unique_ids. simpl. repeat constructor. intros []. }
  split; [exact U|]. split; [|split; [|split; [exact U'|split; [reflexivity|]]]].
  - apply (proj1 (delete_dungeon_outcomes db_rated_5 "dungeon-1" "creator-2")).
    intros dg A. vm_compute in A. injection A as <-. discriminate.
  - destruct (proj1 (proj2 (delete_dungeon_outcomes
                              db_rated_5 "dungeon-1" "creator-1")
                           _ eq_refl eq_refl U) eq_refl)
      as (db' & E & _ & R & _).
    exists db'. split; [exact E|exact R].
  - apply (proj2 (proj2 (delete_dungeon_outcomes
                           db_handed_over "dungeon-1" "creator-2")
                        handed_over eq_refl eq_refl U')).
    discriminate.
Defined.

(** The rows after the write of [rate_dungeon] are still in the partition
    of their dungeon and in range. *)
Lemma written_keeps (db : DatabaseService) (d u : string) (r : Z)
      (c : option string) (uuid : string) (now : timestamp)
      (rs' : list DungeonRating.t) (o : DungeonRating.t) :
  ratings_keyed db ->
  ratings_in_range db ->
  1 <= r <= 5 ->
  written db d u r c uuid now rs' o ->
  (forall x, In x rs' ->
             DungeonRating.partitionKey x = DungeonRating.dungeon_id x)
  /\ (forall x, In x rs' -> 1 <= DungeonRating.rating x <= 5)
  /\ In o rs'
  /\ DungeonRating.dungeon_id o = d
  /\ DungeonRating.rating o = r
  /\ forall other,
      other <> d -> filter (rated other) rs' = ratings_of db other.
Proof.
  intros K B In15
         [(By & -> & ->)
         |(e & rest & l1 & item & l2 & By & E & N & A & -> & ->)].
  - split; [|split; [|split; [|split; [|split]]]]; try reflexivity.
    + intros x Hx. apply in_app_or in Hx.
      destruct Hx as [Hx|[<-|[]]]; [now apply K|reflexivity].
    + intros x Hx. apply in_app_or in Hx.
      destruct Hx as [Hx|[<-|[]]]; [now apply B|exact In15].
    + apply in_or_app. right. now left.
    + intros other Ne. rewrite filter_app. simpl. unfold rated at 2. simpl.
      assert (Ne' : String.eqb d other = false)
        by (apply String.eqb_neq; congruence).
      rewrite Ne'. apply app_nil_r.
  - assert (Ii : In item (ratings db))
      by (rewrite E; apply in_or_app; right; now left).
    assert (Di : DungeonRating.dungeon_id item = d).
    { apply addressed_true in A. destruct A as [_ Ak]. simpl in Ak.
      now rewrite <- (K item Ii). }
    split; [|split; [|split; [|split; [|split]]]].
    + intros x Hx. apply in_app_or in Hx. destruct Hx as [Hx|[<-|Hx]].
      * apply K. rewrite E. apply in_or_app. now left.
      * exact (K item Ii).
      * apply K. rewrite E. apply in_or_app. right. now right.
    + intros x Hx. apply in_app_or in Hx. destruct Hx as [Hx|[<-|Hx]].
      * apply B. rewrite E. apply in_or_app. now left.
      * exact In15.
      * apply B. rewrite E. apply in_or_app. right. now right.
    + apply in_or_app. right. now left.
    + exact Di.
    + reflexivity.
    + intros other Ne. unfold ratings_of. rewrite E, !filter_app.
      cbn [filter].
      change (rated other (on_update now (DungeonRating.with_rating r c item)))
        with (rated other item).
      assert (Ro : rated other item = false).
      { unfold rated. rewrite Di. apply String.eqb_neq. congruence. }
      now rewrite Ro.
Qed.

(** The recomputation that ends a successful [rate_dungeon] rewrites at
    most the rated dungeon. *)
Lemma then_recompute_returned (db1 db' : DatabaseService) (d : string)
      (now : timestamp) (o1 o : DungeonRating.t) :
  dungeons_keyed db1 ->
  then_recompute d now o1 db1 = (Return o, db') ->
  o = o1
  /\ ratings db' = ratings db1
  /\ dungeons_keyed db'
  /\ (forall other,
         other <> d ->
         fst (DungeonService.get_dungeon_by_id other db')
         = fst (DungeonService.get_dungeon_by_id other db1))
  /\ (DungeonService.get_dungeon_by_id d db1 = (Return None, db1) ->
      db' = db1).
Proof.
  intros K Rec. unfold then_recompute in Rec.
  pose proof (_update_dungeon_rating_run db1 d now K) as Run.
  destruct (ratings_of db1 d) as [|r0 rs].
  { rewrite Run in Rec. injection Rec as -> ->. repeat split; auto. }
  destruct (truediv _ _) as [mean|e].
  2:{ rewrite Run in Rec. discriminate Rec. }
  destruct (filter (fun c => String.eqb (Dungeon.id c) d) (dungeons db1))
    as [|dg ds] eqn:F.
  { rewrite Run in Rec. injection Rec as -> ->. repeat split; auto. }
  destruct Run as (l1 & l2 & E & N & Id & Run).
  rewrite Run in Rec. injection Rec as -> <-.
  set (dg' := on_update now
                (Dungeon.with_rating (round mean 2) (len (r0 :: rs)) dg)).
  assert (RW : dungeon_rewritten
                 db1 (write dungeons_container (l1 ++ dg' :: l2) db1) d dg dg')
    by (exists l1, l2; auto).
  destruct (dungeon_rewritten_at _ _ _ _ _ RW Id Id) as (_ & Oth & Rt & _).
  split; [reflexivity|]. split; [exact Rt|]. split; [|split; [exact Oth|]].
  - exact (dungeon_rewritten_keyed _ _ _ _ _ RW eq_refl eq_refl K).
  - intros G. rewrite get_dungeon_by_id_first, F in G. discriminate G.
Qed.

(** X21.  [rate_dungeon] does not look the dungeon up before it writes: an
    in-range rating for an identifier that no dungeon has is stored and
    returned like any other, and no dungeon changes. *)
Theorem rate_unknown_dungeon_stores_rating
        (db : DatabaseService) (d u : string) (r : Z) (c : option string)
        (uuid : string) (now : timestamp) :
  ratings_keyed db ->
  ratings_in_range db ->
  dungeons_keyed db ->
  DungeonService.get_dungeon_by_id d db = (Return None, db) ->
  1 <= r <= 5 ->
  exists o db',
    DungeonService.rate_dungeon d u r c uuid now db = (Return o, db')
    /\ In o (ratings db')
    /\ DungeonRating.dungeon_id o = d
    /\ DungeonRating.rating o = r
    /\ dungeons db' = dungeons db.
Proof.
  intros K B Kd G In15.
  destruct (rate_dungeon_succeeds db d u r c uuid now K B Kd In15)
    as (o & db' & Ret & _).
  destruct (rate_dungeon_returned _ _ _ _ _ _ _ _ _ Ret)
    as (_ & db1 & o1 & Ed & _ & W & Rec).
  assert (K1 : dungeons_keyed db1) by (unfold dungeons_keyed; now rewrite Ed).
  assert (G1 : DungeonService.get_dungeon_by_id d db1 = (Return None, db1)).
  { rewrite get_dungeon_by_id_first in G |- *. rewrite Ed.
    now destruct (filter _ (dungeons db)). }
  destruct (then_recompute_returned db1 db' d now o1 o K1 Rec)
    as (-> & _ & _ & _ & Same).
  rewrite (Same G1) in *.
  destruct (written_keeps db d u r c uuid now _ _ K B In15 W)
    as (_ & _ & Io & Do & Ro & _).
  exists o1, db1. repeat split; auto.
Qed.

Lemma rate_unknown_dungeon_stores_rating_witness :
  ratings_keyed db_dungeon
  /\ ratings_in_range db_dungeon
  /\ dungeons_keyed db_dungeon
  /\ exists o db',
      DungeonService.rate_dungeon "dungeon-404" "user-1" 4 None "rating-1" 2000
                                  db_dungeon
      = (Return o, db')
      /\ In o (ratings db')
      /\ dungeons db' = dungeons db_dungeon.
Proof.
  assert (K : ratings_keyed db_dungeon) by intros x [].
  assert (B : ratings_in_range db_dungeon) by intros x [].
  assert (Kd : dungeons_keyed db_dungeon).
  { intros x [<-|[]]. reflexivity. }
  split; [exact K|]. split; [exact B|]. split; [exact Kd|].
  destruct (rate_unknown_dungeon_stores_rating
              db_dungeon "dungeon-404" "user-1" 4 None "rating-1" 2000
              K B Kd eq_refl)
    as (o & db' & E & I & _ & _ & D); [lia|].
  exists o, db'. auto.
Defined.

(** X22.  Rating a dungeon is local to it: after a successful
    [rate_dungeon] every other dungeon is found as it was, aggregate
    included, the ratings of every other dungeon are the same rows, and
    the other containers are untouched. *)
Theorem rate_dungeon_is_local
        (db db' : DatabaseService) (d u : string) (r : Z) (c : option string)
        (uuid : string) (now : timestamp) (o : DungeonRating.t)
        (other : string) :
  ratings_keyed db ->
  ratings_in_range db ->
  dungeons_keyed db ->
  DungeonService.rate_dungeon d u r c uuid now db = (Return o, db') ->
  other <> d ->
  fst (DungeonService.get_dungeon_by_id other db')
  = fst (DungeonService.get_dungeon_by_id other db)
  /\ ratings_of db' other = ratings_of db other.
Proof.
  intros K B Kd Ret Ne.
  destruct (rate_dungeon_returned _ _ _ _ _ _ _ _ _ Ret)
    as (In15 & db1 & o1 & Ed & _ & W & Rec).
  assert (K1 : dungeons_keyed db1) by (unfold dungeons_keyed; now rewrite Ed).
  destruct (then_recompute_returned db1 db' d now o1 o K1 Rec)
    as (_ & Er & _ & Oth & _).
  destruct (written_keeps db d u r c uuid now _ _ K B In15 W)
    as (_ & _ & _ & _ & _ & Rows).
  split.
  - rewrite (Oth other Ne), !get_dungeon_by_id_first. now rewrite Ed.
  - unfold ratings_of at 1. rewrite Er. now apply Rows.
Qed.

Lemma rate_dungeon_is_local_witness :
  ratings_keyed db_two_dungeons
  /\ ratings_in_range db_two_dungeons
  /\ dungeons_keyed db_two_dungeons
  /\ map DungeonRating.rating (ratings_of db_two_dungeons "dungeon-2") = [2; 3]
  /\ exists o db',
      DungeonService.rate_dungeon "dungeon-1" "user-3" 5 None "rating-3" 3000
                                  db_two_dungeons
      = (Return o, db')
      /\ (exists dg dg',
             dungeon_at db_two_dungeons "dungeon-1" dg
             /\ dungeon_at db' "dungeon-1" dg'
             /\ Dungeon.total_ratings dg = 0
             /\ Dungeon.total_ratings dg' = 1)
      /\ (exists other,
             dungeon_at db_two_dungeons "dungeon-2" other
             /\ Dungeon.total_ratings other = 2)
      /\ fst (DungeonService.get_dungeon_by_id "dungeon-2" db')
         = fst (DungeonService.get_dungeon_by_id "dungeon-2" db_two_dungeons)
      /\ ratings_of db' "dungeon-2" = ratings_of db_two_dungeons "dungeon-2".
Proof.
  assert (K : ratings_keyed db_two_dungeons).
  { intros x [<-|[<-|[]]]; reflexivity. }
  assert (B : ratings_in_range db_two_dungeons).
  { intros x [<-|[<-|[]]]; simpl; lia. }
  assert (Kd : dungeons_keyed db_two_dungeons).
  { intros x [<-|[<-|[]]]; reflexivity. }
  split; [exact K|]. split; [exact B|]. split; [exact Kd|].
  split; [reflexivity|].
  destruct (DungeonService.rate_dungeon "dungeon-1" "user-3" 5 None
              "rating-3" 3000 db_two_dungeons) as [[o|e] db'] eqn:E;
    [|vm_compute in E; discriminate E].
  exists o, db'. split; [reflexivity|].
  assert (Other : "dungeon-2"%string <> "dungeon-1"%string) by discriminate.
  destruct (rate_dungeon_is_local
              db_two_dungeons db' "dungeon-1" "user-3" 5 None "rating-3" 3000
              o "dungeon-2" K B Kd E Other) as [Same Rows].
  split; [|split; [|split; [exact Same|exact Rows]]].
  - vm_compute in E. injection E as _ <-.
    eexists. eexists. repeat split.
  - eexists. split; reflexivity.
Defined.

Lemma dungeon_call_keeps (c : dungeon_call) (now : timestamp)
      (db : DatabaseService) :
  dungeons_keyed db /\ ratings_keyed db /\ ratings_in_range db ->
  dungeons_keyed (run_dungeon_call c now db)
  /\ ratings_keyed (run_dungeon_call c now db)
  /\ ratings_in_range (run_dungeon_call c now db).
Proof.
  intros (Kd & K & B).
  destruct c as [dc cr uuid|d u r cm uuid|d|d cr]; simpl run_dungeon_call.
  - split; [now apply create_dungeon_keeps_keys|]. split; assumption.
  - destruct (Z_lt_ge_dec r 1) as [Lt|Ge];
      [rewrite rate_dungeon_out_of_range by lia; auto|].
    destruct (Z_lt_ge_dec 5 r) as [Lt|Ge'];
      [rewrite rate_dungeon_out_of_range by lia; auto|].
    assert (In15 : 1 <= r <= 5) by lia.
    destruct (rate_dungeon_succeeds db d u r cm uuid now K B Kd In15)
      as (o & db' & Ret & _).
    rewrite Ret. simpl.
    destruct (rate_dungeon_returned _ _ _ _ _ _ _ _ _ Ret)
      as (_ & db1 & o1 & Ed & _ & W & Rec).
    assert (K1 : dungeons_keyed db1) by (unfold dungeons_keyed; now rewrite Ed).
    destruct (then_recompute_returned db1 db' d now o1 o K1 Rec)
      as (_ & Er & Kd' & _).
    destruct (written_keeps db d u r cm uuid now _ _ K B In15 W)
      as (K' & B' & _).
    split; [exact Kd'|].
    unfold ratings_keyed, ratings_in_range. rewrite Er. auto.
  - destruct (increment_play_count_effect db d now Kd)
      as [(_ & E)|(dg & db' & _ & E & RW)]; rewrite E; simpl; [auto|].
    split; [exact (dungeon_rewritten_keyed _ _ _ _ _ RW eq_refl eq_refl Kd)|].
    destruct RW as (l1 & l2 & _ & _ & ->). auto.
  - destruct (delete_dungeon_effect db d cr Kd)
      as [(E & _)|(dg & l1 & l2 & _ & _ & Es & _ & _ & E)]; rewrite E; simpl;
      [auto|].
    split; [|auto].
    intros x Hx. simpl dungeons in Hx. apply Kd. rewrite Es.
    apply in_app_or in Hx. apply in_or_app.
    destruct Hx; [now left|right; now right].
Qed.

(** X23.  Whatever sequence of dungeon creations, ratings (with any value,
    accepted or refused), plays and deletions is made, every dungeon stays
    in its creator's partition, every rating stays in its dungeon's
    partition with a value between 1 and 5, and therefore a later
    [rate_dungeon] with a value between 1 and 5 always returns the
    rating: it never fails on the division or on a lost row. *)
Theorem dungeon_calls_keep_ratings_valid
        (calls : list (dungeon_call * timestamp)) (db : DatabaseService) :
  dungeons_keyed db ->
  ratings_keyed db ->
  ratings_in_range db ->
  dungeons_keyed (run_dungeon_calls calls db)
  /\ ratings_keyed (run_dungeon_calls calls db)
  /\ ratings_in_range (run_dungeon_calls calls db)
  /\ forall d u r c uuid now,
      1 <= r <= 5 ->
      exists o db',
        DungeonService.rate_dungeon d u r c uuid now
                                    (run_dungeon_calls calls db)
        = (Return o, db')
        /\ DungeonRating.rating o = r.
Proof.
  intros Kd K B.
  assert (Inv : dungeons_keyed (run_dungeon_calls calls db)
                /\ ratings_keyed (run_dungeon_calls calls db)
                /\ ratings_in_range (run_dungeon_calls calls db)).
  { revert db Kd K B. induction calls as [|[c now] calls IH]; intros db Kd K B.
    - simpl. auto.
    - simpl run_dungeon_calls.
      destruct (dungeon_call_keeps c now db (conj Kd (conj K B)))
        as (Kd' & K' & B').
      now apply IH. }
  destruct Inv as (Kd' & K' & B').
  split; [exact Kd'|]. split; [exact K'|]. split; [exact B'|].
  intros d u r c uuid now In15.
  now apply rate_dungeon_succeeds.
Qed.

Lemma dungeon_calls_keep_ratings_valid_witness :
  dungeons_keyed empty_db
  /\ ratings_keyed empty_db
  /\ ratings_in_range empty_db
  /\ ratings_in_range
       (run_dungeon_calls
          [(CreateDungeon crypt "creator-1" "dungeon-1", 1000);
           (RateDungeon "dungeon-1" "user-1" 5 None "rating-1", 2000);
           (RateDungeon "dungeon-1" "user-2" 9 None "rating-2", 2100);
           (PlayDungeon "dungeon-1", 2200);
           (RateDungeon "dungeon-1" "user-1" 2 None "rating-3", 2300);
           (DeleteDungeon "dungeon-1" "creator-1", 2400);
           (RateDungeon "dungeon-1" "user-3" 1 None "rating-4", 2500)]
          empty_db).
Proof.
  assert (Kd : dungeons_keyed empty_db) by intros x [].
  assert (K : ratings_keyed empty_db) by intros x [].
  assert (B : ratings_in_range empty_db) by intros x [].
  split; [exact Kd|]. split; [exact K|]. split; [exact B|].
  exact (proj1 (proj2 (proj2 (dungeon_calls_keep_ratings_valid
                                _ empty_db Kd K B)))).
Defined.

(** *** Leaderboard: upserts *)

Lemma player_of_rows (u : string) (c : list LeaderboardItem) :
  filter (LeaderboardService.player_of u) c
  = map PlayerScoreDoc (rows_of_player u c).
Proof.
  unfold rows_of_player.
  induction c as [|[p|d] c IH]; simpl; [reflexivity| |exact IH].
  destruct (String.eqb (PlayerScore.user_id p) u); simpl; now rewrite IH.
Qed.

Lemma dungeon_of_rows (d : string) (c : list LeaderboardItem) :
  filter (LeaderboardService.dungeon_of d) c
  = map DungeonScoreDoc (rows_of_dungeon d c).
Proof.
  unfold rows_of_dungeon.
  induction c as [|[p|s] c IH]; simpl; [reflexivity|exact IH|].
  destruct (String.eqb (DungeonScore.dungeon_id s) d); simpl; now rewrite IH.
Qed.

Lemma rows_of_player_In (u : string) (c : list LeaderboardItem)
      (p : PlayerScore.t) :
  In p (rows_of_player u c) <->
  In (PlayerScoreDoc p) c /\ PlayerScore.user_id p = u.
Proof.
  unfold rows_of_player. rewrite in_flat_map. split.
  - intros ([q|d] & I & Hp); [|destruct Hp].
    destruct (String.eqb (PlayerScore.user_id q) u) eqn:E; [|destruct Hp].
    destruct Hp as [<-|[]]. apply String.eqb_eq in E. auto.
  - intros (I & E). exists (PlayerScoreDoc p). split; [exact I|].
    apply String.eqb_eq in E. rewrite E. now left.
Qed.

Lemma rows_of_dungeon_In (d : string) (c : list LeaderboardItem)
      (s : DungeonScore.t) :
  In s (rows_of_dungeon d c) <->
  In (DungeonScoreDoc s) c /\ DungeonScore.dungeon_id s = d.
Proof.
  unfold rows_of_dungeon. rewrite in_flat_map. split.
  - intros ([p|q] & I & Hs); [destruct Hs|].
    destruct (String.eqb (DungeonScore.dungeon_id q) d) eqn:E; [|destruct Hs].
    destruct Hs as [<-|[]]. apply String.eqb_eq in E. auto.
  - intros (I & E). exists (DungeonScoreDoc s). split; [exact I|].
    apply String.eqb_eq in E. rewrite E. now left.
Qed.

Lemma app_singleton {A : Type} (l1 l2 : list A) (x y : A) :
  l1 ++ x :: l2 = [y] -> l1 = [] /\ l2 = [] /\ x = y.
Proof.
  destruct l1 as [|a l1]; simpl; intros E.
  - injection E as -> ->. auto.
  - injection E as _ E. now destruct l1.
Qed.

(** X24.  [update_player_score] is an upsert.  For a player without a row
    it stores a row holding the arguments; for a player with a row it
    overwrites the scores of that row and keeps its [username], whatever
    name is passed.  Either way the player has exactly one row afterwards,
    [get_player_score] returns it, the rank is one more than the number of
    players with a strictly greater score, and the rows of all other
    players are untouched. *)
Theorem update_player_score_upserts
        (db : DatabaseService) (user_id username : string)
        (score dungeons_completed dungeons_created : Z)
        (average_rating : float) (uuid : string) (now : timestamp) :
  unique_ids (leaderboard db) ->
  leaderboard_keyed db ->
  (rows_of_player user_id (leaderboard db) = [] ->
   fresh_id uuid (leaderboard db)) ->
  (List.length (rows_of_player user_id (leaderboard db)) <= 1)%nat ->
  exists p db',
    LeaderboardService.update_player_score
      user_id username score dungeons_completed dungeons_created
      average_rating uuid now db
    = (Return tt, db')
    /\ player_row db' p
    /\ PlayerScore.user_id p = user_id
    /\ PlayerScore.total_score p = score
    /\ PlayerScore.dungeons_completed p = dungeons_completed
    /\ PlayerScore.dungeons_created p = dungeons_created
    /\ PlayerScore.average_rating p = average_rating
    /\ PlayerScore.last_updated p = now
    /\ PlayerScore.username p
       = match rows_of_player user_id (leaderboard db) with
         | [] => username
         | p0 :: _ => PlayerScore.username p0
         end
    /\ LeaderboardService.get_player_score user_id db' = (Return (Some p), db')
    /\ LeaderboardService.get_player_rank user_id db'
       = (Return (Some (players_above score db' + 1)), db')
    /\ (forall other,
           other <> user_id ->
           rows_of_player other (leaderboard db')
           = rows_of_player other (leaderboard db))
    /\ (forall d, rows_of_dungeon d (leaderboard db')
                  = rows_of_dungeon d (leaderboard db))
    /\ unique_ids (leaderboard db')
    /\ leaderboard_keyed db'.
Proof.
  intros U K Fresh One.
  assert (Finish :
            forall p db',
              LeaderboardService.update_player_score
                user_id username score dungeons_completed dungeons_created
                average_rating uuid now db = (Return tt, db') ->
              rows_of_player user_id (leaderboard db') = [p] ->
              PlayerScore.user_id p = user_id ->
              PlayerScore.total_score p = score ->
              LeaderboardService.update_player_score
                user_id username score dungeons_completed dungeons_created
                average_rating uuid now db = (Return tt, db')
              /\ player_row db' p
              /\ LeaderboardService.get_player_score user_id db'
                 = (Return (Some p), db')
              /\ LeaderboardService.get_player_rank user_id db'
                 = (Return (Some (players_above score db' + 1)), db')).
  { intros p db' E Row Id Sc.
    assert (PR : player_row db' p) by (unfold player_row; now rewrite Id).
    split; [exact E|]. split; [exact PR|]. split.
    - unfold LeaderboardService.get_player_score, bind, query_items,
        Container.query_items.
      change (read leaderboard_container db') with (leaderboard db').
      now rewrite player_of_rows, Row.
    - rewrite <- Id, <- Sc. now apply get_player_rank_of_row. }
  unfold LeaderboardService.update_player_score, bind, query_items,
    Container.query_items in *.
  change (read leaderboard_container db) with (leaderboard db) in *.
  rewrite player_of_rows in *.
  destruct (rows_of_player user_id (leaderboard db)) as [|p0 rest] eqn:Rows.
  - specialize (Fresh eq_refl). cbn [map] in *.
    set (p := PlayerScore.mk uuid user_id username score dungeons_completed
                             dungeons_created average_rating now now now
                             "player_scores").
    set (db' := write leaderboard_container
                      (leaderboard db ++ [PlayerScoreDoc p]) db).
    assert (Row : rows_of_player user_id (leaderboard db') = [p]).
    { change (leaderboard db') with (leaderboard db ++ [PlayerScoreDoc p]).
      unfold rows_of_player in *. rewrite flat_map_app, Rows. simpl.
      now rewrite String.eqb_refl. }
    destruct (Finish p db' eq_refl Row eq_refl eq_refl) as (E & PR & G & Rk).
    exists p, db'. split; [exact E|]. split; [exact PR|].
    do 7 (split; [reflexivity|]).
    split; [exact G|]. split; [exact Rk|]. split; [|split; [|split]].
    + intros other Ne.
      change (leaderboard db') with (leaderboard db ++ [PlayerScoreDoc p]).
      unfold rows_of_player. rewrite flat_map_app. simpl.
      assert (Ne' : String.eqb user_id other = false)
        by (apply String.eqb_neq; congruence).
      rewrite Ne'. apply app_nil_r.
    + intros d.
      change (leaderboard db') with (leaderboard db ++ [PlayerScoreDoc p]).
      unfold rows_of_dungeon. rewrite flat_map_app. simpl. apply app_nil_r.
    + now apply (unique_ids_create (leaderboard db) (PlayerScoreDoc p)).
    + intros x Hx.
      change (leaderboard db') with (leaderboard db ++ [PlayerScoreDoc p]) in Hx.
      apply in_app_or in Hx. destruct Hx as [Hx|[<-|[]]];
        [now apply K|reflexivity].
  - assert (rest = []) by (destruct rest; [reflexivity|simpl in One; lia]).
    subst rest. cbn [map] in *.
    assert (I0 : In (PlayerScoreDoc p0) (leaderboard db)
                 /\ PlayerScore.user_id p0 = user_id)
      by (apply rows_of_player_In; rewrite Rows; now left).
    destruct I0 as [I0 Id0].
    destruct (in_unique_split _ _ U I0) as (l1 & l2 & E & N1 & N2).
    set (p := on_update now
                (PlayerScore.with_scores score dungeons_completed
                   dungeons_created average_rating now p0)).
    set (db' := write leaderboard_container (l1 ++ PlayerScoreDoc p :: l2) db).
    assert (Upd :
              update_item leaderboard_container (doc_id (PlayerScoreDoc p0))
                "player_scores"
                (on_player (PlayerScore.with_scores score dungeons_completed
                              dungeons_created average_rating now)) now db
              = (Return (PlayerScoreDoc p), db')).
    { rewrite (update_item_at leaderboard_container db l1 l2 (PlayerScoreDoc p0)
                 _ "player_scores" _ now E).
      - reflexivity.
      - now apply unaddressed_by_id.
      - apply addressed_true. split; [reflexivity|]. exact (K _ I0).
      - exact (K _ I0). }
    assert (Rows' : rows_of_player user_id l1 = []
                    /\ rows_of_player user_id l2 = []).
    { unfold rows_of_player in Rows |- *. rewrite E, flat_map_app in Rows.
      simpl in Rows. apply String.eqb_eq in Id0. rewrite Id0 in Rows.
      simpl in Rows.
      destruct (app_singleton _ _ _ _ Rows) as (R1 & R2 & _). auto. }
    destruct Rows' as [R1 R2].
    assert (Row : rows_of_player user_id (leaderboard db') = [p]).
    { change (leaderboard db') with (l1 ++ PlayerScoreDoc p :: l2).
      unfold rows_of_player in *. rewrite flat_map_app. simpl.
      change (PlayerScore.user_id p) with (PlayerScore.user_id p0).
      apply String.eqb_eq in Id0. now rewrite Id0, R1, R2. }
    assert (E' : (_ <- update_item leaderboard_container
                         (doc_id (PlayerScoreDoc p0)) "player_scores"
                         (on_player
                            (PlayerScore.with_scores score dungeons_completed
                               dungeons_created average_rating now)) now ;;
                  ret tt) db = (Return tt, db'))
      by (unfold bind; now rewrite Upd).
    unfold bind in E'.
    destruct (Finish p db' E' Row Id0 eq_refl) as (Ex & PR & G & Rk).
    exists p, db'. split; [exact Ex|]. split; [exact PR|].
    split; [exact Id0|]. do 6 (split; [reflexivity|]).
    split; [exact G|]. split; [exact Rk|]. split; [|split; [|split]].
    + intros other Ne.
      change (leaderboard db') with (l1 ++ PlayerScoreDoc p :: l2).
      rewrite E. unfold rows_of_player. rewrite !flat_map_app. simpl.
      change (PlayerScore.user_id p) with (PlayerScore.user_id p0).
      rewrite Id0.
      assert (Ne' : String.eqb user_id other = false)
        by (apply String.eqb_neq; congruence).
      now rewrite Ne'.
    + intros d.
      change (leaderboard db') with (l1 ++ PlayerScoreDoc p :: l2).
      rewrite E. unfold rows_of_dungeon. now rewrite !flat_map_app.
    + change (leaderboard db') with (l1 ++ PlayerScoreDoc p :: l2).
      rewrite E in U.
      now apply (unique_ids_replace l1 l2 (PlayerScoreDoc p0)).
    + intros x Hx.
      change (leaderboard db') with (l1 ++ PlayerScoreDoc p :: l2) in Hx.
      apply in_app_or in Hx. destruct Hx as [Hx|[<-|Hx]].
      * apply K. rewrite E. apply in_or_app. now left.
      * exact (K _ I0).
      * apply K. rewrite E. apply in_or_app. right. now right.
Qed.

Lemma db_board_unique : unique_ids (leaderboard db_board).
Proof.
  unfold unique_ids. simpl.
  repeat constructor; simpl; intuition discriminate.
Defined.

Lemma db_board_keyed : leaderboard_keyed db_board.
Proof.
  intros x [<-|[<-|[<-|[<-|[]]]]]; reflexivity.
Defined.

Lemma update_player_score_upserts_witness :
  unique_ids (leaderboard db_board)
  /\ leaderboard_keyed db_board
  /\ (List.length (rows_of_player "ann" (leaderboard db_board)) <= 1)%nat
  /\ exists p db',
      LeaderboardService.update_player_score "ann" "annie" 400 3 1 float_zero
                                             "score-4" 2000 db_board
      = (Return tt, db')
      /\ LeaderboardService.get_player_score "ann" db' = (Return (Some p), db')
      /\ PlayerScore.total_score p = 400
      /\ PlayerScore.username p = "ann"%string.
Proof.
  assert (One : (List.length (rows_of_player "ann" (leaderboard db_board)) <= 1)%nat)
    by (simpl; lia).
  split; [exact db_board_unique|]. split; [exact db_board_keyed|].
  split; [exact One|].
  destruct (update_player_score_upserts
              db_board "ann" "annie" 400 3 1 float_zero "score-4" 2000
              db_board_unique db_board_keyed)
    as (p & db' & E & _ & _ & S & _ & _ & _ & _ & N & G & _);
    [intros R; discriminate R|exact One|].
  exists p, db'. split; [exact E|]. split; [exact G|]. split; [exact S|exact N].
Defined.

(** X25.  [update_dungeon_score] is an upsert as well.  A dungeon without
    a row gets one holding the arguments; a dungeon with a row has its
    scores overwritten and keeps its [dungeon_name] and
    [creator_username], whatever is passed.  The dungeon has exactly one
    row afterwards, [get_dungeon_score] returns it, its rank is one more
    than the number of dungeons with a strictly greater average rating,
    and all other rows are untouched. *)
Theorem update_dungeon_score_upserts
        (db : DatabaseService) (dungeon_id dungeon_name creator_username : string)
        (score play_count : Z) (average_rating : float) (total_ratings : Z)
        (uuid : string) (now : timestamp) :
  unique_ids (leaderboard db) ->
  leaderboard_keyed db ->
  (rows_of_dungeon dungeon_id (leaderboard db) = [] ->
   fresh_id uuid (leaderboard db)) ->
  (List.length (rows_of_dungeon dungeon_id (leaderboard db)) <= 1)%nat ->
  exists s db',
    LeaderboardService.update_dungeon_score
      dungeon_id dungeon_name creator_username score play_count
      average_rating total_ratings uuid now db
    = (Return tt, db')
    /\ dungeon_row db' s
    /\ DungeonScore.dungeon_id s = dungeon_id
    /\ DungeonScore.total_score s = score
    /\ DungeonScore.play_count s = play_count
    /\ DungeonScore.average_rating s = average_rating
    /\ DungeonScore.total_ratings s = total_ratings
    /\ DungeonScore.last_updated s = now
    /\ DungeonScore.dungeon_name s
       = match rows_of_dungeon dungeon_id (leaderboard db) with
         | [] => dungeon_name
         | s0 :: _ => DungeonScore.dungeon_name s0
         end
    /\ DungeonScore.creator_username s
       = match rows_of_dungeon dungeon_id (leaderboard db) with
         | [] => creator_username
         | s0 :: _ => DungeonScore.creator_username s0
         end
    /\ LeaderboardService.get_dungeon_score dungeon_id db'
       = (Return (Some s), db')
    /\ LeaderboardService.get_dungeon_rank dungeon_id db'
       = (Return (Some (dungeons_above average_rating db' + 1)), db')
    /\ (forall other,
           other <> dungeon_id ->
           rows_of_dungeon other (leaderboard db')
           = rows_of_dungeon other (leaderboard db))
    /\ (forall u, rows_of_player u (leaderboard db')
                  = rows_of_player u (leaderboard db))
    /\ unique_ids (leaderboard db')
    /\ leaderboard_keyed db'.
Proof.
  intros U K Fresh One.
  assert (Finish :
            forall s db',
              LeaderboardService.update_dungeon_score
                dungeon_id dungeon_name creator_username score play_count
                average_rating total_ratings uuid now db = (Return tt, db') ->
              rows_of_dungeon dungeon_id (leaderboard db') = [s] ->
              DungeonScore.dungeon_id s = dungeon_id ->
              DungeonScore.average_rating s = average_rating ->
              LeaderboardService.update_dungeon_score
                dungeon_id dungeon_name creator_username score play_count
                average_rating total_ratings uuid now db = (Return tt, db')
              /\ dungeon_row db' s
              /\ LeaderboardService.get_dungeon_score dungeon_id db'
                 = (Return (Some s), db')
              /\ LeaderboardService.get_dungeon_rank dungeon_id db'
                 = (Return (Some (dungeons_above average_rating db' + 1)), db')).
  { intros s db' E Row Id Av.
    assert (DR : dungeon_row db' s) by (unfold dungeon_row; now rewrite Id).
    split; [exact E|]. split; [exact DR|]. split.
    - unfold LeaderboardService.get_dungeon_score, bind, query_items,
        Container.query_items.
      change (read leaderboard_container db') with (leaderboard db').
      now rewrite dungeon_of_rows, Row.
    - rewrite <- Id, <- Av. now apply get_dungeon_rank_of_row. }
  unfold LeaderboardService.update_dungeon_score, bind, query_items,
    Container.query_items in *.
  change (read leaderboard_container db) with (leaderboard db) in *.
  rewrite dungeon_of_rows in *.
  destruct (rows_of_dungeon dungeon_id (leaderboard db)) as [|s0 rest] eqn:Rows.
  - specialize (Fresh eq_refl). cbn [map] in *.
    set (s := DungeonScore.mk uuid dungeon_id dungeon_name creator_username
                              score play_count average_rating total_ratings
                              now now now "dungeon_scores").
    set (db' := write leaderboard_container
                      (leaderboard db ++ [DungeonScoreDoc s]) db).
    assert (Row : rows_of_dungeon dungeon_id (leaderboard db') = [s]).
    { change (leaderboard db') with (leaderboard db ++ [DungeonScoreDoc s]).
      unfold rows_of_dungeon in *. rewrite flat_map_app, Rows. simpl.
      now rewrite String.eqb_refl. }
    destruct (Finish s db' eq_refl Row eq_refl eq_refl) as (E & DR & G & Rk).
    exists s, db'. split; [exact E|]. split; [exact DR|].
    do 8 (split; [reflexivity|]).
    split; [exact G|]. split; [exact Rk|]. split; [|split; [|split]].
    + intros other Ne.
      change (leaderboard db') with (leaderboard db ++ [DungeonScoreDoc s]).
      unfold rows_of_dungeon. rewrite flat_map_app. simpl.
      assert (Ne' : String.eqb dungeon_id other = false)
        by (apply String.eqb_neq; congruence).
      rewrite Ne'. apply app_nil_r.
    + intros u.
      change (leaderboard db') with (leaderboard db ++ [DungeonScoreDoc s]).
      unfold rows_of_player. rewrite flat_map_app. simpl. apply app_nil_r.
    + now apply (unique_ids_create (leaderboard db) (DungeonScoreDoc s)).
    + intros x Hx.
      change (leaderboard db') with (leaderboard db ++ [DungeonScoreDoc s]) in Hx.
      apply in_app_or in Hx. destruct Hx as [Hx|[<-|[]]];
        [now apply K|reflexivity].
  - assert (rest = []) by (destruct rest; [reflexivity|simpl in One; lia]).
    subst rest. cbn [map] in *.
    assert (I0 : In (DungeonScoreDoc s0) (leaderboard db)
                 /\ DungeonScore.dungeon_id s0 = dungeon_id)
      by (apply rows_of_dungeon_In; rewrite Rows; now left).
    destruct I0 as [I0 Id0].
    destruct (in_unique_split _ _ U I0) as (l1 & l2 & E & N1 & N2).
    set (s := on_update now
                (DungeonScore.with_scores score play_count average_rating
                   total_ratings now s0)).
    set (db' := write leaderboard_container (l1 ++ DungeonScoreDoc s :: l2) db).
    assert (Upd :
              update_item leaderboard_container (doc_id (DungeonScoreDoc s0))
                "dungeon_scores"
                (on_dungeon_score
                   (DungeonScore.with_scores score play_count average_rating
                      total_ratings now)) now db
              = (Return (DungeonScoreDoc s), db')).
    { rewrite (update_item_at leaderboard_container db l1 l2 (DungeonScoreDoc s0)
                 _ "dungeon_scores" _ now E).
      - reflexivity.
      - now apply unaddressed_by_id.
      - apply addressed_true. split; [reflexivity|]. exact (K _ I0).
      - exact (K _ I0). }
    assert (Rows' : rows_of_dungeon dungeon_id l1 = []
                    /\ rows_of_dungeon dungeon_id l2 = []).
    { unfold rows_of_dungeon in Rows |- *. rewrite E, flat_map_app in Rows.
      simpl in Rows. apply String.eqb_eq in Id0. rewrite Id0 in Rows.
      simpl in Rows.
      destruct (app_singleton _ _ _ _ Rows) as (R1 & R2 & _). auto. }
    destruct Rows' as [R1 R2].
    assert (Row : rows_of_dungeon dungeon_id (leaderboard db') = [s]).
    { change (leaderboard db') with (l1 ++ DungeonScoreDoc s :: l2).
      unfold rows_of_dungeon in *. rewrite flat_map_app. simpl.
      change (DungeonScore.dungeon_id s) with (DungeonScore.dungeon_id s0).
      apply String.eqb_eq in Id0. now rewrite Id0, R1, R2. }
    assert (E' : (_ <- update_item leaderboard_container
                         (doc_id (DungeonScoreDoc s0)) "dungeon_scores"
                         (on_dungeon_score
                            (DungeonScore.with_scores score play_count
                               average_rating total_ratings now)) now ;;
                  ret tt) db = (Return tt, db'))
      by (unfold bind; now rewrite Upd).
    unfold bind in E'.
    destruct (Finish s db' E' Row Id0 eq_refl) as (Ex & DR & G & Rk).
    exists s, db'. split; [exact Ex|]. split; [exact DR|].
    split; [exact Id0|]. do 7 (split; [reflexivity|]).
    split; [exact G|]. split; [exact Rk|]. split; [|split; [|split]].
    + intros other Ne.
      change (leaderboard db') with (l1 ++ DungeonScoreDoc s :: l2).
      rewrite E. unfold rows_of_dungeon. rewrite !flat_map_app. simpl.
      change (DungeonScore.dungeon_id s) with (DungeonScore.dungeon_id s0).
      rewrite Id0.
      assert (Ne' : String.eqb dungeon_id other = false)
        by (apply String.eqb_neq; congruence).
      now rewrite Ne'.
    + intros u.
      change (leaderboard db') with (l1 ++ DungeonScoreDoc s :: l2).
      rewrite E. unfold rows_of_player. now rewrite !flat_map_app.
    + change (leaderboard db') with (l1 ++ DungeonScoreDoc s :: l2).
      rewrite E in U.
      now apply (unique_ids_replace l1 l2 (DungeonScoreDoc s0)).
    + intros x Hx.
      change (leaderboard db') with (l1 ++ DungeonScoreDoc s :: l2) in Hx.
      apply in_app_or in Hx. destruct Hx as [Hx|[<-|Hx]].
      * apply K. rewrite E. apply in_or_app. now left.
      * exact (K _ I0).
      * apply K. rewrite E. apply in_or_app. right. now right.
Qed.

Lemma update_dungeon_score_upserts_witness :
  unique_ids (leaderboard db_board)
  /\ leaderboard_keyed db_board
  /\ (List.length (rows_of_dungeon "dungeon-1" (leaderboard db_board)) <= 1)%nat
  /\ exists s db',
      LeaderboardService.update_dungeon_score
        "dungeon-1" "Crypt II" "bea" 80 9 float_zero 0 "score-10" 2000 db_board
      = (Return tt, db')
      /\ LeaderboardService.get_dungeon_score "dungeon-1" db'
         = (Return (Some s), db')
      /\ DungeonScore.play_count s = 9
      /\ DungeonScore.dungeon_name s = "Crypt"%string.
Proof.
  assert (One : (List.length (rows_of_dungeon "dungeon-1" (leaderboard db_board))
                 <= 1)%nat)
    by (simpl; lia).
  split; [exact db_board_unique|]. split; [exact db_board_keyed|].
  split; [exact One|].
  destruct (update_dungeon_score_upserts
              db_board "dungeon-1" "Crypt II" "bea" 80 9 float_zero 0
              "score-10" 2000 db_board_unique db_board_keyed)
    as (s & db' & E & _ & _ & _ & P & _ & _ & _ & N & _ & G & _);
    [intros R; discriminate R|exact One|].
  exists s, db'. split; [exact E|]. split; [exact G|]. split; [exact P|exact N].
Defined.

(** *** Listings *)

Lemma insert_desc_length {A : Type} (key : A -> Z) (x : A) (l : list A) :
  List.length (insert_desc key x l) = S (List.length l).
Proof.
  induction l as [|y l IH]; simpl; [reflexivity|].
  destruct (key y <? key x); simpl; [reflexivity|now rewrite IH].
Qed.

Lemma order_by_desc_length {A : Type} (key : A -> Z) (l : list A) :
  List.length (order_by_desc key l) = List.length l.
Proof.
  unfold order_by_desc. induction l as [|x l IH]; simpl; [reflexivity|].
  now rewrite insert_desc_length, IH.
Qed.

Lemma insert_desc_sorted {A : Type} (key : A -> Z) (x : A) (l : list A) :
  StronglySorted (fun a b => key b <= key a) l ->
  StronglySorted (fun a b => key b <= key a) (insert_desc key x l).
Proof.
  induction l as [|y l IH]; simpl; intros S.
  - repeat constructor.
  - inversion S as [|y' l' Sl Fy]; subst.
    destruct (key y <? key x) eqn:C.
    + apply Z.ltb_lt in C. constructor; [exact S|].
      constructor; [lia|].
      rewrite Forall_forall in Fy |- *. intros z Hz.
      specialize (Fy z Hz). lia.
    + apply Z.ltb_ge in C. constructor; [now apply IH|].
      rewrite Forall_forall in Fy |- *. intros z Hz.
      apply insert_desc_In in Hz. destruct Hz as [->|Hz]; [exact C|auto].
Qed.

Lemma order_by_desc_sorted {A : Type} (key : A -> Z) (l : list A) :
  StronglySorted (fun a b => key b <= key a) (order_by_desc key l).
Proof.
  unfold order_by_desc. induction l as [|x l IH]; simpl.
  - constructor.
  - now apply insert_desc_sorted.
Qed.

Lemma comprehension_lobbies (l : list LobbiesItem) :
  (forall x, In x l -> exists lb, x = LobbyDoc lb) ->
  exists ls, comprehension as_Lobby l = Return ls /\ map LobbyDoc ls = l.
Proof.
  induction l as [|x l IH]; intros Lb; simpl.
  - exists []. auto.
  - destruct (Lb x (or_introl eq_refl)) as (lb & ->). simpl.
    destruct IH as (ls & -> & E); [intros y Hy; apply Lb; now right|].
    exists (lb :: ls). simpl. now rewrite E.
Qed.

Lemma sorted_lobbies (ls : list Lobby.t) :
  StronglySorted (fun a b => created_at_of b <= created_at_of a)
                 (map LobbyDoc ls) ->
  StronglySorted (fun a b => Lobby.created_at b <= Lobby.created_at a) ls.
Proof.
  induction ls as [|x ls IH]; simpl; intros S; [constructor|].
  inversion S as [|y l' Sl Fy]; subst. constructor; [now apply IH|].
  rewrite Forall_forall in Fy |- *. intros z Hz.
  exact (Fy (LobbyDoc z) (in_map LobbyDoc ls z Hz)).
Qed.

(** X26.  [get_lobbies_by_creator] never fails on the invites that share
    the container with the lobbies; it returns exactly the lobbies whose
    [creator_id] is the argument, whatever their status, each once per
    stored document, the most recently created first. *)
Theorem get_lobbies_by_creator_newest_first
        (db : DatabaseService) (creator_id : string) :
  exists listing,
    LobbyService.get_lobbies_by_creator creator_id db = (Return listing, db)
    /\ (forall l,
           In l listing <->
           In (LobbyDoc l) (lobbies db) /\ Lobby.creator_id l = creator_id)
    /\ StronglySorted
         (fun a b => Lobby.created_at b <= Lobby.created_at a) listing
    /\ List.length listing
       = List.length
           (filter
              (lobby_where
                 (fun l => String.eqb (Lobby.creator_id l) creator_id))
              (lobbies db)).
Proof.
  unfold LobbyService.get_lobbies_by_creator, bind, query_values, lift.
  change (read lobbies_container db) with (lobbies db).
  set (sel := filter
                (lobby_where
                   (fun l => String.eqb (Lobby.creator_id l) creator_id))
                (lobbies db)).
  destruct (comprehension_lobbies (order_by_desc created_at_of sel))
    as (ls & C & E).
  - intros x Hx. apply order_by_desc_In, filter_In in Hx.
    destruct Hx as [_ Hx]. destruct x as [l|w]; [eauto|discriminate Hx].
  - exists ls. rewrite C. split; [reflexivity|]. split; [|split].
    + intros l. split.
      * intros Hl. apply (in_map LobbyDoc) in Hl. rewrite E in Hl.
        apply order_by_desc_In, filter_In in Hl. simpl in Hl.
        now rewrite String.eqb_eq in Hl.
      * intros [I Cr].
        assert (Hl : In (LobbyDoc l) (map LobbyDoc ls)).
        { rewrite E. apply order_by_desc_In, filter_In. simpl.
          now rewrite String.eqb_eq. }
        apply in_map_iff in Hl. destruct Hl as (l' & El & Hl).
        now injection El as ->.
    + apply sorted_lobbies. rewrite E. apply order_by_desc_sorted.
    + rewrite <- (length_map LobbyDoc ls), E. apply order_by_desc_length.
Qed.

(** *** Leaderboard: ranks *)

Lemma above_mono (s s' : Z) (c : list LeaderboardItem) :
  s <= s' ->
  Nat.le
    (List.length
       (filter (fun doc => match doc with
                           | PlayerScoreDoc q => s' <? PlayerScore.total_score q
                           | DungeonScoreDoc _ => false
                           end) c))
    (List.length
       (filter (fun doc => match doc with
                           | PlayerScoreDoc q => s <? PlayerScore.total_score q
                           | DungeonScoreDoc _ => false
                           end) c)).
Proof.
  intros Le. induction c as [|[q|d] c IH]; simpl; [lia| |exact IH].
  destruct (s' <? PlayerScore.total_score q) eqn:A'.
  - apply Z.ltb_lt in A'.
    assert (A : (s <? PlayerScore.total_score q) = true)
      by (apply Z.ltb_lt; lia).
    rewrite A. simpl. lia.
  - destruct (s <? PlayerScore.total_score q); simpl; lia.
Qed.

Lemma above_strict (s s' : Z) (c : list LeaderboardItem) (q : PlayerScore.t) :
  In (PlayerScoreDoc q) c ->
  s < PlayerScore.total_score q <= s' ->
  Nat.lt
    (List.length
       (filter (fun doc => match doc with
                           | PlayerScoreDoc q => s' <? PlayerScore.total_score q
                           | DungeonScoreDoc _ => false
                           end) c))
    (List.length
       (filter (fun doc => match doc with
                           | PlayerScoreDoc q => s <? PlayerScore.total_score q
                           | DungeonScoreDoc _ => false
                           end) c)).
Proof.
  intros I B. induction c as [|x c IH]; [destruct I|].
  assert (Le : s <= s') by lia.
  pose proof (above_mono s s' c Le) as M.
  destruct I as [->|I]; cbn [filter].
  - assert (A : (s <? PlayerScore.total_score q) = true)
      by (apply Z.ltb_lt; lia).
    assert (A' : (s' <? PlayerScore.total_score q) = false)
      by (apply Z.ltb_ge; lia).
    rewrite A, A'. simpl. lia.
  - specialize (IH I). destruct x as [p|d]; [|exact IH].
    destruct (s' <? PlayerScore.total_score p) eqn:A'.
    + apply Z.ltb_lt in A'.
      assert (A : (s <? PlayerScore.total_score p) = true)
        by (apply Z.ltb_lt; lia).
      rewrite A. simpl. lia.
    + destruct (s <? PlayerScore.total_score p); simpl; lia.
Qed.

Lemma above_le_players (s : Z) (db : DatabaseService) :
  Nat.le
    (List.length
       (filter (fun doc => match doc with
                           | PlayerScoreDoc q => s <? PlayerScore.total_score q
                           | DungeonScoreDoc _ => false
                           end) (leaderboard db)))
    (List.length (players db)).
Proof.
  unfold players. induction (leaderboard db) as [|[q|d] c IH]; simpl;
    [lia| |exact IH].
  destruct (s <? PlayerScore.total_score q); simpl; lia.
Qed.

Lemma player_row_In (db : DatabaseService) (p : PlayerScore.t) :
  player_row db p -> In (PlayerScoreDoc p) (leaderboard db).
Proof.
  intros Row.
  assert (I : In p (rows_of_player (PlayerScore.user_id p) (leaderboard db)))
    by (rewrite Row; now left).
  now apply rows_of_player_In in I.
Qed.

(** X27.  Player ranks follow the scores.  The rank of a player with a row
    lies between 1 and the number of player rows; a player whose score is
    at least another's is ranked at least as well, and one whose score is
    strictly greater is ranked strictly better; in particular nobody
    outranks the best score, which has rank 1. *)
Theorem player_ranks_follow_scores
        (db : DatabaseService) (p q : PlayerScore.t) :
  player_row db p ->
  player_row db q ->
  exists rp rq,
    LeaderboardService.get_player_rank (PlayerScore.user_id p) db
    = (Return (Some rp), db)
    /\ LeaderboardService.get_player_rank (PlayerScore.user_id q) db
       = (Return (Some rq), db)
    /\ 1 <= rp <= len (players db)
    /\ (PlayerScore.total_score p <= PlayerScore.total_score q -> rq <= rp)
    /\ (PlayerScore.total_score p < PlayerScore.total_score q -> rq < rp)
    /\ ((forall x, In x (players db) ->
                   PlayerScore.total_score x <= PlayerScore.total_score p) ->
        rp = 1).
Proof.
  intros Rp Rq.
  exists (players_above (PlayerScore.total_score p) db + 1),
         (players_above (PlayerScore.total_score q) db + 1).
  split; [now apply get_player_rank_of_row|].
  split; [now apply get_player_rank_of_row|].
  pose proof (player_row_In db p Rp) as Ip.
  pose proof (player_row_In db q Rq) as Iq.
  unfold players_above, len. split; [|split; [|split]].
  - pose proof (above_le_players (PlayerScore.total_score p) db) as Le.
    assert (In (PlayerScoreDoc p) (leaderboard db)) by exact Ip.
    assert (Lt : Nat.lt
                   (List.length
                      (filter
                         (fun doc =>
                            match doc with
                            | PlayerScoreDoc x =>
                              PlayerScore.total_score p
                              <? PlayerScore.total_score x
                            | DungeonScoreDoc _ => false
                            end) (leaderboard db)))
                   (List.length (players db))).
    { unfold players. clear Le Rp Rq Iq H.
      induction (leaderboard db) as [|x c IH]; [destruct Ip|].
      destruct Ip as [->|Ip]; cbn [filter flat_map].
      - rewrite Z.ltb_irrefl. simpl.
        pose proof (above_le_players (PlayerScore.total_score p)
                                     (mkDb [] [] [] [] c)) as Le.
        unfold players in Le. simpl in Le. lia.
      - specialize (IH Ip). destruct x as [y|d]; [|exact IH].
        destruct (_ <? _); simpl; lia. }
    lia.
  - intros Le.
    pose proof (above_mono _ _ (leaderboard db) Le). lia.
  - intros Lt.
    assert (B : PlayerScore.total_score p < PlayerScore.total_score q
                <= PlayerScore.total_score q) by lia.
    pose proof (above_strict _ _ (leaderboard db) q Iq B). lia.
  - intros Best.
    replace (filter _ (leaderboard db)) with (@nil LeaderboardItem);
      [reflexivity|].
    symmetry. apply filter_nil_forall. intros [x|d] Hx; [|reflexivity].
    apply Z.ltb_ge. apply Best. unfold players. apply in_flat_map.
    exists (PlayerScoreDoc x). split; [exact Hx|now left].
Qed.

Lemma player_ranks_follow_scores_witness :
  player_row db_board ann_row
  /\ player_row db_board
       (PlayerScore.mk "score-2" "bea" "bea" 300 0 0 float_zero 1000 1000 1000
                       "player_scores")
  /\ exists rp rq,
      LeaderboardService.get_player_rank "ann" db_board
      = (Return (Some rp), db_board)
      /\ LeaderboardService.get_player_rank "bea" db_board
         = (Return (Some rq), db_board)
      /\ rq < rp.
Proof.
  split; [reflexivity|]. split; [reflexivity|].
  destruct (player_ranks_follow_scores
              db_board ann_row
              (PlayerScore.mk "score-2" "bea" "bea" 300 0 0 float_zero 1000
                              1000 1000 "player_scores")
              eq_refl eq_refl)
    as (rp & rq & Ep & Eq & _ & _ & Lt & _).
  exists rp, rq. split; [exact Ep|]. split; [exact Eq|].
  apply Lt. simpl. lia.
Defined.

(** *** Friendships: the listings of requests *)

(** The addressee's answer to a request that was just stored. *)
Lemma answer_fresh_request (db db1 : DatabaseService) (a b uuid : string)
      (now now' : timestamp) :
  fresh_id uuid (friendships db) ->
  filter (FriendshipService.directed a b) (friendships db) = [] ->
  friendships db1 = friendships db ++ [Friendship.mk uuid a b PENDING now now a] ->
  let f0 := Friendship.mk uuid a b PENDING now now a in
  FriendshipService.accept_friend_request b a now' db1
  = (Return true,
     write friendships_container
           (friendships db ++ [on_update now' (Friendship.with_status ACCEPTED f0)])
           db1)
  /\ FriendshipService.reject_friend_request b a now' db1
     = (Return true,
        write friendships_container
              (friendships db
               ++ [on_update now' (Friendship.with_status REJECTED f0)])
              db1).
Proof.
  intros Fresh Fab F1 f0.
  assert (Dab : FriendshipService.directed a b f0 = true)
    by (apply directed_true; split; reflexivity).
  assert (G1 : FriendshipService._get_friendship a b db1
               = (Return (Some f0), db1)).
  { rewrite _get_friendship_first, F1, filter_app, Fab. cbn [filter app].
    fold f0. now rewrite Dab. }
  assert (N : forall x, In x (friendships db) ->
                        Container.addressed uuid a x = false).
  { apply unaddressed_by_id. intros x Hx E. apply Fresh.
    rewrite <- E. now apply in_map. }
  assert (A : Container.addressed uuid a f0 = true)
    by (apply addressed_true; split; reflexivity).
  split.
  - unfold FriendshipService.accept_friend_request, bind. rewrite G1. simpl.
    unfold bind.
    now rewrite (update_item_at friendships_container db1 (friendships db) []
                   f0 uuid a (Friendship.with_status ACCEPTED) now' F1 N A
                   eq_refl).
  - unfold FriendshipService.reject_friend_request, bind. rewrite G1. simpl.
    unfold bind.
    now rewrite (update_item_at friendships_container db1 (friendships db) []
                   f0 uuid a (Friendship.with_status REJECTED) now' F1 N A
                   eq_refl).
Qed.

(** X28.  A request that [send_friend_request] has stored is listed by
    [get_sent_requests] for its requester and by [get_pending_requests]
    for its addressee.  Once the addressee has accepted or rejected it,
    the requester's sent listing holds no request to the addressee and the
    addressee's pending listing holds none from the requester. *)
Theorem friend_request_listings
        (db db1 : DatabaseService) (a b uuid : string) (now now' : timestamp)
        (f : Friendship.t) :
  fresh_id uuid (friendships db) ->
  FriendshipService.send_friend_request a b uuid now db = (Return f, db1) ->
  (exists sent pending,
      FriendshipService.get_sent_requests a db1 = (Return sent, db1)
      /\ In f sent
      /\ FriendshipService.get_pending_requests b db1 = (Return pending, db1)
      /\ In f pending)
  /\ forall answer,
      answer = FriendshipService.accept_friend_request
      \/ answer = FriendshipService.reject_friend_request ->
      exists db2 sent pending,
        answer b a now' db1 = (Return true, db2)
        /\ FriendshipService.get_sent_requests a db2 = (Return sent, db2)
        /\ (forall g, In g sent -> Friendship.addressee_id g <> b)
        /\ FriendshipService.get_pending_requests b db2 = (Return pending, db2)
        /\ (forall g, In g pending -> Friendship.requester_id g <> a).
Proof.
  intros Fresh Sent.
  destruct (send_friend_request_cases db a b uuid now)
    as [(msg & E & _)|(Ne & Fab & Fba & E)]; [congruence|].
  cbv zeta in E. rewrite E in Sent. clear E.
  set (f0 := Friendship.mk uuid a b PENDING now now a) in *.
  assert (F1 : friendships db1 = friendships db ++ [f0])
    by (injection Sent as _ <-; reflexivity).
  assert (Ef : f = f0) by (injection Sent as <- _; reflexivity).
  subst f. clear Sent.
  split.
  - eexists. eexists.
    split; [reflexivity|]. split; [|split; [reflexivity|]].
    + unfold Container.query_items.
      change (read friendships_container db1) with (friendships db1).
      rewrite F1. apply filter_In. split; [apply in_or_app; right; now left|].
      simpl. now rewrite String.eqb_refl.
    + unfold Container.query_items.
      change (read friendships_container db1) with (friendships db1).
      rewrite F1. apply filter_In. split; [apply in_or_app; right; now left|].
      simpl. now rewrite String.eqb_refl.
  - intros answer Which.
    destruct (answer_fresh_request db db1 a b uuid now now' Fresh Fab F1)
      as [Acc Rej].
    assert (Old : forall g, In g (friendships db) ->
                            Friendship.requester_id g = a ->
                            Friendship.addressee_id g <> b).
    { intros g Hg Rq Ad. rewrite filter_nil_forall in Fab.
      specialize (Fab g Hg).
      assert (FriendshipService.directed a b g = true)
        by (apply directed_true; auto).
      congruence. }
    assert (Listing :
              forall s db2,
                s <> PENDING ->
                friendships db2
                = friendships db ++ [on_update now' (Friendship.with_status s f0)] ->
                exists sent pending,
                  FriendshipService.get_sent_requests a db2 = (Return sent, db2)
                  /\ (forall g, In g sent -> Friendship.addressee_id g <> b)
                  /\ FriendshipService.get_pending_requests b db2
                     = (Return pending, db2)
                  /\ (forall g, In g pending -> Friendship.requester_id g <> a)).
    { intros s db2 Ns F2. eexists. eexists.
      split; [reflexivity|]. split; [|split; [reflexivity|]].
      - intros g Hg. unfold Container.query_items in Hg.
        change (read friendships_container db2) with (friendships db2) in Hg.
        rewrite F2 in Hg. apply filter_In in Hg. destruct Hg as [Hg P].
        apply andb_true_iff in P. destruct P as [P S].
        apply String.eqb_eq in P. apply FriendshipStatus_eqb_eq in S.
        apply in_app_or in Hg. destruct Hg as [Hg|[<-|[]]];
          [now apply Old|contradiction].
      - intros g Hg. unfold Container.query_items in Hg.
        change (read friendships_container db2) with (friendships db2) in Hg.
        rewrite F2 in Hg. apply filter_In in Hg. destruct Hg as [Hg P].
        apply andb_true_iff in P. destruct P as [P S].
        apply String.eqb_eq in P. apply FriendshipStatus_eqb_eq in S.
        apply in_app_or in Hg. destruct Hg as [Hg|[<-|[]]];
          [|contradiction].
        intros Rq. now apply (Old g Hg Rq). }
    destruct Which as [-> | ->].
    + destruct (Listing ACCEPTED
                  (write friendships_container
                     (friendships db
                      ++ [on_update now' (Friendship.with_status ACCEPTED f0)])
                     db1)
                  ltac:(discriminate) eq_refl)
        as (sent & pending & L).
      eexists. exists sent, pending. split; [exact Acc|exact L].
    + destruct (Listing REJECTED
                  (write friendships_container
                     (friendships db
                      ++ [on_update now' (Friendship.with_status REJECTED f0)])
                     db1)
                  ltac:(discriminate) eq_refl)
        as (sent & pending & L).
      eexists. exists sent, pending. split; [exact Rej|exact L].
Qed.

Lemma friend_request_listings_witness :
  fresh_id "friendship-1" (friendships empty_db)
  /\ exists sent pending,
      FriendshipService.get_sent_requests "alice" db_requested
      = (Return sent, db_requested)
      /\ In alice_asked_bob sent
      /\ FriendshipService.get_pending_requests "bob" db_requested
         = (Return pending, db_requested)
      /\ In alice_asked_bob pending.
Proof.
  assert (Fresh : fresh_id "friendship-1" (friendships empty_db))
    by intros [].
  split; [exact Fresh|].
  exact (proj1 (friend_request_listings
                  empty_db db_requested "alice" "bob" "friendship-1" 1000 2000
                  alice_asked_bob Fresh eq_refl)).
Defined.

(** *** The database service: point reads and partition listings *)

(** X29.  In any container with unique identifiers,
    [get_items_by_partition] lists a document exactly when a point read
    [get_item] at the document's identifier and that partition key returns
    it: the two ways of reading a partition agree. *)
Theorem partition_listing_agrees_with_point_read
        {D : Type} `{Document D} (c : container D) (db : DatabaseService)
        (partition_key : string) (d : D) :
  unique_ids (read c db) ->
  exists listing,
    get_items_by_partition c partition_key db = (Return listing, db)
    /\ (In d listing <->
        get_item c (doc_id d) partition_key db = (Return (Some d), db)).
Proof.
  intros U. eexists. split; [reflexivity|].
  unfold Container.query_items, get_item. rewrite filter_In, String.eqb_eq.
  split.
  - intros [I Pk].
    destruct (in_unique_split _ d U I) as (l1 & l2 & E & N1 & _).
    rewrite E. do 2 f_equal. apply read_item_app.
    + now apply unaddressed_by_id.
    + apply addressed_true. auto.
  - intros E. injection E as E.
    destruct (read_item_split _ _ _ _ E) as (l1 & l2 & -> & _ & A).
    apply addressed_true in A. split; [|tauto].
    apply in_or_app. right. now left.
Qed.

Lemma partition_listing_agrees_with_point_read_witness :
  unique_ids (read friendships_container db_friends)
  /\ exists listing,
      get_items_by_partition friendships_container "alice" db_friends
      = (Return listing, db_friends)
      /\ In alice_and_bob listing.
Proof.
  assert (U : unique_ids (read friendships_container db_friends)).
  { unfold unique_ids. simpl. repeat constructor. intros []. }
  split; [exact U|].
  destruct (partition_listing_agrees_with_point_read
              friendships_container db_friends "alice" alice_and_bob U)
    as (listing & E & L).
  exists listing. split; [exact E|]. now apply L.
Defined.
